(** * ALVR server driver: streaming core

    A shallow embedding of the C++ driver entry points of the ALVR server
    ([alvr_server.cpp], [OvrHMD.cpp], [ffmpeg_helper.cpp]) and of the
    properties its specification states about them.

    Conventions of the embedding:
    - [float] and [double] values are exact rationals ([Q]); a computation
      that divides by zero leaves the model ([None]), the embedding does not
      follow IEEE infinities and NaN any further;
    - [uint64_t] identifiers, handles and timestamps are integers ([Z]);
      the code only copies and compares them;
    - a [std::shared_ptr] that may be empty is an [option]; dereferencing an
      empty one is a crash, so an entry point that dereferences without a
      test returns an [option] of the next state;
    - calls into the VR runtime, the logger and the Rust side are recorded,
      in order, in the [host_calls] trace of the provider. *)

From Stdlib Require Import QArith Lqa ZArith String List Bool Sorted.
From stdpp Require Import gmap sorting pretty.

Open Scope Z_scope.

(** ** Platform and settings *)

(** The three build targets selected by [_WIN32] and [__APPLE__]. *)
Inductive Platform := Win32 | MacOS | Linux.

(** The fields of [Settings::Instance()] the modelled code reads. *)
Record Settings := {
  m_hapticsMinDuration : Q;
  m_hapticsLowDurationAmplitudeMultiplier : Q;
  m_hapticsLowDurationRange : Q;
  m_hapticsAmplitudeCurve : Q;
  m_TrackingRefOnly : bool;
  m_disableController : bool;
  m_enableViveTrackerProxy : bool;
  m_controllerMode : Z;
  m_refreshRate : Z
}.

(** ** Haptics *)

(** A value of a floating-point computation: a rational, or [None] once a
    division by zero has occurred.  The arithmetic is exact: no rounding,
    and where the machine division by zero yields an infinity or a NaN and
    the code carries on with it, the embedding stops at [None]. *)
Definition float := option Q.

Definition fdiv (a b : float) : float :=
  match a, b with
  | Some x, Some y => if Qeq_bool y 0 then None else Some (x / y)%Q
  | _, _ => None
  end.

Definition fadd (a b : float) : float :=
  match a, b with
  | Some x, Some y => Some (x + y)%Q
  | _, _ => None
  end.

Definition fmul (a b : float) : float :=
  match a, b with
  | Some x, Some y => Some (x * y)%Q
  | _, _ => None
  end.

(** [vr::VREvent_HapticVibration_t]. *)
Record HapticVibration := {
  containerHandle : Z;
  fDurationSeconds : Q;
  fFrequency : Q;
  fAmplitude : Q
}.

(** [fixInvalidHaptics(float hapticFeedback[3])]: index 1 is the duration. *)
Definition fixInvalidHaptics (hapticFeedback : Q * Q * Q) : Q * Q * Q :=
  let '(h0, h1, h2) := hapticFeedback in
  if Qeq_bool h1 0 then (h0, 0.005%Q, h2) else (h0, h1, h2).

Definition haptic_duration (hapticFeedback : Q * Q * Q) : Q :=
  snd (fst hapticFeedback).

(** The first statement of the haptics branch of [RunFrame]: the duration
    is raised to half the minimum duration. *)
Definition clamp_duration (s : Settings) (duration : Q) : Q :=
  if Qlt_le_dec duration (m_hapticsMinDuration s * 0.5)
  then (m_hapticsMinDuration s * 0.5)%Q
  else duration.

(** The last assignment to [duration] in [RunFrame]:
    [pow(min, 2) * 0.25 / duration + duration]. *)
Definition remap_duration (s : Settings) (duration : Q) : float :=
  fadd (fdiv (Some (m_hapticsMinDuration s ^ 2 * 0.25)%Q) (Some duration))
       (Some duration).

Definition shaped_duration (s : Settings) (fDuration : Q) : float :=
  remap_duration s (clamp_duration s fDuration).

(** ** Values exchanged with the client and the VR runtime *)

Record HmdQuaternion := { qw : Q; qx : Q; qy : Q; qz : Q }.

Definition HmdQuaternion_Init (w x y z : Q) : HmdQuaternion :=
  {| qw := w; qx := x; qy := y; qz := z |}.

(** [AlvrDeviceMotion], the fields the driver reads. *)
Record AlvrDeviceMotion := {
  deviceID : Z;
  orientation : HmdQuaternion;
  position : Q * Q * Q
}.

Inductive ETrackingResult := TrackingResult_Uninitialized | TrackingResult_Running_OK.

(** [vr::DriverPose_t], the fields [OnPoseUpdated] writes. *)
Record DriverPose_t := {
  poseIsValid : bool;
  result : ETrackingResult;
  deviceIsConnected : bool;
  qWorldFromDriverRotation : HmdQuaternion;
  qDriverFromHeadRotation : HmdQuaternion;
  qRotation : HmdQuaternion;
  vecPosition : Q * Q * Q
}.

Inductive ETrackedDeviceClass :=
| TrackedDeviceClass_HMD
| TrackedDeviceClass_Controller
| TrackedDeviceClass_GenericTracker
| TrackedDeviceClass_TrackingReference.

(** Payloads the driver forwards without looking inside. *)
Inductive OculusHand := mkOculusHand (bones : list Q).
Inductive AlvrButtonValue := mkAlvrButtonValue (raw : Q).
Inductive OpenvrProperty := mkOpenvrProperty (key : Z) (raw : Z).

Definition k_unTrackedDeviceIndexInvalid : Z := 4294967295.
Definition k_ulInvalidPropertyContainer : Z := 0.

Inductive PropKey :=
| Prop_DeviceBatteryPercentage_Float
| Prop_DeviceIsCharging_Bool
| Prop_DisplayFrequency_Float.

(** Which device a [TrackedDevice *] of the provider's table points to. *)
Inductive DeviceRef := RefHmd | RefLeft | RefRight.

(** The devices the [OvrHmd] constructor registers with the runtime. *)
Inductive RegisteredDevice := RegHmd | RegLeft | RegRight | RegViveTracker.

(** Calls that leave the driver: the VR runtime, the logger, the client. *)
Inductive HostCall :=
| HapticsSend (path : Z) (duration_s : float) (frequency : Q) (amplitude : float)
| TrackedDevicePoseUpdated (object : Z) (pose : DriverPose_t)
| TrackedDeviceAdded (device : RegisteredDevice) (class : ETrackedDeviceClass)
| SetFloatProperty (container : Z) (prop : PropKey) (value : Q)
| SetBoolProperty (container : Z) (prop : PropKey) (value : bool)
| DeviceSetProp (container : Z) (prop : OpenvrProperty)
| ViveTrackerProxyUpdate
| LogWarn (message : string)
| LogError (format : string) (args : list string).

(** The path hashes of [Paths.h]; [init_paths] fills them at start-up. *)
Record Paths := {
  HEAD_ID : Z;
  LEFT_HAND_ID : Z;
  RIGHT_HAND_ID : Z;
  LEFT_CONTROLLER_HAPTIC_ID : Z;
  RIGHT_CONTROLLER_HAPTIC_ID : Z;
  LEFT_CONTROLLER_BUTTON_IDS : list Z;
  RIGHT_CONTROLLER_BUTTON_IDS : list Z
}.

(** ** PoseHistory *)

Record PoseSample := {
  targetTimestampNs : Z;
  sample_motion : AlvrDeviceMotion
}.

(** Modelled from the spec: [PoseHistory] ([PoseHistory.cpp] is not among
    the sources).  A bounded ordered sequence of samples keyed by target
    timestamp, oldest first, holding the last [ph_capacity] samples. *)
Record PoseHistory := {
  ph_capacity : nat;
  ph_samples : list PoseSample
}.

Definition ph_latest (ph : PoseHistory) : option Z :=
  targetTimestampNs <$> last (ph_samples ph).

(** Keep the newest [n] entries of a buffer whose newest entry is last. *)
Definition keep_newest {A} (n : nat) (l : list A) : list A :=
  skipn (length l - n) l.

(** Modelled from the spec: [record(timestampNs, pose)], which is
    [PoseHistory::OnPoseUpdated] in the code.  The sample is stored when its
    timestamp is strictly greater than the most recent recorded one, and
    dropped otherwise; storing evicts the oldest sample of a full buffer. *)
Definition PoseHistory_OnPoseUpdated
    (ph : PoseHistory) (timestampNs : Z) (motion : AlvrDeviceMotion) : PoseHistory :=
  let sample := {| targetTimestampNs := timestampNs; sample_motion := motion |} in
  let push := {| ph_capacity := ph_capacity ph;
                 ph_samples := keep_newest (ph_capacity ph) (ph_samples ph ++ [sample]) |} in
  match ph_latest ph with
  | Some latest => if timestampNs <=? latest then ph else push
  | None => push
  end.

Definition PoseHistory_new (capacity : nat) : PoseHistory :=
  {| ph_capacity := capacity; ph_samples := [] |}.

(** Replaying a sequence of [record] calls. *)
Definition PoseHistory_record_all
    (ph : PoseHistory) (calls : list (Z * AlvrDeviceMotion)) : PoseHistory :=
  fold_left (fun h c => PoseHistory_OnPoseUpdated h (fst c) (snd c)) calls ph.

(** ** Bitrate control *)

(** [Statistics], reached through [m_Listener->m_Statistics].  The code
    under verification writes [m_enableAdaptiveBitrate],
    [m_adaptiveBitrateMaximum] and [m_bitrate]; the remaining fields are
    the rest of the spec's BitrateState. *)
Record Statistics := {
  m_enableAdaptiveBitrate : bool;
  m_adaptiveBitrateMaximum : Z;
  m_bitrate : Z;
  m_adaptiveBitrateMinimum : Z;
  m_latencyEma : Z;
  m_framesSinceLoss : Z;
  m_fecFailures : Z
}.

(** One completed frame's report to the controller. *)
Record Feedback := {
  encodeTimeNs : Z;
  transmitTimeNs : Z;
  ackRoundTripNs : Z;
  wasLost : bool
}.

(** The operator-tunable parameters of the adaptive curve. *)
Record BitrateTuning := {
  lowWaterNs : Z;
  highWaterNs : Z;
  lossWindow : Z;
  emaWeight : Z;
  increaseStep : Z;
  decreaseNum : Z;
  decreaseDen : Z
}.

Definition clamp_bitrate (lo hi x : Z) : Z := Z.max lo (Z.min hi x).

(** Modelled from the spec: the adaptive-mode step of the BitrateController
    ([Statistics.h] and [ClientConnection.cpp] are not among the sources).
    The latency average and the loss window are updated; the target is
    decreased multiplicatively on loss or high latency, increased additively
    on low latency with a clean window, and clamped to
    [[minimum, operator-configured maximum]].  Fixed mode keeps the
    operator's bitrate. *)
Definition Statistics_OnFeedback (t : BitrateTuning) (st : Statistics) (fb : Feedback)
  : Statistics :=
  if m_enableAdaptiveBitrate st then
    let ema := (m_latencyEma st * (emaWeight t - 1) + ackRoundTripNs fb) / emaWeight t in
    let since := if wasLost fb then 0 else m_framesSinceLoss st + 1 in
    let raw :=
      if wasLost fb || (highWaterNs t <? ema)
      then m_bitrate st * decreaseNum t / decreaseDen t
      else if (ema <? lowWaterNs t) && (lossWindow t <=? since)
           then m_bitrate st + increaseStep t
           else m_bitrate st in
    {| m_enableAdaptiveBitrate := true;
       m_adaptiveBitrateMaximum := m_adaptiveBitrateMaximum st;
       m_bitrate := clamp_bitrate (m_adaptiveBitrateMinimum st)
                                  (m_adaptiveBitrateMaximum st) raw;
       m_adaptiveBitrateMinimum := m_adaptiveBitrateMinimum st;
       m_latencyEma := ema;
       m_framesSinceLoss := since;
       m_fecFailures := m_fecFailures st |}
  else st.

(** The bitrates the controller publishes while a feedback sequence is
    processed, one per feedback, in order. *)
Fixpoint adjusted_bitrates (t : BitrateTuning) (st : Statistics) (fbs : list Feedback)
  : list Z :=
  match fbs with
  | [] => []
  | fb :: rest =>
      let st' := Statistics_OnFeedback t st fb in
      m_bitrate st' :: adjusted_bitrates t st' rest
  end.

(** ** Network session and encode pipeline *)

(** [ClientConnection]. *)
Record ClientConnection := {
  m_Statistics : Statistics
}.

(** Modelled from the spec: the state of a new session, fixed mode with
    the operator's bitrate and no feedback seen ([ClientConnection.cpp] and
    [Statistics.h] are not among the sources). *)
Definition Statistics_new : Statistics :=
  {| m_enableAdaptiveBitrate := false; m_adaptiveBitrateMaximum := 0;
     m_bitrate := 30; m_adaptiveBitrateMinimum := 0;
     m_latencyEma := 0; m_framesSinceLoss := 0; m_fecFailures := 0 |}.

Definition ClientConnection_new : ClientConnection :=
  {| m_Statistics := Statistics_new |}.

(** Modelled from the spec: [ClientConnection::OnFecFailure]
    ([ClientConnection.cpp] is not among the sources).  The session records
    the loss for the loss-rate estimate. *)
Definition ClientConnection_OnFecFailure (c : ClientConnection) : ClientConnection :=
  let st := m_Statistics c in
  {| m_Statistics :=
       {| m_enableAdaptiveBitrate := m_enableAdaptiveBitrate st;
          m_adaptiveBitrateMaximum := m_adaptiveBitrateMaximum st;
          m_bitrate := m_bitrate st;
          m_adaptiveBitrateMinimum := m_adaptiveBitrateMinimum st;
          m_latencyEma := m_latencyEma st;
          m_framesSinceLoss := 0;
          m_fecFailures := m_fecFailures st + 1 |} |}.

Record FrameJob := {
  frameIndex : Z;
  presentationTimestampNs : Z;
  predictedHeadPose : option PoseSample;
  isKeyframeRequested : bool
}.

(** Modelled from the spec: the EncodePipeline behind [CEncoder]
    ([CEncoder.cpp] of each platform is not among the sources). *)
Record CEncoder := {
  enc_initialized : bool;
  enc_running : bool;
  enc_streamStarted : bool;
  enc_connected : bool;
  enc_keyframeRecovery : bool;
  enc_frameCounter : Z
}.

Definition CEncoder_new : CEncoder :=
  {| enc_initialized := false; enc_running := false; enc_streamStarted := false;
     enc_connected := false; enc_keyframeRecovery := false; enc_frameCounter := 0 |}.

Definition CEncoder_with_flags (e : CEncoder) (initialized running started recovery : bool)
  : CEncoder :=
  {| enc_initialized := initialized; enc_running := running;
     enc_streamStarted := started; enc_connected := enc_connected e;
     enc_keyframeRecovery := recovery;
     enc_frameCounter := enc_frameCounter e |}.

(** Modelled from the spec: [start()] begins the pipeline thread. *)
Definition CEncoder_Start (e : CEncoder) : CEncoder :=
  CEncoder_with_flags e (enc_initialized e) true (enc_streamStarted e) (enc_keyframeRecovery e).

(** Modelled from the spec: a successful [initialize(deviceContext)]. *)
Definition CEncoder_Initialized (e : CEncoder) : CEncoder :=
  CEncoder_with_flags e true (enc_running e) (enc_streamStarted e) (enc_keyframeRecovery e).

(** [CEncoder::OnStreamStart] of the Windows build, kept as a mark on the
    encoder. *)
Definition CEncoder_OnStreamStart (e : CEncoder) : CEncoder :=
  CEncoder_with_flags e (enc_initialized e) (enc_running e) true (enc_keyframeRecovery e).

(** Modelled from the spec: [onPacketLoss()] / [onFecFailure()] set the
    keyframe-recovery flag for the next cycle; [insertIDR()] forces a
    keyframe on demand through the same flag. *)
Definition CEncoder_OnPacketLoss (e : CEncoder) : CEncoder :=
  CEncoder_with_flags e (enc_initialized e) (enc_running e) (enc_streamStarted e) true.

Definition CEncoder_InsertIDR (e : CEncoder) : CEncoder :=
  CEncoder_with_flags e (enc_initialized e) (enc_running e) (enc_streamStarted e) true.

(** Modelled from the spec: [onFrameIntervalElapsed()] creates the FrameJob
    of the next cycle.  [cadence] says whether the normal keyframe cadence
    asks for a keyframe at this frame; the recovery flag is consumed and the
    monotonic frame counter advances. *)
Definition CEncoder_onFrameIntervalElapsed
    (e : CEncoder) (cadence : bool) (presentationNs : Z) (pose : option PoseSample)
  : FrameJob * CEncoder :=
  ({| frameIndex := enc_frameCounter e;
      presentationTimestampNs := presentationNs;
      predictedHeadPose := pose;
      isKeyframeRequested := enc_keyframeRecovery e || cadence |},
   {| enc_initialized := enc_initialized e; enc_running := enc_running e;
      enc_streamStarted := enc_streamStarted e; enc_connected := enc_connected e;
      enc_keyframeRecovery := false;
      enc_frameCounter := enc_frameCounter e + 1 |}).

(** ** Devices *)

(** Modelled from the spec: the controller as the pose and button sink of
    its device ([OvrController.cpp] is not among the sources).  It keeps
    what it was handed, oldest first. *)
Record OvrController := {
  ctl_device_id : Z;
  ctl_prop_container : Z;
  ctl_poses : list (Q * AlvrDeviceMotion * OculusHand);
  ctl_buttons : list (Z * AlvrButtonValue)
}.

Definition OvrController_new (device_id : Z) : OvrController :=
  {| ctl_device_id := device_id;
     ctl_prop_container := k_ulInvalidPropertyContainer;
     ctl_poses := []; ctl_buttons := [] |}.

(** Modelled from the spec: the pose sink of a controller takes the motion
    as it is, no prediction history is kept for controllers. *)
Definition OvrController_onPoseUpdate
    (c : OvrController) (offsetS : Q) (motion : AlvrDeviceMotion) (hand : OculusHand)
  : OvrController :=
  {| ctl_device_id := ctl_device_id c;
     ctl_prop_container := ctl_prop_container c;
     ctl_poses := ctl_poses c ++ [(offsetS, motion, hand)];
     ctl_buttons := ctl_buttons c |}.

(** Modelled from the spec: the button sink of a controller
    ([OvrController::SetButton] is not among the sources). *)
Definition OvrController_SetButton
    (c : OvrController) (path : Z) (value : AlvrButtonValue) : OvrController :=
  {| ctl_device_id := ctl_device_id c;
     ctl_prop_container := ctl_prop_container c;
     ctl_poses := ctl_poses c;
     ctl_buttons := ctl_buttons c ++ [(path, value)] |}.

(** The direct-mode component of the Windows build. *)
Record OvrDirectModeComponent := { dm_hasEncoder : bool }.

(** [OvrHmd].  The two controllers it creates are shared with the provider
    and are kept there ([left_controller], [right_controller]). *)
Record OvrHmd := {
  object_id : Z;
  prop_container : Z;
  m_deviceClass : ETrackedDeviceClass;
  m_pose : DriverPose_t;
  m_poseHistory : PoseHistory;
  m_baseComponentsInitialized : bool;
  m_streamComponentsInitialized : bool;
  m_refreshRateSet : bool;
  m_Listener : option ClientConnection;
  m_encoder : option CEncoder;
  m_directModeComponent : option OvrDirectModeComponent;
  m_viveTrackerProxy : bool
}.

(** [OvrHmd::IsHMD], declared in [OvrHMD.h]: the device is registered as
    an HMD and not as a tracking reference. *)
Definition IsHMD (h : OvrHmd) : bool :=
  match m_deviceClass h with TrackedDeviceClass_HMD => true | _ => false end.

Definition hmd_with_pose (h : OvrHmd) (pose : DriverPose_t) (ph : PoseHistory)
    (refreshRateSet : bool) : OvrHmd :=
  {| object_id := object_id h; prop_container := prop_container h;
     m_deviceClass := m_deviceClass h;
     m_pose := pose; m_poseHistory := ph;
     m_baseComponentsInitialized := m_baseComponentsInitialized h;
     m_streamComponentsInitialized := m_streamComponentsInitialized h;
     m_refreshRateSet := refreshRateSet;
     m_Listener := m_Listener h; m_encoder := m_encoder h;
     m_directModeComponent := m_directModeComponent h;
     m_viveTrackerProxy := m_viveTrackerProxy h |}.

Definition hmd_with_stream (h : OvrHmd) (listener : option ClientConnection)
    (encoder : option CEncoder) (dm : option OvrDirectModeComponent)
    (streamInitialized : bool) : OvrHmd :=
  {| object_id := object_id h; prop_container := prop_container h;
     m_deviceClass := m_deviceClass h;
     m_pose := m_pose h; m_poseHistory := m_poseHistory h;
     m_baseComponentsInitialized := m_baseComponentsInitialized h;
     m_streamComponentsInitialized := streamInitialized;
     m_refreshRateSet := m_refreshRateSet h;
     m_Listener := listener; m_encoder := encoder;
     m_directModeComponent := dm;
     m_viveTrackerProxy := m_viveTrackerProxy h |}.

(** [DriverProvider g_driver_provider], with the settings singleton and the
    trace of outgoing calls. *)
Record DriverProvider := {
  hmd : option OvrHmd;
  left_controller : option OvrController;
  right_controller : option OvrController;
  tracked_devices : gmap Z DeviceRef;
  settings : Settings;
  host_calls : list HostCall
}.

Definition with_hmd (d : DriverProvider) (h : OvrHmd) (calls : list HostCall)
  : DriverProvider :=
  {| hmd := Some h;
     left_controller := left_controller d; right_controller := right_controller d;
     tracked_devices := tracked_devices d; settings := settings d;
     host_calls := host_calls d ++ calls |}.

Definition with_left (d : DriverProvider) (c : OvrController) : DriverProvider :=
  {| hmd := hmd d;
     left_controller := Some c; right_controller := right_controller d;
     tracked_devices := tracked_devices d; settings := settings d;
     host_calls := host_calls d |}.

Definition with_right (d : DriverProvider) (c : OvrController) : DriverProvider :=
  {| hmd := hmd d;
     left_controller := left_controller d; right_controller := Some c;
     tracked_devices := tracked_devices d; settings := settings d;
     host_calls := host_calls d |}.

Definition with_settings (d : DriverProvider) (s : Settings) : DriverProvider :=
  {| hmd := hmd d;
     left_controller := left_controller d; right_controller := right_controller d;
     tracked_devices := tracked_devices d; settings := s;
     host_calls := host_calls d |}.

Definition emit (d : DriverProvider) (calls : list HostCall) : DriverProvider :=
  {| hmd := hmd d;
     left_controller := left_controller d; right_controller := right_controller d;
     tracked_devices := tracked_devices d; settings := settings d;
     host_calls := host_calls d ++ calls |}.

(** The device a table entry points to, as the [TrackedDevice] base sees
    it: its property container. *)
Definition deref (d : DriverProvider) (r : DeviceRef) : option Z :=
  match r with
  | RefHmd => prop_container <$> hmd d
  | RefLeft => ctl_prop_container <$> left_controller d
  | RefRight => ctl_prop_container <$> right_controller d
  end.

(** [std::map::insert]: an existing key keeps its value. *)
Definition map_insert (k : Z) (r : DeviceRef) (m : gmap Z DeviceRef) : gmap Z DeviceRef :=
  match m !! k with
  | Some _ => m
  | None => <[k := r]> m
  end.

(** ** The driver entry points *)

Section Driver.

(** The path constants, the build target and libm's [pow] for an exponent
    that is not a literal integer. *)
Variable P : Paths.
Variable platform : Platform.
Variable pow : Q -> Q -> float.

Definition fpow (x : float) (y : Q) : float :=
  match x with
  | Some v => pow v y
  | None => None
  end.

(** The amplitude assignment of [RunFrame]; [duration] is the clamped one. *)
Definition shaped_amplitude (s : Settings) (duration amplitude : Q) : float :=
  let inner :=
    (duration - 0.5 * m_hapticsMinDuration s * (1 - m_hapticsLowDurationRange s))%Q in
  fpow
    (fmul (Some amplitude)
       (fadd
          (fdiv
             (Some ((m_hapticsLowDurationAmplitudeMultiplier s - 1)
                    * m_hapticsMinDuration s * m_hapticsLowDurationRange s)%Q)
             (fadd
                (fdiv
                   (Some ((m_hapticsMinDuration s * m_hapticsLowDurationRange s) ^ 2
                          * 0.25)%Q)
                   (Some inner))
                (Some inner)))
          (Some 1%Q)))
    (1 - m_hapticsAmplitudeCurve s)%Q.

Inductive VREvent :=
| VREvent_Input_HapticVibration (hapticVibration : HapticVibration)
| VREvent_Other (eventType : Z).

Definition is_container (c : option OvrController) (handle : Z) : bool :=
  match c with
  | Some ctl => handle =? ctl_prop_container ctl
  | None => false
  end.

(** The body of the polling loop of [DriverProvider::RunFrame]. *)
Definition RunFrame_event (d : DriverProvider) (event : VREvent) : DriverProvider :=
  match event with
  | VREvent_Input_HapticVibration haptics_info =>
      let duration := clamp_duration (settings d) (fDurationSeconds haptics_info) in
      let amplitude := shaped_amplitude (settings d) duration (fAmplitude haptics_info) in
      let duration' := remap_duration (settings d) duration in
      if is_container (left_controller d) (containerHandle haptics_info) then
        emit d [HapticsSend (LEFT_CONTROLLER_HAPTIC_ID P) duration'
                  (fFrequency haptics_info) amplitude]
      else if is_container (right_controller d) (containerHandle haptics_info) then
        emit d [HapticsSend (RIGHT_CONTROLLER_HAPTIC_ID P) duration'
                  (fFrequency haptics_info) amplitude]
      else d
  | VREvent_Other _ => d
  end.

(** [DriverProvider::RunFrame]; [events] is what [PollNextEvent] hands out
    until it returns false. *)
Definition RunFrame (d : DriverProvider) (events : list VREvent) : DriverProvider :=
  fold_left RunFrame_event events d.

(** [getControllerDeviceClass]. *)
Definition getControllerDeviceClass (s : Settings) : ETrackedDeviceClass :=
  if (m_controllerMode s =? 8) || (m_controllerMode s =? 9)
  then TrackedDeviceClass_GenericTracker
  else TrackedDeviceClass_Controller.

Definition register (accepted : RegisteredDevice -> bool) (dev : RegisteredDevice)
    (class : ETrackedDeviceClass) (warning : string) : list HostCall :=
  TrackedDeviceAdded dev class ::
  (if accepted dev then [] else [LogWarn warning]).

(** [OvrHmd::OvrHmd]: the head device and, unless disabled, the two
    controllers.  [accepted] is the runtime's answer to each registration
    and [capacity] the size of the new [PoseHistory]. *)
Definition OvrHmd_new (s : Settings) (capacity : nat) (accepted : RegisteredDevice -> bool)
  : OvrHmd * option OvrController * option OvrController * list HostCall :=
  let class := if m_TrackingRefOnly s
               then TrackedDeviceClass_TrackingReference
               else TrackedDeviceClass_HMD in
  let h :=
    {| object_id := k_unTrackedDeviceIndexInvalid;
       prop_container := k_ulInvalidPropertyContainer;
       m_deviceClass := class;
       m_pose := {| poseIsValid := true; result := TrackingResult_Running_OK;
                    deviceIsConnected := true;
                    qWorldFromDriverRotation := HmdQuaternion_Init 1 0 0 0;
                    qDriverFromHeadRotation := HmdQuaternion_Init 1 0 0 0;
                    qRotation := HmdQuaternion_Init 1 0 0 0;
                    vecPosition := (0, 0, 0)%Q |};
       m_poseHistory := PoseHistory_new capacity;
       m_baseComponentsInitialized := false;
       m_streamComponentsInitialized := false;
       m_refreshRateSet := false;
       m_Listener := None; m_encoder := None; m_directModeComponent := None;
       m_viveTrackerProxy := m_enableViveTrackerProxy s |} in
  let calls_hmd := register accepted RegHmd class "Failed to register device" in
  let controllers :=
    if m_disableController s then (None, None, [])
    else (Some (OvrController_new (LEFT_HAND_ID P)),
          Some (OvrController_new (RIGHT_HAND_ID P)),
          register accepted RegLeft (getControllerDeviceClass s)
            "Failed to register left controller" ++
          register accepted RegRight (getControllerDeviceClass s)
            "Failed to register right controller") in
  let calls_proxy :=
    if m_enableViveTrackerProxy s
    then register accepted RegViveTracker TrackedDeviceClass_GenericTracker
           "Failed to register Vive tracker"
    else [] in
  (h, fst (fst controllers), snd (fst controllers),
   calls_hmd ++ snd controllers ++ calls_proxy).

(** [DriverProvider::Init]. *)
Definition Init (d : DriverProvider) (capacity : nat) (accepted : RegisteredDevice -> bool)
  : DriverProvider :=
  let '(h, l, r, calls) := OvrHmd_new (settings d) capacity accepted in
  let devices := map_insert (HEAD_ID P) RefHmd (tracked_devices d) in
  let devices :=
    match l, r with
    | Some _, Some _ =>
        map_insert (RIGHT_HAND_ID P) RefRight (map_insert (LEFT_HAND_ID P) RefLeft devices)
    | _, _ => devices
    end in
  {| hmd := Some h; left_controller := l; right_controller := r;
     tracked_devices := devices; settings := settings d;
     host_calls := host_calls d ++ calls |}.

(** [OvrHmd::OnPoseUpdated]. *)
Definition OvrHmd_OnPoseUpdated (s : Settings) (h : OvrHmd)
    (targetNs : Z) (motion : AlvrDeviceMotion) : OvrHmd * list HostCall :=
  if object_id h =? k_unTrackedDeviceIndexInvalid then (h, [])
  else
    let pose :=
      {| poseIsValid := true; result := TrackingResult_Running_OK;
         deviceIsConnected := true;
         qWorldFromDriverRotation := HmdQuaternion_Init 1 0 0 0;
         qDriverFromHeadRotation := HmdQuaternion_Init 1 0 0 0;
         qRotation := HmdQuaternion_Init (qw (orientation motion)) (qx (orientation motion))
                        (qy (orientation motion)) (qz (orientation motion));
         vecPosition := position motion |} in
    let history := PoseHistory_OnPoseUpdated (m_poseHistory h) targetNs motion in
    let calls :=
      TrackedDevicePoseUpdated (object_id h) pose ::
      (if m_viveTrackerProxy h then [ViveTrackerProxyUpdate] else []) in
    let connected :=
      match m_encoder h with
      | Some e => enc_connected e
      | None => false
      end in
    match platform with
    | Linux =>
        if negb (m_refreshRateSet h) && connected
        then (hmd_with_pose h pose history true,
              calls ++ [SetFloatProperty (prop_container h) Prop_DisplayFrequency_Float
                          (inject_Z (m_refreshRate s))])
        else (hmd_with_pose h pose history (m_refreshRateSet h), calls)
    | _ => (hmd_with_pose h pose history (m_refreshRateSet h), calls)
    end.

Definition quote : string := String (Ascii.ascii_of_nat 34) EmptyString.

(** The message of the [catch] block of [StartStreaming]. *)
Definition encoder_error (what : string) : HostCall :=
  LogError
    "Your GPU does not meet the requirements for video encoding. %s %s\n%s %s\n"
    ["If you get this error after changing some settings, you can revert them by"%string;
     ("deleting the file " ++ quote ++ "session.json" ++ quote
        ++ " in the installation folder.")%string;
     "Failed to initialize CEncoder:"%string;
     what].

(** [OvrHmd::StartStreaming].  [init] is the outcome of
    [CEncoder::Initialize] on Windows: [None] when it returns, [Some what]
    when it throws an [Exception] whose message is [what].  The result is
    [None] when the Windows path dereferences an empty
    [m_directModeComponent]. *)
Definition OvrHmd_StartStreaming (init : option string) (h : OvrHmd)
  : option (OvrHmd * list HostCall) :=
  if m_streamComponentsInitialized h then Some (h, [])
  else
    let listener := Some ClientConnection_new in
    if IsHMD h then
      match platform with
      | Win32 =>
          let '(encoder, calls) :=
            match init with
            | None => (CEncoder_Initialized CEncoder_new, [])
            | Some what => (CEncoder_new, [encoder_error what])
            end in
          let encoder := CEncoder_Start encoder in
          match m_directModeComponent h with
          | None => None
          | Some _ =>
              Some (hmd_with_stream h listener (Some (CEncoder_OnStreamStart encoder))
                      (Some {| dm_hasEncoder := true |}) true,
                    calls)
          end
      | MacOS =>
          Some (hmd_with_stream h listener (Some CEncoder_new)
                  (m_directModeComponent h) true, [])
      | Linux =>
          Some (hmd_with_stream h listener (Some (CEncoder_Start CEncoder_new))
                  (m_directModeComponent h) true, [])
      end
    else
      Some (hmd_with_stream h listener (m_encoder h) (m_directModeComponent h) true, []).

(** [InitializeStreaming]; [loaded] is what [Settings::Load] reads. *)
Definition InitializeStreaming (init : option string) (loaded : Settings)
    (d : DriverProvider) : option DriverProvider :=
  let d := with_settings d loaded in
  match hmd d with
  | Some h =>
      match OvrHmd_StartStreaming init h with
      | Some (h', calls) => Some (with_hmd d h' calls)
      | None => None
      end
  | None => Some d
  end.

(** [DeinitializeStreaming]: nothing to do. *)
Definition DeinitializeStreaming (d : DriverProvider) : DriverProvider := d.

(** The errors the [alvr::VkContext] constructor throws. *)
Inductive VkError :=
| runtime_error (what : string)
| AvException (what : string) (averror : Z).

(** The two tests of [alvr::VkContext::VkContext]: a physical device was
    found, and [av_hwdevice_ctx_init] returned [ret]. *)
Definition VkContext_new (physicalDeviceFound : bool) (ret : Z) : VkError + unit :=
  if negb physicalDeviceFound then inl (runtime_error "Failed to find vulkan device.")
  else if negb (ret =? 0) then inl (AvException "failed to initialize ffmpeg" ret)
  else inr tt.

(** [RequestIDR]. *)
Definition RequestIDR (d : DriverProvider) : DriverProvider :=
  match hmd d with
  | Some h =>
      match m_encoder h with
      | Some e =>
          with_hmd d (hmd_with_stream h (m_Listener h) (Some (CEncoder_InsertIDR e))
                        (m_directModeComponent h) (m_streamComponentsInitialized h)) []
      | None => d
      end
  | None => d
  end.

(** One iteration of the loop of [SetTracking]. *)
Definition SetTracking_motion (targetTimestampNs : Z) (controllerPoseTimeOffsetS : Q)
    (leftHand rightHand : OculusHand) (d : DriverProvider) (motion : AlvrDeviceMotion)
  : DriverProvider :=
  match (if deviceID motion =? HEAD_ID P then hmd d else None) with
  | Some h =>
      let '(h', calls) := OvrHmd_OnPoseUpdated (settings d) h targetTimestampNs motion in
      with_hmd d h' calls
  | None =>
      match (if deviceID motion =? LEFT_HAND_ID P then left_controller d else None) with
      | Some c =>
          with_left d (OvrController_onPoseUpdate c controllerPoseTimeOffsetS motion leftHand)
      | None =>
          match (if deviceID motion =? RIGHT_HAND_ID P then right_controller d else None) with
          | Some c =>
              with_right d
                (OvrController_onPoseUpdate c controllerPoseTimeOffsetS motion rightHand)
          | None => d
          end
      end
  end.

(** [SetTracking]. *)
Definition SetTracking (targetTimestampNs : Z) (controllerPoseTimeOffsetS : Q)
    (deviceMotions : list AlvrDeviceMotion) (leftHand rightHand : OculusHand)
    (d : DriverProvider) : DriverProvider :=
  fold_left
    (SetTracking_motion targetTimestampNs controllerPoseTimeOffsetS leftHand rightHand)
    deviceMotions d.

(** [VideoErrorReportReceive].  [m_encoder] is dereferenced without a test:
    the result is [None] when the listener exists and the encoder does not. *)
Definition VideoErrorReportReceive (d : DriverProvider) : option DriverProvider :=
  match hmd d with
  | Some h =>
      match m_Listener h with
      | Some l =>
          match m_encoder h with
          | Some e =>
              Some (with_hmd d
                      (hmd_with_stream h (Some (ClientConnection_OnFecFailure l))
                         (Some (CEncoder_OnPacketLoss e))
                         (m_directModeComponent h) (m_streamComponentsInitialized h)) [])
          | None => None
          end
      | None => Some d
      end
  | None => Some d
  end.

(** [SetOpenvrProperty]; the result is [None] when the table entry points
    to a device that no longer exists. *)
Definition SetOpenvrProperty (top_level_path : Z) (prop : OpenvrProperty)
    (d : DriverProvider) : option DriverProvider :=
  match tracked_devices d !! top_level_path with
  | Some r =>
      match deref d r with
      | Some container => Some (emit d [DeviceSetProp container prop])
      | None => None
      end
  | None => Some d
  end.

(** [SetBattery]. *)
Definition SetBattery (top_level_path : Z) (gauge_value : Q) (is_plugged : bool)
    (d : DriverProvider) : option DriverProvider :=
  match tracked_devices d !! top_level_path with
  | Some r =>
      match deref d r with
      | Some container =>
          Some (emit d [SetFloatProperty container Prop_DeviceBatteryPercentage_Float
                          gauge_value;
                        SetBoolProperty container Prop_DeviceIsCharging_Bool is_plugged])
      | None => None
      end
  | None => Some d
  end.

(** [SetButton]; the controllers are dereferenced without a test. *)
Definition SetButton (path : Z) (value : AlvrButtonValue) (d : DriverProvider)
  : option DriverProvider :=
  if bool_decide (path ∈ LEFT_CONTROLLER_BUTTON_IDS P) then
    match left_controller d with
    | Some c => Some (with_left d (OvrController_SetButton c path value))
    | None => None
    end
  else if bool_decide (path ∈ RIGHT_CONTROLLER_BUTTON_IDS P) then
    match right_controller d with
    | Some c => Some (with_right d (OvrController_SetButton c path value))
    | None => None
    end
  else Some d.

Definition with_statistics (d : DriverProvider) (h : OvrHmd) (st : Statistics)
  : DriverProvider :=
  with_hmd d (hmd_with_stream h (Some {| m_Statistics := st |}) (m_encoder h)
                (m_directModeComponent h) (m_streamComponentsInitialized h)) [].

(** [SetBitrateParameters]. *)
Definition SetBitrateParameters (bitrate_mbs : Z) (adaptive_bitrate_enabled : bool)
    (bitrate_max : Z) (d : DriverProvider) : DriverProvider :=
  match hmd d with
  | Some h =>
      match m_Listener h with
      | Some l =>
          let st := m_Statistics l in
          if adaptive_bitrate_enabled then
            with_statistics d h
              {| m_enableAdaptiveBitrate := true;
                 m_adaptiveBitrateMaximum := bitrate_max;
                 m_bitrate := m_bitrate st;
                 m_adaptiveBitrateMinimum := m_adaptiveBitrateMinimum st;
                 m_latencyEma := m_latencyEma st;
                 m_framesSinceLoss := m_framesSinceLoss st;
                 m_fecFailures := m_fecFailures st |}
          else
            with_statistics d h
              {| m_enableAdaptiveBitrate := false;
                 m_adaptiveBitrateMaximum := m_adaptiveBitrateMaximum st;
                 m_bitrate := bitrate_mbs;
                 m_adaptiveBitrateMinimum := m_adaptiveBitrateMinimum st;
                 m_latencyEma := m_latencyEma st;
                 m_framesSinceLoss := m_framesSinceLoss st;
                 m_fecFailures := m_fecFailures st |}
      | None => d
      end
  | None => d
  end.

(** The statistics of the running session, when there is one. *)
Definition statistics_of (d : DriverProvider) : option Statistics :=
  match hmd d with
  | Some h => m_Statistics <$> m_Listener h
  | None => None
  end.

End Driver.

(** ** Predicates used by the statements *)

(** An outgoing haptic command lasts at least [floor] seconds. *)
Definition duration_at_least (floor : Q) (c : HostCall) : Prop :=
  match c with
  | HapticsSend _ duration _ _ => exists r, duration = Some r /\ (floor <= r)%Q
  | _ => True
  end.

Definition is_HapticsSend (c : HostCall) : bool :=
  match c with
  | HapticsSend _ _ _ _ => true
  | _ => false
  end.

Definition motions_of (id : Z) (motions : list AlvrDeviceMotion) : list AlvrDeviceMotion :=
  List.filter (fun m => deviceID m =? id) motions.

Definition is_known_device (P : Paths) (m : AlvrDeviceMotion) : bool :=
  (deviceID m =? HEAD_ID P) || (deviceID m =? LEFT_HAND_ID P)
  || (deviceID m =? RIGHT_HAND_ID P).

Definition sample_timestamps (ph : PoseHistory) : list Z :=
  targetTimestampNs <$> ph_samples ph.

(** The samples a sequence of [record] calls leaves when each call is
    accepted exactly if its timestamp is strictly greater than the latest
    accepted one. *)
Fixpoint accepted_from (latest : option Z) (calls : list (Z * AlvrDeviceMotion))
  : list PoseSample :=
  match calls with
  | [] => []
  | (ts, motion) :: rest =>
      let accept := match latest with
                    | Some t => t <? ts
                    | None => true
                    end in
      if accept
      then {| targetTimestampNs := ts; sample_motion := motion |}
             :: accepted_from (Some ts) rest
      else accepted_from latest rest
  end.

(** ** A concrete configuration *)

Definition sample_paths : Paths :=
  {| HEAD_ID := 1; LEFT_HAND_ID := 2; RIGHT_HAND_ID := 3;
     LEFT_CONTROLLER_HAPTIC_ID := 4; RIGHT_CONTROLLER_HAPTIC_ID := 5;
     LEFT_CONTROLLER_BUTTON_IDS := [10; 11];
     RIGHT_CONTROLLER_BUTTON_IDS := [20; 21] |}.

Definition sample_settings : Settings :=
  {| m_hapticsMinDuration := 0.01;
     m_hapticsLowDurationAmplitudeMultiplier := 2.5;
     m_hapticsLowDurationRange := 0.5;
     m_hapticsAmplitudeCurve := 0.4;
     m_TrackingRefOnly := false;
     m_disableController := false;
     m_enableViveTrackerProxy := false;
     m_controllerMode := 1;
     m_refreshRate := 72 |}.

(** A stand-in for libm's [pow], used where a concrete run is evaluated. *)
Definition sample_pow (x y : Q) : float := Some x.

Definition motion_of_device (id : Z) : AlvrDeviceMotion :=
  {| deviceID := id;
     orientation := HmdQuaternion_Init 1 0 0 0;
     position := (0, 1.5, 0)%Q |}.

Definition sample_hand : OculusHand := mkOculusHand [].

(** The provider after [Init] and the activation of its three devices. *)
Definition sample_hmd : OvrHmd :=
  {| object_id := 0; prop_container := 100;
     m_deviceClass := TrackedDeviceClass_HMD;
     m_pose := {| poseIsValid := true; result := TrackingResult_Running_OK;
                  deviceIsConnected := true;
                  qWorldFromDriverRotation := HmdQuaternion_Init 1 0 0 0;
                  qDriverFromHeadRotation := HmdQuaternion_Init 1 0 0 0;
                  qRotation := HmdQuaternion_Init 1 0 0 0;
                  vecPosition := (0, 0, 0)%Q |};
     m_poseHistory := PoseHistory_new 10;
     m_baseComponentsInitialized := true;
     m_streamComponentsInitialized := false;
     m_refreshRateSet := false;
     m_Listener := None; m_encoder := None;
     m_directModeComponent := Some {| dm_hasEncoder := false |};
     m_viveTrackerProxy := false |}.

Definition sample_controller (id container : Z) : OvrController :=
  {| ctl_device_id := id; ctl_prop_container := container;
     ctl_poses := []; ctl_buttons := [] |}.

Definition sample_provider : DriverProvider :=
  {| hmd := Some sample_hmd;
     left_controller := Some (sample_controller 2 101);
     right_controller := Some (sample_controller 3 102);
     tracked_devices := {[ 1 := RefHmd; 2 := RefLeft; 3 := RefRight ]};
     settings := sample_settings;
     host_calls := [] |}.

(** The same provider once streaming has started on Linux. *)
Definition sample_streaming_hmd : OvrHmd :=
  hmd_with_stream sample_hmd (Some ClientConnection_new)
    (Some (CEncoder_Start CEncoder_new)) (m_directModeComponent sample_hmd) true.

Definition sample_streaming : DriverProvider :=
  with_hmd sample_provider sample_streaming_hmd [].

Definition sample_tuning : BitrateTuning :=
  {| lowWaterNs := 5000000; highWaterNs := 30000000; lossWindow := 30;
     emaWeight := 8; increaseStep := 1; decreaseNum := 3; decreaseDen := 4 |}.

(** The provider before [Init], and settings with the controllers disabled. *)
Definition sample_fresh (s : Settings) : DriverProvider :=
  {| hmd := None; left_controller := None; right_controller := None;
     tracked_devices := ∅; settings := s; host_calls := [] |}.

Definition sample_settings_headless : Settings :=
  {| m_hapticsMinDuration := 0.01;
     m_hapticsLowDurationAmplitudeMultiplier := 2.5;
     m_hapticsLowDurationRange := 0.5;
     m_hapticsAmplitudeCurve := 0.4;
     m_TrackingRefOnly := false;
     m_disableController := true;
     m_enableViveTrackerProxy := false;
     m_controllerMode := 1;
     m_refreshRate := 72 |}.

(** ** Further code of the driver *)

(** *** Haptics: the amplitude gain *)

(** The factor [RunFrame] multiplies the amplitude by before it applies
    the amplitude curve, in exact arithmetic; [duration] is the clamped
    one. *)
Definition amplitude_gain (s : Settings) (duration : Q) : float :=
  let inner :=
    (duration - 0.5 * m_hapticsMinDuration s * (1 - m_hapticsLowDurationRange s))%Q in
  fadd
    (fdiv
       (Some ((m_hapticsLowDurationAmplitudeMultiplier s - 1)
              * m_hapticsMinDuration s * m_hapticsLowDurationRange s)%Q)
       (fadd
          (fdiv
             (Some ((m_hapticsMinDuration s * m_hapticsLowDurationRange s) ^ 2
                    * 0.25)%Q)
             (Some inner))
          (Some inner)))
    (Some 1%Q).

(** *** The head pose *)

(** The [vr::DriverPose_t] that [OvrHmd::OnPoseUpdated] builds from a
    motion. *)
Definition pose_of_motion (motion : AlvrDeviceMotion) : DriverPose_t :=
  {| poseIsValid := true; result := TrackingResult_Running_OK;
     deviceIsConnected := true;
     qWorldFromDriverRotation := HmdQuaternion_Init 1 0 0 0;
     qDriverFromHeadRotation := HmdQuaternion_Init 1 0 0 0;
     qRotation := HmdQuaternion_Init (qw (orientation motion)) (qx (orientation motion))
                    (qy (orientation motion)) (qz (orientation motion));
     vecPosition := position motion |}.

(** [OvrHmd::GetPose]. *)
Definition OvrHmd_GetPose (h : OvrHmd) : DriverPose_t := m_pose h.

Definition is_pose_report (c : HostCall) : bool :=
  match c with
  | TrackedDevicePoseUpdated _ _ => true
  | _ => false
  end.

Definition is_refresh_rate_write (c : HostCall) : bool :=
  match c with
  | SetFloatProperty _ Prop_DisplayFrequency_Float _ => true
  | _ => false
  end.

(** How many more times the display frequency can be written: once while
    the HMD has not latched [m_refreshRateSet]. *)
Definition refresh_budget (d : DriverProvider) : nat :=
  match hmd d with
  | Some h => if m_refreshRateSet h then 0 else 1
  | None => 0
  end.

(** [g_driver_provider] as the program starts: empty pointers, an empty
    device table. *)
Definition g_driver_provider_initial (s : Settings) : DriverProvider :=
  {| hmd := None; left_controller := None; right_controller := None;
     tracked_devices := ∅; settings := s; host_calls := [] |}.

(** *** Activation and the display component *)

(** The names of [namespace vr] used by [Activate] and the display
    functions. *)
Module vr.

Inductive EVRInitError := VRInitError_None | VRInitError_Driver_Failed.

Inductive ETrackedDeviceProperty :=
| Prop_TrackingSystemName_String
| Prop_ModelNumber_String
| Prop_ManufacturerName_String
| Prop_RenderModelName_String
| Prop_RegisteredDeviceType_String
| Prop_DriverVersion_String
| Prop_UserIpdMeters_Float
| Prop_UserHeadToEyeDepthMeters_Float
| Prop_DisplayFrequency_Float
| Prop_SecondsFromVsyncToPhotons_Float
| Prop_CurrentUniverseId_Uint64
| Prop_IsOnDesktop_Bool
| Prop_DriverDirectModeSendsVsyncEvents_Bool
| Prop_DeviceProvidesBatteryStatus_Bool
| Prop_NamedIconPathDeviceOff_String
| Prop_NamedIconPathDeviceSearching_String
| Prop_NamedIconPathDeviceSearchingAlert_String
| Prop_NamedIconPathDeviceReady_String
| Prop_NamedIconPathDeviceReadyAlert_String
| Prop_NamedIconPathDeviceStandby_String.

Inductive SteamVRSetting :=
| k_pch_SteamVR_IPD_Float
| k_pch_SteamVR_DisableAsyncReprojection_Bool
| k_pch_SteamVR_EnableLinuxVulkanAsync_Bool.

Inductive EVREventType :=
| VREvent_IpdChanged
| VREvent_LensDistortionChanged
| VREvent_DriverRequestedQuit.

Inductive EVREye := Eye_Left | Eye_Right.

End vr.

(** A 3x4 matrix, [vr::HmdMatrix34_t], as its three rows. *)
Definition HmdMatrix34_t := list (list Q).

Definition MATRIX_IDENTITY : HmdMatrix34_t :=
  [[1; 0; 0; 0]; [0; 1; 0; 0]; [0; 0; 1; 0]]%Q.

(** The assignment [m.m[i][j] = x]. *)
Definition matrix_set (i j : nat) (x : Q) (m : HmdMatrix34_t) : HmdMatrix34_t :=
  match m !! i with
  | Some row => <[i := <[j := x]> row]> m
  | None => m
  end.

Definition matrix_get (i j : nat) (m : HmdMatrix34_t) : option Q :=
  m !! i ≫= fun row => row !! j.

(** [EyeFov]: the four half-angles of one eye, in radians. *)
Record EyeFov := { fov_left : Q; fov_right : Q; fov_top : Q; fov_bottom : Q }.

(** [ViewsConfigData]: [fov[0]] is the left eye, [fov[1]] the right. *)
Record ViewsConfigData := {
  fov_0 : EyeFov;
  fov_1 : EyeFov;
  ipd_m : Q
}.

Definition fov_of (config : ViewsConfigData) (eye : vr.EVREye) : EyeFov :=
  match eye with
  | vr.Eye_Left => fov_0 config
  | vr.Eye_Right => fov_1 config
  end.

(** [vr::HmdRect2_t]. *)
Record HmdRect2_t := { vTopLeft : Q * Q; vBottomRight : Q * Q }.

(** Further calls that leave the driver, made by the functions below. *)
Inductive RuntimeCall :=
| VRProperties_SetString (container : Z) (prop : vr.ETrackedDeviceProperty) (value : string)
| VRProperties_SetFloat (container : Z) (prop : vr.ETrackedDeviceProperty) (value : Q)
| VRProperties_SetUint64 (container : Z) (prop : vr.ETrackedDeviceProperty) (value : Z)
| VRProperties_SetBool (container : Z) (prop : vr.ETrackedDeviceProperty) (value : bool)
| VRSettings_GetFloat (key : vr.SteamVRSetting)
| VRSettings_SetFloat (key : vr.SteamVRSetting) (value : Q)
| VRSettings_SetBool (key : vr.SteamVRSetting) (value : bool)
| Host_VendorSpecificEvent (object : Z) (event : vr.EVREventType) (ipd : option Q)
| Host_SetDisplayEyeToHead (object : Z) (eyeLeft eyeRight : HmdMatrix34_t)
| Host_SetDisplayProjectionRaw (object : Z) (eyeLeft eyeRight : HmdRect2_t)
| Log_Error (format : string) (args : list Z)
| Rust_DriverReadyIdle (setDefaultChaperone : bool)
| Rust_ShutdownRuntime
| CEncoder_Stop
| D3DRender_Shutdown
| CleanupDriverLog
| VR_CLEANUP_SERVER_DRIVER_CONTEXT.

(** The fields of [Settings::Instance()] read by [Activate] and the
    display functions; the sizes are [int32_t]. *)
Record DisplaySettings := {
  mTrackingSystemName : string;
  mModelNumber : string;
  mManufacturerName : string;
  mRenderModelName : string;
  mRegisteredDeviceType : string;
  mDriverVersion : string;
  m_flIPD : Q;
  m_universeId : Z;
  m_nAdapterIndex : Z;
  m_enableLinuxVulkanAsync : bool;
  m_renderWidth : Z;
  m_renderHeight : Z;
  m_recommendedTargetWidth : Z;
  m_recommendedTargetHeight : Z
}.

(** What the Direct3D device of the Windows build answers:
    [CD3DRender::Initialize] and [CD3DRender::GetAdapterInfo]. *)
Record D3DOutcome := { d3d_Initialize : bool; d3d_GetAdapterInfo : bool }.

Definition hmd_with_activation (h : OvrHmd) (object container : Z)
    (base : bool) (dm : option OvrDirectModeComponent) : OvrHmd :=
  {| object_id := object; prop_container := container;
     m_deviceClass := m_deviceClass h;
     m_pose := m_pose h; m_poseHistory := m_poseHistory h;
     m_baseComponentsInitialized := base;
     m_streamComponentsInitialized := m_streamComponentsInitialized h;
     m_refreshRateSet := m_refreshRateSet h;
     m_Listener := m_Listener h; m_encoder := m_encoder h;
     m_directModeComponent := dm;
     m_viveTrackerProxy := m_viveTrackerProxy h |}.

Section Display.

Variable platform : Platform.

(** [vr::VRProperties()->TrackedDeviceToPropertyContainer]. *)
Variable TrackedDeviceToPropertyContainer : Z -> Z.

(** libm's [tanf]. *)
Variable tanf : Q -> Q.

(** The first part of [OvrHmd::Activate]: the properties written on every
    activation, in order. *)
Definition Activate_properties (s : Settings) (ds : DisplaySettings) (container : Z)
  : list RuntimeCall :=
  [ VRProperties_SetString container vr.Prop_TrackingSystemName_String
      (mTrackingSystemName ds);
    VRProperties_SetString container vr.Prop_ModelNumber_String (mModelNumber ds);
    VRProperties_SetString container vr.Prop_ManufacturerName_String
      (mManufacturerName ds);
    VRProperties_SetString container vr.Prop_RenderModelName_String
      (mRenderModelName ds);
    VRProperties_SetString container vr.Prop_RegisteredDeviceType_String
      (mRegisteredDeviceType ds);
    VRProperties_SetString container vr.Prop_DriverVersion_String (mDriverVersion ds);
    VRProperties_SetFloat container vr.Prop_UserIpdMeters_Float (m_flIPD ds);
    VRProperties_SetFloat container vr.Prop_UserHeadToEyeDepthMeters_Float 0;
    VRProperties_SetFloat container vr.Prop_DisplayFrequency_Float
      (inject_Z (m_refreshRate s));
    VRProperties_SetFloat container vr.Prop_SecondsFromVsyncToPhotons_Float 0;
    VRProperties_SetUint64 container vr.Prop_CurrentUniverseId_Uint64 (m_universeId ds) ]
  ++ match platform with
     | Win32 =>
         [ VRProperties_SetBool container vr.Prop_IsOnDesktop_Bool false;
           VRProperties_SetBool container
             vr.Prop_DriverDirectModeSendsVsyncEvents_Bool true ]
     | _ => []
     end
  ++ [ VRProperties_SetBool container vr.Prop_DeviceProvidesBatteryStatus_Bool true ]
  ++ match platform with
     | Win32 =>
         [ VRSettings_GetFloat vr.k_pch_SteamVR_IPD_Float;
           VRSettings_SetFloat vr.k_pch_SteamVR_IPD_Float (m_flIPD ds) ]
     | _ => []
     end
  ++ [ VRProperties_SetString container vr.Prop_NamedIconPathDeviceOff_String
         "{oculus}/icons/quest_headset_off.png";
       VRProperties_SetString container vr.Prop_NamedIconPathDeviceSearching_String
         "{oculus}/icons/quest_headset_searching.gif";
       VRProperties_SetString container vr.Prop_NamedIconPathDeviceSearchingAlert_String
         "{oculus}/icons/quest_headset_alert_searching.gif";
       VRProperties_SetString container vr.Prop_NamedIconPathDeviceReady_String
         "{oculus}/icons/quest_headset_ready.png";
       VRProperties_SetString container vr.Prop_NamedIconPathDeviceReadyAlert_String
         "{oculus}/icons/quest_headset_ready_alert.png";
       VRProperties_SetString container vr.Prop_NamedIconPathDeviceStandby_String
         "{oculus}/icons/quest_headset_standby.png" ]
  ++ match platform with
     | Win32 => []
     | _ =>
         [ VRSettings_SetBool vr.k_pch_SteamVR_DisableAsyncReprojection_Bool true;
           VRSettings_SetBool vr.k_pch_SteamVR_EnableLinuxVulkanAsync_Bool
             (m_enableLinuxVulkanAsync ds) ]
     end.

(** The end of [OvrHmd::Activate]: the IPD event of an HMD. *)
Definition Activate_ipd_event (ds : DisplaySettings) (h : OvrHmd) (object : Z)
  : list RuntimeCall :=
  if IsHMD h
  then [Host_VendorSpecificEvent object vr.VREvent_IpdChanged (Some (m_flIPD ds))]
  else [].

(** [OvrHmd::Activate].  [d3d] is what the Direct3D device answers on
    Windows.  The eye-to-head matrices the function resets are not part of
    the embedded [OvrHmd]. *)
Definition OvrHmd_Activate (s : Settings) (ds : DisplaySettings) (d3d : D3DOutcome)
    (h : OvrHmd) (unObjectId : Z) : vr.EVRInitError * OvrHmd * list RuntimeCall :=
  let container := TrackedDeviceToPropertyContainer unObjectId in
  let calls := Activate_properties s ds container in
  if m_baseComponentsInitialized h then
    (vr.VRInitError_None,
     hmd_with_activation h unObjectId container true (m_directModeComponent h),
     calls ++ Activate_ipd_event ds h unObjectId)
  else if IsHMD h then
    match platform with
    | Win32 =>
        if negb (d3d_Initialize d3d) then
          (vr.VRInitError_Driver_Failed,
           hmd_with_activation h unObjectId container true (m_directModeComponent h),
           calls ++
           [Log_Error
              "Could not create graphics device for adapter %d.  Requires a minimum of two graphics cards.\n"
              [m_nAdapterIndex ds]])
        else if negb (d3d_GetAdapterInfo d3d) then
          (vr.VRInitError_Driver_Failed,
           hmd_with_activation h unObjectId container true (m_directModeComponent h),
           calls ++ [Log_Error "Failed to get primary adapter info!\n" []])
        else
          (vr.VRInitError_None,
           hmd_with_activation h unObjectId container true
             (Some {| dm_hasEncoder := false |}),
           calls ++ [Rust_DriverReadyIdle true] ++ Activate_ipd_event ds h unObjectId)
    | _ =>
        (vr.VRInitError_None,
         hmd_with_activation h unObjectId container true (m_directModeComponent h),
         calls ++ [Rust_DriverReadyIdle true] ++ Activate_ipd_event ds h unObjectId)
    end
  else
    (vr.VRInitError_None,
     hmd_with_activation h unObjectId container true (m_directModeComponent h),
     calls ++ [Rust_DriverReadyIdle false] ++ Activate_ipd_event ds h unObjectId).

(** [OvrHmd::Deactivate]. *)
Definition OvrHmd_Deactivate (h : OvrHmd) : OvrHmd :=
  hmd_with_activation h k_unTrackedDeviceIndexInvalid k_ulInvalidPropertyContainer
    (m_baseComponentsInitialized h) (m_directModeComponent h).

(** [fov_to_projection]. *)
Definition fov_to_projection (fov : EyeFov) : HmdRect2_t :=
  {| vTopLeft := (tanf (fov_left fov), - tanf (fov_top fov))%Q;
     vBottomRight := (tanf (fov_right fov), - tanf (fov_bottom fov))%Q |}.

(** The [views_config] member as the [OvrHmd] constructor fills it. *)
Definition views_config_initial : ViewsConfigData :=
  let dummy_fov := {| fov_left := -1; fov_right := 1; fov_top := 1; fov_bottom := -1 |} in
  {| fov_0 := dummy_fov; fov_1 := dummy_fov; ipd_m := 0.063 |}.

(** [OvrHmd::SetViewsConfig]: the new [views_config] member and the calls
    to the runtime. *)
Definition OvrHmd_SetViewsConfig (h : OvrHmd) (config : ViewsConfigData)
  : ViewsConfigData * list RuntimeCall :=
  let left_transform := matrix_set 0 3 (- ipd_m config / 2.0)%Q MATRIX_IDENTITY in
  let right_transform := matrix_set 0 3 (ipd_m config / 2.0)%Q MATRIX_IDENTITY in
  let left_proj := fov_to_projection (fov_0 config) in
  let right_proj := fov_to_projection (fov_1 config) in
  (config,
   [ Host_SetDisplayEyeToHead (object_id h) left_transform right_transform;
     Host_SetDisplayProjectionRaw (object_id h) left_proj right_proj;
     Host_VendorSpecificEvent (object_id h) vr.VREvent_LensDistortionChanged None ]).

(** [OvrHmd::GetProjectionRaw]: left, right, top, bottom. *)
Definition OvrHmd_GetProjectionRaw (views_config : ViewsConfigData) (eye : vr.EVREye)
  : Q * Q * Q * Q :=
  let proj := fov_to_projection (fov_of views_config eye) in
  (fst (vTopLeft proj), fst (vBottomRight proj),
   snd (vTopLeft proj), snd (vBottomRight proj)).

(** [OvrHmd::ComputeDistortion]: red, green, blue. *)
Definition OvrHmd_ComputeDistortion (eye : vr.EVREye) (u v : Q)
  : (Q * Q) * (Q * Q) * (Q * Q) :=
  ((u, v), (u, v), (u, v)).

(** The conversion of an [int32_t] to [uint32_t]. *)
Definition to_uint32 (z : Z) : Z := z mod 2 ^ 32.

(** [OvrHmd::GetWindowBounds]: x, y, width, height. *)
Definition OvrHmd_GetWindowBounds (ds : DisplaySettings) : Z * Z * Z * Z :=
  (0, 0, to_uint32 (m_renderWidth ds), to_uint32 (m_renderHeight ds)).

(** [OvrHmd::GetRecommendedRenderTargetSize]: width, height. *)
Definition OvrHmd_GetRecommendedRenderTargetSize (ds : DisplaySettings) : Z * Z :=
  (to_uint32 (m_recommendedTargetWidth ds ÷ 2), to_uint32 (m_recommendedTargetHeight ds)).

(** [OvrHmd::GetEyeOutputViewport]: x, y, width, height. *)
Definition OvrHmd_GetEyeOutputViewport (ds : DisplaySettings) (eEye : vr.EVREye)
  : Z * Z * Z * Z :=
  let pnY := 0 in
  let pnWidth := to_uint32 (m_renderWidth ds ÷ 2) in
  let pnHeight := to_uint32 (m_renderHeight ds) in
  let pnX := match eEye with
             | vr.Eye_Left => 0
             | vr.Eye_Right => to_uint32 (m_renderWidth ds ÷ 2)
             end in
  (pnX, pnY, pnWidth, pnHeight).

(** [OvrHmd::IsDisplayRealDisplay]. *)
Definition OvrHmd_IsDisplayRealDisplay : bool :=
  match platform with
  | Win32 => false
  | _ => true
  end.

End Display.

(** *** Further entry points of [alvr_server.cpp] *)

Section EntryPoints.

Variable platform : Platform.
Variable tanf : Q -> Q.

(** [ClientConnection::ReportNetworkLatency] and [CEncoder::CaptureFrame],
    whose code is not among the sources. *)
Variable ClientConnection_ReportNetworkLatency : ClientConnection -> Z -> ClientConnection.
Variable CEncoder_CaptureFrame : CEncoder -> CEncoder.

(** [ReportNetworkLatency]. *)
Definition ReportNetworkLatency (latencyUs : Z) (d : DriverProvider) : DriverProvider :=
  match hmd d with
  | Some h =>
      match m_Listener h with
      | Some l =>
          with_hmd d
            (hmd_with_stream h (Some (ClientConnection_ReportNetworkLatency l latencyUs))
               (m_encoder h) (m_directModeComponent h) (m_streamComponentsInitialized h))
            []
      | None => d
      end
  | None => d
  end.

(** [CaptureFrame]; the body is compiled out on macOS. *)
Definition CaptureFrame (d : DriverProvider) : DriverProvider :=
  match platform with
  | MacOS => d
  | _ =>
      match hmd d with
      | Some h =>
          match m_encoder h with
          | Some e =>
              with_hmd d
                (hmd_with_stream h (m_Listener h) (Some (CEncoder_CaptureFrame e))
                   (m_directModeComponent h) (m_streamComponentsInitialized h))
                []
          | None => d
          end
      | None => d
      end
  end.

(** [ShutdownSteamvr]: the calls it makes. *)
Definition ShutdownSteamvr (d : DriverProvider) : list RuntimeCall :=
  match hmd d with
  | Some h => [Host_VendorSpecificEvent (object_id h) vr.VREvent_DriverRequestedQuit None]
  | None => []
  end.

(** [SetViewsConfig]; [views_config] is the member of the HMD. *)
Definition SetViewsConfig (config : ViewsConfigData) (d : DriverProvider)
    (views_config : ViewsConfigData) : ViewsConfigData * list RuntimeCall :=
  match hmd d with
  | Some h => OvrHmd_SetViewsConfig tanf h config
  | None => (views_config, [])
  end.

(** [OvrHmd::~OvrHmd]: the calls of the destructor.  [d3dRender] says
    whether [m_D3DRender] is set (Windows). *)
Definition OvrHmd_destroy (d3dRender : bool) (h : OvrHmd) : list RuntimeCall :=
  [Rust_ShutdownRuntime]
  ++ match m_encoder h with
     | Some _ => [CEncoder_Stop]
     | None => []
     end
  ++ match platform with
     | Win32 => if d3dRender then [D3DRender_Shutdown] else []
     | _ => []
     end.

(** [DriverProvider::Cleanup].  The provider holds the only owning
    pointer to the HMD, so resetting it runs the destructor; the device
    table is left as it is. *)
Definition Cleanup (d3dRender : bool) (d : DriverProvider) : DriverProvider * list RuntimeCall :=
  ({| hmd := None; left_controller := None; right_controller := None;
      tracked_devices := tracked_devices d; settings := settings d;
      host_calls := host_calls d |},
   match hmd d with
   | Some h => OvrHmd_destroy d3dRender h
   | None => []
   end
   ++ [CleanupDriverLog; VR_CLEANUP_SERVER_DRIVER_CONTEXT]).

End EntryPoints.

(** *** [ffmpeg_helper.cpp] *)

Section Ffmpeg.

(** [av_vkfmt_from_pixfmt]: the Vulkan format of a pixel format, when it
    has one; [AV_PIX_FMT_NB] is the number of pixel formats. *)
Variable av_vkfmt_from_pixfmt : Z -> option Z.
Variable AV_PIX_FMT_NB : Z.

Definition AV_PIX_FMT_NONE : Z := -1.

(** [vk_format_to_av_format]: the first pixel format, from
    [AV_PIX_FMT_NONE] up, whose Vulkan format is [vk_fmt]. *)
Definition vk_format_to_av_format (vk_fmt : Z) : VkError + Z :=
  match
    List.find
      (fun f => match av_vkfmt_from_pixfmt f with
                | Some current_fmt => current_fmt =? vk_fmt
                | None => false
                end)
      (seqZ AV_PIX_FMT_NONE (AV_PIX_FMT_NB - AV_PIX_FMT_NONE))
  with
  | Some f => inr f
  | None => inl (runtime_error ("unsupported vulkan pixel format " ++ pretty vk_fmt))
  end.

(** Whether the dynamic loader finds a library under a path. *)
Variable Load : string -> bool.

(** The macro [LOAD_LIB]: the file [lib<LIBNAME>.so.<VERSION>] directly
    under the driver root directory first, the bare file name (the
    loader's search path) second.  The result is the path that loaded. *)
Definition LOAD_LIB (g_driverRootDir LIBNAME VERSION : string) : VkError + string :=
  let soname := ("lib" ++ LIBNAME ++ ".so." ++ VERSION)%string in
  if Load (g_driverRootDir ++ "/" ++ soname)%string
  then inr (g_driverRootDir ++ "/" ++ soname)%string
  else if Load soname then inr soname
       else inl (runtime_error ("failed to load " ++ soname)).

(** The four libraries of [alvr::libav::libav], in the order they are
    loaded, each with its major version. *)
Definition libav_libraries (avutil avcodec swscale avfilter : string)
  : list (string * string) :=
  [("avutil", avutil); ("avcodec", avcodec); ("swscale", swscale);
   ("avfilter", avfilter)]%string.

Fixpoint load_all (g_driverRootDir : string) (libs : list (string * string))
  : VkError + list string :=
  match libs with
  | [] => inr []
  | (name, version) :: rest =>
      match LOAD_LIB g_driverRootDir name version with
      | inl e => inl e
      | inr path =>
          match load_all g_driverRootDir rest with
          | inl e => inl e
          | inr paths => inr (path :: paths)
          end
      end
  end.

(** [alvr::libav::libav]. *)
Definition libav_new (g_driverRootDir avutil avcodec swscale avfilter : string)
  : VkError + list string :=
  load_all g_driverRootDir (libav_libraries avutil avcodec swscale avfilter).

(** What [vkGetPhysicalDeviceProperties] tells about a device. *)
Record PhysicalDevice := {
  pd_handle : Z;
  pd_deviceName : string;
  pd_vendorID : Z
}.

Definition VK_NULL_HANDLE : Z := 0.

(** The device selection of [alvr::VkContext::VkContext], the choice of
    the hardware context and the final initialisation.  [deviceName] is
    [None] for a null pointer; [ret] is what [av_hwdevice_ctx_init]
    returns.  The result is the device and [drmContext]. *)
Definition VkContext_construct (deviceName : option string)
    (physicalDevices : list PhysicalDevice) (m_force_sw_encoding : bool) (ret : Z)
  : VkError + (PhysicalDevice * bool) :=
  let selected :=
    List.find
      (fun dev => match deviceName with
                  | None => true
                  | Some name => String.eqb (pd_deviceName dev) name
                  end)
      physicalDevices in
  match selected with
  | None => inl (runtime_error "Failed to find vulkan device.")
  | Some dev =>
      if pd_handle dev =? VK_NULL_HANDLE
      then inl (runtime_error "Failed to find vulkan device.")
      else
        let drmContext :=
          if m_force_sw_encoding then false else negb (pd_vendorID dev =? 0x10de) in
        if negb (ret =? 0)
        then inl (AvException "failed to initialize ffmpeg" ret)
        else inr (dev, drmContext)
  end.

End Ffmpeg.

(** *** Further concrete values *)

Definition sample_settings_zero_range : Settings :=
  {| m_hapticsMinDuration := 0.01;
     m_hapticsLowDurationAmplitudeMultiplier := 2.5;
     m_hapticsLowDurationRange := 0;
     m_hapticsAmplitudeCurve := 0.4;
     m_TrackingRefOnly := false;
     m_disableController := false;
     m_enableViveTrackerProxy := false;
     m_controllerMode := 1;
     m_refreshRate := 72 |}.

Definition sample_settings_tracking_reference : Settings :=
  {| m_hapticsMinDuration := 0.01;
     m_hapticsLowDurationAmplitudeMultiplier := 2.5;
     m_hapticsLowDurationRange := 0.5;
     m_hapticsAmplitudeCurve := 0.4;
     m_TrackingRefOnly := true;
     m_disableController := false;
     m_enableViveTrackerProxy := false;
     m_controllerMode := 1;
     m_refreshRate := 72 |}.

Definition sample_display_settings : DisplaySettings :=
  {| mTrackingSystemName := "oculus";
     mModelNumber := "Miramar";
     mManufacturerName := "Oculus";
     mRenderModelName := "generic_hmd";
     mRegisteredDeviceType := "oculus/1WMGH000XX0000";
     mDriverVersion := "1.55.0";
     m_flIPD := 0.063;
     m_universeId := 2;
     m_nAdapterIndex := 0;
     m_enableLinuxVulkanAsync := false;
     m_renderWidth := 2881;
     m_renderHeight := 1600;
     m_recommendedTargetWidth := 2880;
     m_recommendedTargetHeight := 1600 |}.

Definition sample_views_config : ViewsConfigData :=
  {| fov_0 := {| fov_left := -0.9; fov_right := 0.7; fov_top := 0.8; fov_bottom := -0.8 |};
     fov_1 := {| fov_left := -0.7; fov_right := 0.9; fov_top := 0.8; fov_bottom := -0.8 |};
     ipd_m := 0.064 |}.

(** A stand-in for [tanf], used where a concrete run is evaluated. *)
Definition sample_tanf (x : Q) : Q := x.

Definition is_DriverReadyIdle (c : RuntimeCall) : bool :=
  match c with
  | Rust_DriverReadyIdle _ => true
  | _ => false
  end.

Definition is_Log_Error (c : RuntimeCall) : bool :=
  match c with
  | Log_Error _ _ => true
  | _ => false
  end.

(** An HMD whose encoder is connected to a client. *)
Definition sample_connected_hmd : OvrHmd :=
  hmd_with_stream sample_hmd (Some ClientConnection_new)
    (Some {| enc_initialized := true; enc_running := true; enc_streamStarted := false;
             enc_connected := true; enc_keyframeRecovery := false;
             enc_frameCounter := 0 |})
    (m_directModeComponent sample_hmd) true.

Definition sample_connected : DriverProvider :=
  with_hmd sample_provider sample_connected_hmd [].

(** The HMD as [Init] leaves it: not activated, no components. *)
Definition sample_new_hmd : OvrHmd :=
  hmd_with_activation
    (hmd_with_stream sample_hmd None None None false)
    k_unTrackedDeviceIndexInvalid k_ulInvalidPropertyContainer false None.

(** The file name of a library and whether one of the two places the
    loader tries has it. *)
Definition soname (lib : string * string) : string :=
  ("lib" ++ fst lib ++ ".so." ++ snd lib)%string.

Definition loadable (Load : string -> bool) (g_driverRootDir : string)
    (lib : string * string) : bool :=
  Load (g_driverRootDir ++ "/" ++ soname lib)%string || Load (soname lib).

Definition device_matches (deviceName : option string) (dev : PhysicalDevice) : bool :=
  match deviceName with
  | None => true
  | Some name => String.eqb (pd_deviceName dev) name
  end.

Definition sample_vkfmt_table (f : Z) : option Z :=
  if f =? 0 then Some 1000 else
  if f =? 23 then Some 1001 else
  if f =? 26 then Some 37 else
  if f =? 28 then Some 37 else None.

Definition sample_devices : list PhysicalDevice :=
  [ {| pd_handle := 11; pd_deviceName := "llvmpipe"; pd_vendorID := 0x10005 |};
    {| pd_handle := 12; pd_deviceName := "NVIDIA GeForce"; pd_vendorID := 0x10de |};
    {| pd_handle := 13; pd_deviceName := "AMD Radeon"; pd_vendorID := 0x1002 |} ].

Definition sample_loader (path : string) : bool :=
  negb (String.eqb path "/opt/alvr/libswscale.so.6")
  && negb (String.eqb path "/opt/alvr/libavfilter.so.8")
  && negb (String.eqb path "libavfilter.so.8").

(** The path [LOAD_LIB] ends up loading when the library can be loaded. *)
Definition preferred_path (Load : string -> bool) (g_driverRootDir : string)
    (lib : string * string) : string :=
  if Load (g_driverRootDir ++ "/" ++ soname lib)%string
  then (g_driverRootDir ++ "/" ++ soname lib)%string
  else soname lib.

(** *** The streaming state of the HMD *)

Definition has {A} (o : option A) : bool :=
  match o with
  | Some _ => true
  | None => false
  end.

(** What the entry points test of the HMD: the stream flag, the listener,
    the encoder, and whether the device is an HMD. *)
Definition stream_view (h : OvrHmd) : bool * bool * bool * bool :=
  (m_streamComponentsInitialized h, has (m_Listener h), has (m_encoder h), IsHMD h).

(** The listener exists exactly when the stream components are
    initialized, an encoder exists only then, and then an HMD has one. *)
Definition stream_consistent (h : OvrHmd) : Prop :=
  m_streamComponentsInitialized h = has (m_Listener h) /\
  (has (m_encoder h) = true -> m_streamComponentsInitialized h = true) /\
  (m_streamComponentsInitialized h = true -> IsHMD h = true ->
   has (m_encoder h) = true).

Definition provider_consistent (d : DriverProvider) : Prop :=
  forall h, hmd d = Some h -> stream_consistent h.

Definition is_TrackedDeviceAdded (c : HostCall) : bool :=
  match c with
  | TrackedDeviceAdded _ _ => true
  | _ => false
  end.

Definition is_LogWarn (c : HostCall) : bool :=
  match c with
  | LogWarn _ => true
  | _ => false
  end.

(** The devices the [OvrHmd] constructor registers, in order. *)
Definition registered_devices (s : Settings) : list RegisteredDevice :=
  [RegHmd]
  ++ (if m_disableController s then [] else [RegLeft; RegRight])
  ++ (if m_enableViveTrackerProxy s then [RegViveTracker] else []).

Definition added_device (c : HostCall) : option (RegisteredDevice * ETrackedDeviceClass) :=
  match c with
  | TrackedDeviceAdded dev class => Some (dev, class)
  | _ => None
  end.

(** *** The haptic send of one event *)

(** The command of [RunFrame] for a vibration event and a haptic path: the
    remapped duration, the frequency as polled and the shaped amplitude. *)
Definition haptic_command (pow : Q -> Q -> float) (s : Settings)
    (haptics_info : HapticVibration) (path : Z) : HostCall :=
  HapticsSend path
    (shaped_duration s (fDurationSeconds haptics_info))
    (fFrequency haptics_info)
    (shaped_amplitude pow s (clamp_duration s (fDurationSeconds haptics_info))
       (fAmplitude haptics_info)).

(** The [HapticsSend] call, if any, that one pass of the polling loop of
    [RunFrame] makes for the polled event: the two container tests of the
    loop, the left controller first. *)
Definition haptic_send (P : Paths) (pow : Q -> Q -> float) (d : DriverProvider)
    (event : VREvent) : option HostCall :=
  match event with
  | VREvent_Input_HapticVibration haptics_info =>
      if is_container (left_controller d) (containerHandle haptics_info) then
        Some (haptic_command pow (settings d) haptics_info (LEFT_CONTROLLER_HAPTIC_ID P))
      else if is_container (right_controller d) (containerHandle haptics_info) then
        Some (haptic_command pow (settings d) haptics_info (RIGHT_CONTROLLER_HAPTIC_ID P))
      else None
  | VREvent_Other _ => None
  end.

(** Settings with a minimum haptic duration of zero, and a pulse of
    duration zero for a property container. *)
Definition sample_settings_zero_minimum : Settings :=
  {| m_hapticsMinDuration := 0;
     m_hapticsLowDurationAmplitudeMultiplier := 2.5;
     m_hapticsLowDurationRange := 0.5;
     m_hapticsAmplitudeCurve := 0.4;
     m_TrackingRefOnly := false;
     m_disableController := false;
     m_enableViveTrackerProxy := false;
     m_controllerMode := 1;
     m_refreshRate := 72 |}.

Definition zero_pulse (handle : Z) : HapticVibration :=
  {| containerHandle := handle; fDurationSeconds := 0;
     fFrequency := 160; fAmplitude := 1 |}.

(** The provider right after [Init], before the runtime has activated a
    device. *)
Definition sample_initialized : DriverProvider :=
  Init sample_paths (g_driver_provider_initial sample_settings) 10 (fun _ => true).

(** The same with the controllers disabled. *)
Definition sample_initialized_headless : DriverProvider :=
  Init sample_paths (g_driver_provider_initial sample_settings_headless) 10
    (fun _ => true).

(** ** Properties *)

(** *** Haptics *)

Lemma clamp_duration_lower (s : Settings) (d : Q) :
  (m_hapticsMinDuration s * 0.5 <= clamp_duration s d)%Q.
Proof.
  unfold clamp_duration.
  destruct (Qlt_le_dec d (m_hapticsMinDuration s * 0.5)); lra.
Qed.

Lemma remap_duration_floor (s : Settings) (d : Q) :
  (0 < m_hapticsMinDuration s)%Q ->
  (m_hapticsMinDuration s * 0.5 <= d)%Q ->
  exists r, remap_duration s d = Some r /\ (m_hapticsMinDuration s <= r)%Q.
Proof.
  intros Hm Hd. unfold remap_duration, fdiv, fadd.
  destruct (Qeq_bool d 0) eqn:Hz.
  - apply Qeq_bool_iff in Hz. lra.
  - eexists. split; [reflexivity|].
    assert (Hd0 : ~ (d == 0)%Q) by lra.
    set (q := (m_hapticsMinDuration s ^ 2 * 0.25 / d)%Q).
    assert (Hq : (q * d == m_hapticsMinDuration s ^ 2 * 0.25)%Q).
    { unfold q. field. exact Hd0. }
    simpl in Hq. nra.
Qed.

Lemma shaped_duration_floor (s : Settings) (d : Q) :
  (0 < m_hapticsMinDuration s)%Q ->
  exists r, shaped_duration s d = Some r /\ (m_hapticsMinDuration s <= r)%Q.
Proof.
  intros Hm. apply remap_duration_floor; [exact Hm | apply clamp_duration_lower].
Qed.

Lemma emit_nil (d : DriverProvider) : emit d [] = d.
Proof. destruct d. unfold emit. simpl. by rewrite app_nil_r. Qed.

Lemma RunFrame_event_settings P pow d ev :
  settings (RunFrame_event P pow d ev) = settings d.
Proof.
  destruct ev as [info|ty]; simpl; [|reflexivity].
  destruct (is_container _ _); [reflexivity|].
  destruct (is_container _ _); reflexivity.
Qed.

Lemma RunFrame_event_sent P pow d ev :
  (0 < m_hapticsMinDuration (settings d))%Q ->
  exists sent,
    host_calls (RunFrame_event P pow d ev) = host_calls d ++ sent /\
    Forall (duration_at_least (m_hapticsMinDuration (settings d))) sent.
Proof.
  intros Hm.
  pose proof (shaped_duration_floor (settings d)) as Hfloor.
  destruct ev as [info|ty]; simpl.
  - destruct (is_container _ _).
    + eexists. split; [reflexivity|]. constructor; [|constructor].
      apply (Hfloor (fDurationSeconds info) Hm).
    + destruct (is_container _ _).
      * eexists. split; [reflexivity|]. constructor; [|constructor].
        apply (Hfloor (fDurationSeconds info) Hm).
      * exists []. by rewrite app_nil_r.
  - exists []. by rewrite app_nil_r.
Qed.

Lemma RunFrame_sent P pow events : forall d,
  (0 < m_hapticsMinDuration (settings d))%Q ->
  exists sent,
    host_calls (RunFrame P pow d events) = host_calls d ++ sent /\
    Forall (duration_at_least (m_hapticsMinDuration (settings d))) sent.
Proof.
  induction events as [|ev events IH]; intros d Hm.
  - exists []. simpl. by rewrite app_nil_r.
  - destruct (RunFrame_event_sent P pow d ev Hm) as (s1 & H1 & F1).
    pose proof (RunFrame_event_settings P pow d ev) as Hs.
    destruct (IH (RunFrame_event P pow d ev)) as (s2 & H2 & F2).
    { by rewrite Hs. }
    exists (s1 ++ s2). split.
    + change (RunFrame P pow d (ev :: events))
        with (RunFrame P pow (RunFrame_event P pow d ev) events).
      rewrite H2, H1. by rewrite app_assoc.
    + rewrite Hs in F2. apply Forall_app. by split.
Qed.

Lemma shaped_duration_zero (s : Settings) (d r : Q) :
  (0 < m_hapticsMinDuration s)%Q -> (d == 0)%Q ->
  shaped_duration s d = Some r -> (r == m_hapticsMinDuration s)%Q.
Proof.
  intros Hm Hd. unfold shaped_duration, clamp_duration, remap_duration, fdiv, fadd.
  destruct (Qlt_le_dec d (m_hapticsMinDuration s * 0.5)) as [_|Hle]; [|lra].
  destruct (Qeq_bool (m_hapticsMinDuration s * 0.5) 0) eqn:Hz.
  - apply Qeq_bool_iff in Hz. lra.
  - intros [= <-]. simpl. field. lra.
Qed.

Lemma emit_emit (d : DriverProvider) (a b : list HostCall) :
  emit (emit d a) b = emit d (a ++ b).
Proof. unfold emit. simpl. by rewrite app_assoc. Qed.

Lemma RunFrame_event_send P pow d ev :
  RunFrame_event P pow d ev = emit d (option_list (haptic_send P pow d ev)).
Proof.
  destruct ev as [info|ty]; simpl; [|by rewrite emit_nil].
  destruct (is_container _ _); [reflexivity|].
  destruct (is_container _ _); [reflexivity|]. by rewrite emit_nil.
Qed.

(** The loop of [RunFrame] appends, in the order of the polled events, the
    send of each event, and touches nothing else. *)
Lemma RunFrame_sends P pow events : forall d,
  RunFrame P pow d events = emit d (omap (haptic_send P pow d) events).
Proof.
  induction events as [|ev events IH]; intros d.
  - simpl. by rewrite emit_nil.
  - change (RunFrame P pow d (ev :: events))
      with (RunFrame P pow (RunFrame_event P pow d ev) events).
    rewrite RunFrame_event_send, IH, emit_emit.
    change (haptic_send P pow (emit d (option_list (haptic_send P pow d ev))))
      with (haptic_send P pow d).
    simpl. by destruct (haptic_send P pow d ev).
Qed.

(** C1.  With a positive minimum duration configured, the duration produced
    by the clamp-then-remap computation of [RunFrame] is, in exact
    arithmetic, a value not below the minimum for every input duration; for
    a zero input it is the minimum itself.  Every haptic command [RunFrame]
    sends carries such a duration, and for every polled vibration event
    whose container is the one of a controller [RunFrame] does send a
    command with the event's frequency, the shaped amplitude and such a
    duration (the minimum itself for a zero input).  The legacy fix turns a
    zero duration into the literal [0.005], 5 ms. *)
Theorem haptic_duration_floor (P : Paths) (pow : Q -> Q -> float) (s : Settings) :
  (0 < m_hapticsMinDuration s)%Q ->
  (forall fDuration : Q,
      exists r, shaped_duration s fDuration = Some r /\ (m_hapticsMinDuration s <= r)%Q) /\
  (exists r, shaped_duration s 0 = Some r /\ (r == m_hapticsMinDuration s)%Q) /\
  (forall (d : DriverProvider) (events : list VREvent),
      settings d = s ->
      exists sent,
        host_calls (RunFrame P pow d events) = host_calls d ++ sent /\
        Forall (duration_at_least (m_hapticsMinDuration s)) sent) /\
  (forall (d : DriverProvider) (events : list VREvent) (haptics_info : HapticVibration),
      settings d = s ->
      VREvent_Input_HapticVibration haptics_info ∈ events ->
      is_container (left_controller d) (containerHandle haptics_info) = true \/
      is_container (right_controller d) (containerHandle haptics_info) = true ->
      exists path r,
        HapticsSend path (Some r) (fFrequency haptics_info)
          (shaped_amplitude pow s (clamp_duration s (fDurationSeconds haptics_info))
             (fAmplitude haptics_info))
        ∈ host_calls (RunFrame P pow d events) /\
        (m_hapticsMinDuration s <= r)%Q /\
        ((fDurationSeconds haptics_info == 0)%Q -> (r == m_hapticsMinDuration s)%Q)) /\
  (forall hapticFeedback : Q * Q * Q,
      (haptic_duration hapticFeedback == 0)%Q ->
      (haptic_duration (fixInvalidHaptics hapticFeedback) == 0.005)%Q).
Proof.
  intros Hm. split; [|split; [|split; [|split]]].
  - intros d. by apply shaped_duration_floor.
  - destruct (shaped_duration_floor s 0 Hm) as (r & Hr & _).
    exists r. split; [exact Hr|].
    apply (shaped_duration_zero s 0 r Hm); [reflexivity | exact Hr].
  - intros d events <-. by apply RunFrame_sent.
  - intros d events info Hs Hin Hc.
    destruct (shaped_duration_floor s (fDurationSeconds info) Hm) as (r & Hr & Hle).
    assert (Hsend : exists path,
               haptic_send P pow d (VREvent_Input_HapticVibration info)
               = Some (haptic_command pow s info path)).
    { simpl. rewrite Hs.
      destruct (is_container (left_controller d) _); [by eexists|].
      destruct Hc as [Hc|Hc]; [discriminate|]. rewrite Hc. by eexists. }
    destruct Hsend as [path Hsend].
    exists path, r. split; [|split; [exact Hle|]].
    + rewrite RunFrame_sends. simpl. apply elem_of_app. right.
      apply list_elem_of_omap. exists (VREvent_Input_HapticVibration info).
      split; [exact Hin|]. rewrite Hsend. unfold haptic_command. by rewrite Hr.
    + intros Hz. by apply (shaped_duration_zero s (fDurationSeconds info) r Hm Hz).
  - intros [[h0 h1] h2] Hz. unfold haptic_duration in *. simpl in *.
    apply Qeq_bool_iff in Hz. rewrite Hz. reflexivity.
Qed.

Lemma haptic_duration_floor_witness :
  (0 < m_hapticsMinDuration sample_settings)%Q /\
  exists path r,
    HapticsSend path (Some r) 160
      (shaped_amplitude sample_pow sample_settings (clamp_duration sample_settings 0) 1)
    ∈ host_calls
        (RunFrame sample_paths sample_pow sample_provider
           [VREvent_Other 200; VREvent_Input_HapticVibration (zero_pulse 102)]) /\
    (m_hapticsMinDuration sample_settings <= r)%Q.
Proof.
  assert (H : (0 < m_hapticsMinDuration sample_settings)%Q) by reflexivity.
  split; [exact H|].
  destruct (proj1 (proj2 (proj2 (proj2
              (haptic_duration_floor sample_paths sample_pow sample_settings H))))
              sample_provider
              [VREvent_Other 200; VREvent_Input_HapticVibration (zero_pulse 102)]
              (zero_pulse 102) eq_refl)
    as (path & r & Hin & Hle & _).
  - apply elem_of_cons. right. apply elem_of_cons. by left.
  - right. reflexivity.
  - exists path, r. split; [exact Hin | exact Hle].
Defined.

(** With a minimum duration of zero configured, a pulse of duration zero
    for the left controller passes the clamp as it is, is remapped to
    [0 * 0.25 / 0 + 0] and is sent with that: no value, so none at or above
    the minimum. *)
Lemma haptic_floor_zero_minimum :
  m_hapticsMinDuration sample_settings_zero_minimum = 0%Q /\
  clamp_duration sample_settings_zero_minimum 0 = 0%Q /\
  shaped_duration sample_settings_zero_minimum 0 = None /\
  host_calls
    (RunFrame sample_paths sample_pow
       (with_settings sample_provider sample_settings_zero_minimum)
       [VREvent_Input_HapticVibration (zero_pulse 101)])
  = [HapticsSend 4 None 160 None] /\
  ~ (forall (s : Settings) (fDuration : Q),
        exists r, shaped_duration s fDuration = Some r /\
                  (m_hapticsMinDuration s <= r)%Q).
Proof.
  split; [reflexivity|]. split; [reflexivity|]. split; [reflexivity|].
  split; [reflexivity|].
  intros H. destruct (H sample_settings_zero_minimum 0%Q) as (r & Hr & _).
  discriminate Hr.
Qed.

Lemma is_container_true (c : option OvrController) (handle : Z) (ctl : OvrController) :
  c = Some ctl -> handle = ctl_prop_container ctl -> is_container c handle = true.
Proof. intros -> ->. simpl. apply Z.eqb_refl. Qed.

Lemma is_container_false (c : option OvrController) (handle : Z) :
  (forall ctl, c = Some ctl -> handle <> ctl_prop_container ctl) ->
  is_container c handle = false.
Proof.
  intros H. destruct c as [ctl|]; [|reflexivity].
  simpl. apply Z.eqb_neq. by apply H.
Qed.

Lemma omap_singleton {A B} (f : A -> option B) (x : A) :
  omap f [x] = option_list (f x).
Proof. simpl. by destruct (f x). Qed.

Lemma RunFrame_event_routing (P : Paths) (pow : Q -> Q -> float)
    (d : DriverProvider) (info : HapticVibration) :
  let unmatched (c : option OvrController) :=
    forall ctl, c = Some ctl -> containerHandle info <> ctl_prop_container ctl in
  (forall l, left_controller d = Some l ->
             containerHandle info = ctl_prop_container l ->
             haptic_send P pow d (VREvent_Input_HapticVibration info)
             = Some (haptic_command pow (settings d) info (LEFT_CONTROLLER_HAPTIC_ID P))) /\
  (forall r, unmatched (left_controller d) ->
             right_controller d = Some r ->
             containerHandle info = ctl_prop_container r ->
             haptic_send P pow d (VREvent_Input_HapticVibration info)
             = Some (haptic_command pow (settings d) info (RIGHT_CONTROLLER_HAPTIC_ID P))) /\
  (unmatched (left_controller d) ->
   unmatched (right_controller d) ->
   haptic_send P pow d (VREvent_Input_HapticVibration info) = None).
Proof.
  intros unmatched. repeat split.
  - intros l Hl Hh. simpl.
    by rewrite (is_container_true _ _ l Hl Hh).
  - intros r Hl Hr Hh. simpl.
    rewrite (is_container_false _ _ Hl).
    by rewrite (is_container_true _ _ r Hr Hh).
  - intros Hl Hr. simpl.
    rewrite (is_container_false _ _ Hl).
    by rewrite (is_container_false _ _ Hr).
Qed.

(** C7.  [RunFrame] forwards each polled haptic vibration event, shaped, as
    one command to the controller whose property container equals the
    event's container handle, and drops every other event.  Over any list
    of polled events it appends to the outgoing calls, in order, the
    command of each event that has one, and changes nothing else.  The
    command of a vibration event goes to the left haptic path when the left
    controller's container is the handle, to the right haptic path when
    only the right controller's is; when the handle matches neither
    controller (or no controller exists) the event has no command: a frame
    that polls just that event leaves the provider as it is. *)
Theorem haptic_routing (P : Paths) (pow : Q -> Q -> float)
    (d : DriverProvider) (info : HapticVibration) :
  let command path :=
    HapticsSend path
      (shaped_duration (settings d) (fDurationSeconds info))
      (fFrequency info)
      (shaped_amplitude pow (settings d)
         (clamp_duration (settings d) (fDurationSeconds info)) (fAmplitude info)) in
  let unmatched (c : option OvrController) :=
    forall ctl, c = Some ctl -> containerHandle info <> ctl_prop_container ctl in
  let event := VREvent_Input_HapticVibration info in
  (forall events,
      RunFrame P pow d events = emit d (omap (haptic_send P pow d) events)) /\
  (forall eventType, haptic_send P pow d (VREvent_Other eventType) = None) /\
  (forall l, left_controller d = Some l ->
             containerHandle info = ctl_prop_container l ->
             haptic_send P pow d event = Some (command (LEFT_CONTROLLER_HAPTIC_ID P)) /\
             RunFrame P pow d [event] = emit d [command (LEFT_CONTROLLER_HAPTIC_ID P)]) /\
  (forall r, unmatched (left_controller d) ->
             right_controller d = Some r ->
             containerHandle info = ctl_prop_container r ->
             haptic_send P pow d event = Some (command (RIGHT_CONTROLLER_HAPTIC_ID P)) /\
             RunFrame P pow d [event] = emit d [command (RIGHT_CONTROLLER_HAPTIC_ID P)]) /\
  (unmatched (left_controller d) ->
   unmatched (right_controller d) ->
   haptic_send P pow d event = None /\
   RunFrame P pow d [event] = d /\
   forall before after,
     RunFrame P pow d (before ++ event :: after) = RunFrame P pow d (before ++ after)).
Proof.
  intros command unmatched event. subst event.
  destruct (RunFrame_event_routing P pow d info) as (Hleft & Hright & Hnone).
  split; [intros events; apply RunFrame_sends|]. split; [reflexivity|].
  split; [|split].
  - intros l Hl Hh. pose proof (Hleft l Hl Hh) as Hs.
    split; [exact Hs|]. by rewrite RunFrame_sends, omap_singleton, Hs.
  - intros r Hl Hr Hh. pose proof (Hright r Hl Hr Hh) as Hs.
    split; [exact Hs|]. by rewrite RunFrame_sends, omap_singleton, Hs.
  - intros Hl Hr. pose proof (Hnone Hl Hr) as Hs.
    split; [exact Hs|]. split.
    + rewrite RunFrame_sends, omap_singleton, Hs. apply emit_nil.
    + intros before after. change (VREvent_Input_HapticVibration info :: after)
        with ([VREvent_Input_HapticVibration info] ++ after).
      by rewrite !RunFrame_sends, !omap_app, omap_singleton, Hs.
Qed.

Lemma haptic_routing_witness :
  RunFrame sample_paths sample_pow sample_provider
    [VREvent_Input_HapticVibration (zero_pulse 102)]
  = emit sample_provider
      [HapticsSend 5 (shaped_duration sample_settings 0) 160
         (shaped_amplitude sample_pow sample_settings
            (clamp_duration sample_settings 0) 1)] /\
  RunFrame sample_paths sample_pow sample_provider
    [VREvent_Input_HapticVibration (zero_pulse 7)]
  = sample_provider.
Proof.
  split.
  - refine (proj2 (proj1 (proj2 (proj2 (proj2 (haptic_routing sample_paths sample_pow
               sample_provider (zero_pulse 102)))))
               (sample_controller 3 102) _ eq_refl eq_refl)).
    intros ctl [= <-]. simpl. lia.
  - refine (proj1 (proj2 (proj2 (proj2 (proj2 (proj2 (haptic_routing sample_paths
               sample_pow sample_provider (zero_pulse 7))))) _ _))).
    + intros ctl [= <-]. simpl. lia.
    + intros ctl [= <-]. simpl. lia.
Defined.

(** *** Events for unknown devices *)

Lemma Init_disabled_controllers P d capacity accepted :
  m_disableController (settings d) = true ->
  left_controller (Init P d capacity accepted) = None /\
  right_controller (Init P d capacity accepted) = None /\
  tracked_devices (Init P d capacity accepted)
  = map_insert (HEAD_ID P) RefHmd (tracked_devices d).
Proof.
  intros Hd. unfold Init, OvrHmd_new. rewrite Hd. simpl. done.
Qed.

(** The events that are dropped: a button event whose path is in neither
    controller's button list, and a property or battery event whose
    top-level path is not in the device table, return the provider
    unchanged.  When the controllers are disabled, [Init] creates no
    controller object and registers the head only, so every other
    top-level path has no entry in the table. *)
Lemma unknown_device_event_dropped (P : Paths) (d : DriverProvider) :
  (forall path value,
      path ∉ LEFT_CONTROLLER_BUTTON_IDS P ->
      path ∉ RIGHT_CONTROLLER_BUTTON_IDS P ->
      SetButton P path value d = Some d) /\
  (forall top_level_path prop,
      tracked_devices d !! top_level_path = None ->
      SetOpenvrProperty top_level_path prop d = Some d) /\
  (forall top_level_path gauge_value is_plugged,
      tracked_devices d !! top_level_path = None ->
      SetBattery top_level_path gauge_value is_plugged d = Some d) /\
  (forall capacity accepted top_level_path prop gauge_value is_plugged,
      m_disableController (settings d) = true ->
      tracked_devices d = ∅ ->
      top_level_path <> HEAD_ID P ->
      let d' := Init P d capacity accepted in
      left_controller d' = None /\ right_controller d' = None /\
      SetOpenvrProperty top_level_path prop d' = Some d' /\
      SetBattery top_level_path gauge_value is_plugged d' = Some d').
Proof.
  split; [|split; [|split]].
  - intros path value Hl Hr. unfold SetButton.
    rewrite (bool_decide_eq_false_2 _ Hl), (bool_decide_eq_false_2 _ Hr). done.
  - intros p prop Hnone. unfold SetOpenvrProperty. by rewrite Hnone.
  - intros p g b Hnone. unfold SetBattery. by rewrite Hnone.
  - intros capacity accepted p prop g b Hdis Hempty Hne d'.
    destruct (Init_disabled_controllers P d capacity accepted Hdis) as (Hl & Hr & Ht).
    assert (Hnone : tracked_devices d' !! p = None).
    { subst d'. rewrite Ht, Hempty. unfold map_insert.
      rewrite lookup_empty, lookup_insert_ne by done. apply lookup_empty. }
    repeat split; [exact Hl | exact Hr | |].
    + unfold SetOpenvrProperty. by rewrite Hnone.
    + unfold SetBattery. by rewrite Hnone.
Qed.

Lemma unknown_device_event_dropped_witness :
  let d := Init sample_paths (sample_fresh sample_settings_headless) 10 (fun _ => true) in
  SetButton sample_paths 99 (mkAlvrButtonValue 1) d = Some d /\
  SetOpenvrProperty 2 (mkOpenvrProperty 0 0) d = Some d /\
  SetBattery 2 0.5 true d = Some d.
Proof.
  intros d.
  pose proof (unknown_device_event_dropped sample_paths d) as (Hb & _ & _ & _).
  pose proof (unknown_device_event_dropped sample_paths
                (sample_fresh sample_settings_headless)) as (_ & _ & _ & Hi).
  split.
  - apply Hb; simpl; rewrite !not_elem_of_cons; repeat split; try lia;
      apply not_elem_of_nil.
  - specialize (Hi 10%nat (fun _ => true) 2 (mkOpenvrProperty 0 0) 0.5%Q true
                  eq_refl eq_refl).
    apply Hi. simpl. lia.
Defined.

(** C5.  A button event for a hand while the controllers are disabled.
    After [Init] with [m_disableController] set there is no controller
    object and the device table has no entry for either hand.  A button
    event whose path is in the left (or the right) button-id list is then
    an event for a device that was never registered, and [SetButton] does
    not drop it: it selects [left_controller] (or [right_controller]) by the
    list and dereferences the empty pointer.  [SetTracking] and [RunFrame]
    test the same pointers and do drop a hand motion and a vibration event
    in that state. *)
Theorem button_event_disabled_controllers :
  let d := sample_initialized_headless in
  m_disableController (settings d) = true /\
  left_controller d = None /\ right_controller d = None /\
  tracked_devices d !! LEFT_HAND_ID sample_paths = None /\
  tracked_devices d !! RIGHT_HAND_ID sample_paths = None /\
  10 ∈ LEFT_CONTROLLER_BUTTON_IDS sample_paths /\
  20 ∈ RIGHT_CONTROLLER_BUTTON_IDS sample_paths /\
  SetButton sample_paths 10 (mkAlvrButtonValue 1) d = None /\
  SetButton sample_paths 20 (mkAlvrButtonValue 1) d = None /\
  SetTracking sample_paths Linux 1000 0.02 [motion_of_device 2; motion_of_device 3]
    sample_hand sample_hand d = d /\
  RunFrame sample_paths sample_pow d [VREvent_Input_HapticVibration (zero_pulse 101)] = d.
Proof.
  intros d. subst d.
  split; [reflexivity|]. split; [reflexivity|]. split; [reflexivity|].
  split; [by vm_compute|]. split; [by vm_compute|].
  split; [apply elem_of_cons; by left|]. split; [apply elem_of_cons; by left|].
  split; [reflexivity|]. split; [reflexivity|]. split; reflexivity.
Qed.

(** *** Session start and stop *)

Lemma with_settings_same (d : DriverProvider) : with_settings d (settings d) = d.
Proof. by destruct d. Qed.

Lemma with_hmd_same (d : DriverProvider) (h : OvrHmd) :
  hmd d = Some h -> with_hmd d h [] = d.
Proof. destruct d. simpl. intros ->. unfold with_hmd. simpl. by rewrite app_nil_r. Qed.

Lemma StartStreaming_initialized platform init h h' calls :
  OvrHmd_StartStreaming platform init h = Some (h', calls) ->
  m_streamComponentsInitialized h' = true.
Proof.
  unfold OvrHmd_StartStreaming.
  destruct (m_streamComponentsInitialized h) eqn:Hi.
  - intros [= <- <-]. exact Hi.
  - destruct (IsHMD h); [|by intros [= <- <-]].
    destruct platform.
    + destruct init; simpl; destruct (m_directModeComponent h);
        try discriminate; by intros [= <- <-].
    + by intros [= <- <-].
    + by intros [= <- <-].
Qed.

(** C3.  Starting is idempotent: [StartStreaming] on an [OvrHmd] whose
    stream components are initialized returns it unchanged and calls
    nothing, so a start that follows a successful start creates no listener
    and no encoder again; [InitializeStreaming] then only reloads the
    settings and changes nothing when they are the same.  Stopping is
    idempotent: [DeinitializeStreaming] leaves the provider as it is, the
    first time and the second. *)
Theorem start_stop_idempotent (platform : Platform) :
  (forall init h,
      m_streamComponentsInitialized h = true ->
      OvrHmd_StartStreaming platform init h = Some (h, [])) /\
  (forall init init' h h' calls,
      OvrHmd_StartStreaming platform init h = Some (h', calls) ->
      OvrHmd_StartStreaming platform init' h' = Some (h', [])) /\
  (forall init loaded d h,
      hmd d = Some h ->
      m_streamComponentsInitialized h = true ->
      InitializeStreaming platform init loaded d = Some (with_settings d loaded) /\
      InitializeStreaming platform init (settings d) d = Some d) /\
  (forall d,
      DeinitializeStreaming d = d /\
      DeinitializeStreaming (DeinitializeStreaming d) = DeinitializeStreaming d).
Proof.
  assert (Hstart : forall init h,
             m_streamComponentsInitialized h = true ->
             OvrHmd_StartStreaming platform init h = Some (h, [])).
  { intros init h Hi. unfold OvrHmd_StartStreaming. by rewrite Hi. }
  split; [exact Hstart|]. split; [|split].
  - intros init init' h h' calls Hs. apply Hstart.
    by apply (StartStreaming_initialized platform init h h' calls).
  - intros init loaded d h Hh Hi.
    assert (Hgen : forall s, InitializeStreaming platform init s d
                             = Some (with_settings d s)).
    { intros s. unfold InitializeStreaming.
      change (hmd (with_settings d s)) with (hmd d). rewrite Hh.
      rewrite (Hstart init h Hi). f_equal. by apply with_hmd_same. }
    split; [apply Hgen|]. rewrite Hgen. f_equal. apply with_settings_same.
  - intros d. split; reflexivity.
Qed.

Lemma start_stop_idempotent_witness :
  OvrHmd_StartStreaming Linux None sample_streaming_hmd = Some (sample_streaming_hmd, []) /\
  InitializeStreaming Linux None (settings sample_streaming) sample_streaming
  = Some sample_streaming.
Proof.
  split.
  - apply (proj1 (proj2 (start_stop_idempotent Linux)) None None sample_hmd
             sample_streaming_hmd []).
    reflexivity.
  - apply (proj1 (proj2 (proj2 (start_stop_idempotent Linux))) None sample_settings
             sample_streaming sample_streaming_hmd); reflexivity.
Defined.

(** *** Encoder initialization failure *)

(** On Windows a throwing [CEncoder::Initialize] does not stop
    [StartStreaming]: it returns normally, the stream components are
    marked initialized and the encoder thread is started. *)
Lemma encoder_failure_absorbed :
  ~ (forall what h h' calls,
        OvrHmd_StartStreaming Win32 (Some what) h = Some (h', calls) ->
        m_streamComponentsInitialized h = false ->
        m_streamComponentsInitialized h' = false /\
        (enc_running <$> m_encoder h') <> Some true).
Proof.
  intros H.
  destruct (H "NVENC is not available"%string sample_hmd
              (hmd_with_stream sample_hmd (Some ClientConnection_new)
                 (Some (CEncoder_OnStreamStart (CEncoder_Start CEncoder_new)))
                 (Some {| dm_hasEncoder := true |}) true)
              [encoder_error "NVENC is not available"] eq_refl eq_refl) as [Hstream _].
  discriminate Hstream.
Qed.

(** C4.  A failing encoder initialization is surfaced and absorbed.  On
    Windows [StartStreaming] catches the exception of
    [CEncoder::Initialize] and logs one error that carries the exception's
    message.  When the HMD has its direct-mode component (it was activated)
    the call then goes on and returns normally with the encoder started
    (and not initialized) and the stream components marked initialized, and
    a later start is a no-op.  When the HMD has no direct-mode component
    the call does not return normally: after the catch it dereferences the
    empty [m_directModeComponent].  On Linux the [VkContext] constructor
    throws [AvException] with the message "failed to initialize ffmpeg" and
    the ffmpeg error code when [av_hwdevice_ctx_init] fails. *)
Theorem encoder_failure_logged (what : string) (h : OvrHmd) :
  m_streamComponentsInitialized h = false ->
  IsHMD h = true ->
  (forall dm,
      m_directModeComponent h = Some dm ->
      exists h',
        OvrHmd_StartStreaming Win32 (Some what) h = Some (h', [encoder_error what]) /\
        m_streamComponentsInitialized h' = true /\
        m_encoder h' = Some (CEncoder_OnStreamStart (CEncoder_Start CEncoder_new)) /\
        (enc_running <$> m_encoder h') = Some true /\
        (enc_initialized <$> m_encoder h') = Some false /\
        forall init, OvrHmd_StartStreaming Win32 init h' = Some (h', [])) /\
  (m_directModeComponent h = None ->
   OvrHmd_StartStreaming Win32 (Some what) h = None) /\
  (exists format args, encoder_error what = LogError format args /\ what ∈ args) /\
  (forall ret, ret <> 0 ->
               VkContext_new true ret
               = inl (AvException "failed to initialize ffmpeg" ret)).
Proof.
  intros Hi Hhmd. split; [|split; [|split]].
  - intros dm Hdm. eexists. unfold OvrHmd_StartStreaming.
    rewrite Hi, Hhmd, Hdm. simpl.
    split; [reflexivity|]. repeat split; try reflexivity.
  - intros Hdm. unfold OvrHmd_StartStreaming. by rewrite Hi, Hhmd, Hdm.
  - eexists _, _. split; [reflexivity|].
    rewrite !elem_of_cons. do 3 right. by left.
  - intros ret Hret. unfold VkContext_new. simpl.
    apply Z.eqb_neq in Hret. by rewrite Hret.
Qed.

Lemma encoder_failure_logged_witness :
  (exists h',
      OvrHmd_StartStreaming Win32 (Some "NVENC is not available"%string) sample_hmd
      = Some (h', [encoder_error "NVENC is not available"]) /\
      m_streamComponentsInitialized h' = true) /\
  hmd sample_initialized = Some sample_new_hmd /\
  OvrHmd_StartStreaming Win32 (Some "NVENC is not available"%string) sample_new_hmd
  = None.
Proof.
  split.
  - destruct (proj1 (encoder_failure_logged "NVENC is not available" sample_hmd
                       eq_refl eq_refl) {| dm_hasEncoder := false |} eq_refl)
      as (h' & Hs & Hi & _).
    exists h'. split; [exact Hs | exact Hi].
  - split; [reflexivity|].
    exact (proj1 (proj2 (encoder_failure_logged "NVENC is not available" sample_new_hmd
                           eq_refl eq_refl)) eq_refl).
Defined.

(** *** Loss recovery *)

(** C2.  In a running session (listener and encoder exist) a video-error
    report is recorded by the listener and forwarded to the encoder as a
    packet loss, and the frame job of the next cycle requests a keyframe
    whatever the keyframe cadence says. *)
Theorem fec_failure_forces_keyframe
    (d : DriverProvider) (h : OvrHmd) (l : ClientConnection) (e : CEncoder) :
  hmd d = Some h ->
  m_Listener h = Some l ->
  m_encoder h = Some e ->
  exists d' h' e',
    VideoErrorReportReceive d = Some d' /\
    hmd d' = Some h' /\
    m_Listener h' = Some (ClientConnection_OnFecFailure l) /\
    m_fecFailures (m_Statistics (ClientConnection_OnFecFailure l))
    = m_fecFailures (m_Statistics l) + 1 /\
    m_encoder h' = Some e' /\
    e' = CEncoder_OnPacketLoss e /\
    forall cadence presentationNs pose,
      isKeyframeRequested
        (fst (CEncoder_onFrameIntervalElapsed e' cadence presentationNs pose)) = true /\
      frameIndex (fst (CEncoder_onFrameIntervalElapsed e' cadence presentationNs pose))
      = enc_frameCounter e.
Proof.
  intros Hh Hl He.
  eexists _, _, _. unfold VideoErrorReportReceive. rewrite Hh, Hl, He.
  split; [reflexivity|]. simpl.
  split; [reflexivity|]. split; [reflexivity|]. split; [reflexivity|].
  split; [reflexivity|]. split; [reflexivity|].
  intros cadence ts pose. split; reflexivity.
Qed.

Lemma fec_failure_forces_keyframe_witness :
  exists d' h' e',
    VideoErrorReportReceive sample_streaming = Some d' /\
    hmd d' = Some h' /\ m_encoder h' = Some e' /\
    isKeyframeRequested (fst (CEncoder_onFrameIntervalElapsed e' false 0 None)) = true.
Proof.
  destruct (fec_failure_forces_keyframe sample_streaming sample_streaming_hmd
              ClientConnection_new (CEncoder_Start CEncoder_new)
              eq_refl eq_refl eq_refl)
    as (d' & h' & e' & Hv & Hh & _ & _ & He & _ & Hk).
  exists d', h', e'. repeat split; try assumption.
  apply (Hk false 0 None).
Defined.

(** [VideoErrorReportReceive] tests the listener and not the encoder: with
    a listener and no encoder (a tracking-reference-only device after
    [StartStreaming]) the call dereferences an empty pointer. *)
Lemma VideoErrorReportReceive_without_encoder (d : DriverProvider) (h : OvrHmd)
    (l : ClientConnection) :
  hmd d = Some h -> m_Listener h = Some l -> m_encoder h = None ->
  VideoErrorReportReceive d = None.
Proof. intros Hh Hl He. unfold VideoErrorReportReceive. by rewrite Hh, Hl, He. Qed.

(** [SetButton] does not test the controller it selects. *)
Lemma SetButton_without_controller (P : Paths) (d : DriverProvider) (path : Z)
    (value : AlvrButtonValue) :
  path ∈ LEFT_CONTROLLER_BUTTON_IDS P -> left_controller d = None ->
  SetButton P path value d = None.
Proof.
  intros Hp Hl. unfold SetButton. by rewrite (bool_decide_eq_true_2 _ Hp), Hl.
Qed.

(** *** Pose history *)

Lemma keep_newest_snoc {A} (n : nat) (l : list A) (x : A) :
  (0 < n)%nat ->
  keep_newest n (l ++ [x]) = drop (length l + 1 - n) l ++ [x].
Proof.
  intros Hn. unfold keep_newest. rewrite length_app. simpl.
  apply drop_app_le. lia.
Qed.

Lemma keep_newest_length {A} (n : nat) (l : list A) :
  (length (keep_newest n l) <= n)%nat.
Proof. unfold keep_newest. rewrite length_drop. lia. Qed.

Lemma keep_newest_idem_snoc {A} (n : nat) (l : list A) (x : A) :
  (0 < n)%nat ->
  keep_newest n (keep_newest n l ++ [x]) = keep_newest n (l ++ [x]).
Proof.
  intros Hn. rewrite !keep_newest_snoc by exact Hn.
  unfold keep_newest. rewrite length_drop, drop_drop. f_equal. f_equal. lia.
Qed.

Lemma keep_newest_last {A} (n : nat) (l : list A) :
  (0 < n)%nat -> last (keep_newest n l) = last l.
Proof.
  intros Hn. destruct (last l) as [x|] eqn:Hl.
  - apply last_Some in Hl as [l' ->].
    rewrite keep_newest_snoc by exact Hn. apply last_snoc.
  - apply last_None in Hl as ->. reflexivity.
Qed.

Lemma sorted_below_last (l : list Z) (t y : Z) :
  StronglySorted Z.lt l -> last l = Some t -> y ∈ l -> y <= t.
Proof.
  intros Hs Hl Hy. apply last_Some in Hl as [l' ->].
  apply elem_of_app in Hy as [Hy|Hy].
  - assert (y < t); [|lia].
    apply (StronglySorted_app_1_elem_of Z.lt l' [t]); [exact Hs | exact Hy |].
    apply list_elem_of_singleton. reflexivity.
  - apply list_elem_of_singleton in Hy. lia.
Qed.

Lemma sorted_drop (n : nat) (l : list Z) :
  StronglySorted Z.lt l -> StronglySorted Z.lt (drop n l).
Proof.
  intros Hs. rewrite <- (take_drop n l) in Hs.
  by apply StronglySorted_app_1_r in Hs.
Qed.

Lemma sorted_snoc (l : list Z) (x : Z) :
  StronglySorted Z.lt l ->
  (forall t, last l = Some t -> t < x) ->
  StronglySorted Z.lt (l ++ [x]).
Proof.
  intros Hs Hlast. apply StronglySorted_app_2; [| exact Hs | repeat constructor].
  intros y z Hy Hz. apply list_elem_of_singleton in Hz as ->.
  destruct (last l) as [t|] eqn:Hl.
  - pose proof (sorted_below_last l t y Hs Hl Hy). specialize (Hlast t eq_refl). lia.
  - apply last_None in Hl as ->. by apply elem_of_nil in Hy.
Qed.

Lemma ph_latest_timestamps (ph : PoseHistory) :
  ph_latest ph = last (sample_timestamps ph).
Proof.
  unfold ph_latest, sample_timestamps. by rewrite fmap_last.
Qed.

Lemma OnPoseUpdated_rejects (ph : PoseHistory) ts motion latest :
  ph_latest ph = Some latest -> ts <= latest ->
  PoseHistory_OnPoseUpdated ph ts motion = ph.
Proof.
  intros Hl Hle. unfold PoseHistory_OnPoseUpdated. rewrite Hl.
  apply Z.leb_le in Hle. by rewrite Hle.
Qed.

Lemma OnPoseUpdated_accepts (ph : PoseHistory) ts motion :
  (forall latest, ph_latest ph = Some latest -> latest < ts) ->
  PoseHistory_OnPoseUpdated ph ts motion
  = {| ph_capacity := ph_capacity ph;
       ph_samples := keep_newest (ph_capacity ph)
                       (ph_samples ph ++
                          [{| targetTimestampNs := ts; sample_motion := motion |}]) |}.
Proof.
  intros Hgt. unfold PoseHistory_OnPoseUpdated.
  destruct (ph_latest ph) as [latest|]; [|reflexivity].
  specialize (Hgt latest eq_refl).
  destruct (ts <=? latest) eqn:Hle; [|reflexivity].
  apply Z.leb_le in Hle. lia.
Qed.

Lemma OnPoseUpdated_capacity (ph : PoseHistory) ts motion :
  ph_capacity (PoseHistory_OnPoseUpdated ph ts motion) = ph_capacity ph.
Proof.
  unfold PoseHistory_OnPoseUpdated.
  destruct (ph_latest ph); [destruct (_ <=? _)|]; reflexivity.
Qed.

Lemma OnPoseUpdated_sorted (ph : PoseHistory) ts motion :
  StronglySorted Z.lt (sample_timestamps ph) ->
  StronglySorted Z.lt (sample_timestamps (PoseHistory_OnPoseUpdated ph ts motion)).
Proof.
  intros Hs. unfold PoseHistory_OnPoseUpdated.
  pose proof (ph_latest_timestamps ph) as Hl.
  assert (Hpush : forall latest', (forall t, ph_latest ph = Some t -> t < ts) ->
            latest' = ph_latest ph ->
            StronglySorted Z.lt
              (targetTimestampNs <$>
                 (keep_newest (ph_capacity ph)
                    (ph_samples ph ++
                       [{| targetTimestampNs := ts; sample_motion := motion |}])))).
  { intros _ Hgt _. unfold keep_newest. rewrite fmap_drop.
    apply sorted_drop. rewrite fmap_app. simpl.
    apply sorted_snoc; [exact Hs|]. intros t Ht. apply Hgt. by rewrite Hl. }
  destruct (ph_latest ph) as [latest|] eqn:Hlat.
  - destruct (ts <=? latest) eqn:Hle; [exact Hs|].
    apply (Hpush (Some latest)); [|reflexivity].
    intros t [= <-]. apply Z.leb_gt in Hle. lia.
  - apply (Hpush None); [|reflexivity]. intros t Ht. discriminate.
Qed.

Lemma OnPoseUpdated_bounded (ph : PoseHistory) ts motion :
  (length (ph_samples ph) <= ph_capacity ph)%nat ->
  (length (ph_samples (PoseHistory_OnPoseUpdated ph ts motion)) <= ph_capacity ph)%nat.
Proof.
  intros Hb. unfold PoseHistory_OnPoseUpdated.
  destruct (ph_latest ph); [destruct (_ <=? _)|]; simpl;
    try exact Hb; apply keep_newest_length.
Qed.

Lemma record_all_sorted calls : forall ph,
  StronglySorted Z.lt (sample_timestamps ph) ->
  (length (ph_samples ph) <= ph_capacity ph)%nat ->
  StronglySorted Z.lt (sample_timestamps (PoseHistory_record_all ph calls)) /\
  (length (ph_samples (PoseHistory_record_all ph calls)) <= ph_capacity ph)%nat.
Proof.
  induction calls as [|[ts motion] calls IH]; intros ph Hs Hb; [by split|].
  change (PoseHistory_record_all ph ((ts, motion) :: calls))
    with (PoseHistory_record_all (PoseHistory_OnPoseUpdated ph ts motion) calls).
  rewrite <- (OnPoseUpdated_capacity ph ts motion). apply IH.
  - by apply OnPoseUpdated_sorted.
  - rewrite OnPoseUpdated_capacity. by apply OnPoseUpdated_bounded.
Qed.

Lemma record_all_accepted calls : forall ph acc,
  (0 < ph_capacity ph)%nat ->
  ph_samples ph = keep_newest (ph_capacity ph) acc ->
  ph_samples (PoseHistory_record_all ph calls)
  = keep_newest (ph_capacity ph)
      (acc ++ accepted_from (targetTimestampNs <$> last acc) calls).
Proof.
  induction calls as [|[ts motion] calls IH]; intros ph acc Hc Hacc.
  - simpl. by rewrite app_nil_r.
  - change (PoseHistory_record_all ph ((ts, motion) :: calls))
      with (PoseHistory_record_all (PoseHistory_OnPoseUpdated ph ts motion) calls).
    assert (Hlatest : ph_latest ph = targetTimestampNs <$> last acc).
    { unfold ph_latest. by rewrite Hacc, keep_newest_last. }
    destruct (last acc) as [s|] eqn:Hlast; simpl in *.
    + destruct (Z.ltb_spec (targetTimestampNs s) ts) as [Hlt|Hge].
      * rewrite OnPoseUpdated_accepts by (intros t; rewrite Hlatest; intros [= <-]; lia).
        rewrite (IH _ (acc ++ [{| targetTimestampNs := ts; sample_motion := motion |}]));
          simpl; [| exact Hc | rewrite Hacc; by apply keep_newest_idem_snoc].
        by rewrite last_snoc, <- app_assoc.
      * rewrite (OnPoseUpdated_rejects ph ts motion (targetTimestampNs s) Hlatest Hge).
        rewrite (IH ph acc Hc Hacc). by rewrite Hlast.
    + rewrite OnPoseUpdated_accepts by (intros t; rewrite Hlatest; discriminate).
      rewrite (IH _ (acc ++ [{| targetTimestampNs := ts; sample_motion := motion |}]));
        simpl; [| exact Hc | rewrite Hacc; by apply keep_newest_idem_snoc].
      by rewrite last_snoc, <- app_assoc.
Qed.

(** C9.  [record] keeps the history monotonic.  A call whose timestamp is
    not strictly greater than the latest recorded one returns the history
    unchanged (the function is total, nothing is thrown); a call with a
    strictly greater timestamp, or on an empty history, makes that timestamp
    the latest.  After any sequence of calls the stored timestamps are
    strictly increasing and within the capacity, and the buffer holds the
    newest of exactly those samples that were strictly newer than the
    latest accepted one. *)
Theorem pose_history_monotonic :
  (forall ph ts motion latest,
      ph_latest ph = Some latest -> ts <= latest ->
      PoseHistory_OnPoseUpdated ph ts motion = ph) /\
  (forall ph ts motion,
      (0 < ph_capacity ph)%nat ->
      (forall latest, ph_latest ph = Some latest -> latest < ts) ->
      ph_latest (PoseHistory_OnPoseUpdated ph ts motion) = Some ts /\
      last (ph_samples (PoseHistory_OnPoseUpdated ph ts motion))
      = Some {| targetTimestampNs := ts; sample_motion := motion |}) /\
  (forall capacity calls,
      let ph := PoseHistory_record_all (PoseHistory_new capacity) calls in
      StronglySorted Z.lt (sample_timestamps ph) /\
      (length (ph_samples ph) <= capacity)%nat) /\
  (forall capacity calls,
      (0 < capacity)%nat ->
      ph_samples (PoseHistory_record_all (PoseHistory_new capacity) calls)
      = keep_newest capacity (accepted_from None calls)).
Proof.
  split; [|split; [|split]].
  - intros ph ts motion latest. apply OnPoseUpdated_rejects.
  - intros ph ts motion Hc Hgt.
    rewrite (OnPoseUpdated_accepts ph ts motion Hgt).
    unfold ph_latest. simpl. rewrite keep_newest_last by exact Hc.
    by rewrite last_snoc.
  - intros capacity calls ph.
    apply (record_all_sorted calls (PoseHistory_new capacity)); simpl; [constructor | lia].
  - intros capacity calls Hc.
    apply (record_all_accepted calls (PoseHistory_new capacity) [] Hc). reflexivity.
Qed.

Lemma pose_history_monotonic_witness :
  let m := motion_of_device 1 in
  sample_timestamps
    (PoseHistory_record_all (PoseHistory_new 3)
       [(10, m); (20, m); (20, m); (15, m); (30, m); (5, m); (40, m)])
  = [20; 30; 40] /\
  PoseHistory_OnPoseUpdated
    (PoseHistory_record_all (PoseHistory_new 3) [(10, m); (20, m)]) 15 m
  = PoseHistory_record_all (PoseHistory_new 3) [(10, m); (20, m)].
Proof.
  intros m. split.
  - unfold sample_timestamps.
    rewrite (proj2 (proj2 (proj2 pose_history_monotonic)) 3%nat); [reflexivity | lia].
  - apply (proj1 pose_history_monotonic _ 15 m 20); [reflexivity | lia].
Defined.

(** *** Bitrate *)

Lemma clamp_bitrate_range (lo hi x : Z) :
  lo <= hi -> lo <= clamp_bitrate lo hi x <= hi.
Proof. unfold clamp_bitrate. lia. Qed.

Lemma OnFeedback_adaptive (t : BitrateTuning) (st : Statistics) (fb : Feedback) :
  m_enableAdaptiveBitrate st = true ->
  m_adaptiveBitrateMinimum st <= m_adaptiveBitrateMaximum st ->
  let st' := Statistics_OnFeedback t st fb in
  m_enableAdaptiveBitrate st' = true /\
  m_adaptiveBitrateMinimum st' = m_adaptiveBitrateMinimum st /\
  m_adaptiveBitrateMaximum st' = m_adaptiveBitrateMaximum st /\
  m_adaptiveBitrateMinimum st <= m_bitrate st' <= m_adaptiveBitrateMaximum st.
Proof.
  intros He Hle. unfold Statistics_OnFeedback. rewrite He. simpl.
  repeat split; by apply clamp_bitrate_range.
Qed.

Lemma adjusted_bitrates_range (t : BitrateTuning) (fbs : list Feedback) : forall st,
  m_enableAdaptiveBitrate st = true ->
  m_adaptiveBitrateMinimum st <= m_adaptiveBitrateMaximum st ->
  Forall (fun b => m_adaptiveBitrateMinimum st <= b <= m_adaptiveBitrateMaximum st)
         (adjusted_bitrates t st fbs).
Proof.
  induction fbs as [|fb fbs IH]; intros st He Hle; [constructor|].
  destruct (OnFeedback_adaptive t st fb He Hle) as (He' & Hmin & Hmax & Hr).
  simpl. constructor; [exact Hr|].
  rewrite <- Hmin, <- Hmax. apply IH; [exact He'|].
  by rewrite Hmin, Hmax.
Qed.

Lemma SetBitrateParameters_statistics bitrate_mbs adaptive bitrate_max d h l :
  hmd d = Some h -> m_Listener h = Some l ->
  statistics_of (SetBitrateParameters bitrate_mbs adaptive bitrate_max d)
  = Some (if adaptive
          then {| m_enableAdaptiveBitrate := true;
                  m_adaptiveBitrateMaximum := bitrate_max;
                  m_bitrate := m_bitrate (m_Statistics l);
                  m_adaptiveBitrateMinimum := m_adaptiveBitrateMinimum (m_Statistics l);
                  m_latencyEma := m_latencyEma (m_Statistics l);
                  m_framesSinceLoss := m_framesSinceLoss (m_Statistics l);
                  m_fecFailures := m_fecFailures (m_Statistics l) |}
          else {| m_enableAdaptiveBitrate := false;
                  m_adaptiveBitrateMaximum := m_adaptiveBitrateMaximum (m_Statistics l);
                  m_bitrate := bitrate_mbs;
                  m_adaptiveBitrateMinimum := m_adaptiveBitrateMinimum (m_Statistics l);
                  m_latencyEma := m_latencyEma (m_Statistics l);
                  m_framesSinceLoss := m_framesSinceLoss (m_Statistics l);
                  m_fecFailures := m_fecFailures (m_Statistics l) |}).
Proof.
  intros Hh Hl. unfold SetBitrateParameters. rewrite Hh, Hl.
  by destruct adaptive.
Qed.

Lemma SetBitrateParameters_absent bitrate_mbs adaptive bitrate_max d :
  statistics_of d = None ->
  SetBitrateParameters bitrate_mbs adaptive bitrate_max d = d.
Proof.
  unfold statistics_of, SetBitrateParameters.
  destruct (hmd d) as [h|]; [|done].
  destruct (m_Listener h); [discriminate | done].
Qed.

(** C8.  Once [SetBitrateParameters] has enabled adaptive bitrate with
    maximum [bitrate_max], the controller works with that maximum, and for
    every sequence of feedback every bitrate it publishes lies in
    [[minimum, bitrate_max]], the minimum not exceeding the maximum. *)
Theorem adaptive_bitrate_in_range (t : BitrateTuning) (d : DriverProvider)
    (bitrate_mbs bitrate_max : Z) (st : Statistics) :
  statistics_of (SetBitrateParameters bitrate_mbs true bitrate_max d) = Some st ->
  m_adaptiveBitrateMinimum st <= bitrate_max ->
  m_enableAdaptiveBitrate st = true /\
  m_adaptiveBitrateMaximum st = bitrate_max /\
  forall fbs : list Feedback,
    Forall (fun b => m_adaptiveBitrateMinimum st <= b <= bitrate_max)
           (adjusted_bitrates t st fbs).
Proof.
  intros Hst Hle.
  assert (Hfields : m_enableAdaptiveBitrate st = true /\
                    m_adaptiveBitrateMaximum st = bitrate_max).
  { destruct (statistics_of d) as [st0|] eqn:Hd.
    - unfold statistics_of in Hd.
      destruct (hmd d) as [h|] eqn:Hh; [|discriminate].
      destruct (m_Listener h) as [l|] eqn:Hl; [|discriminate].
      rewrite (SetBitrateParameters_statistics _ true _ d h l Hh Hl) in Hst.
      injection Hst as <-. by split.
    - rewrite (SetBitrateParameters_absent _ _ _ d Hd) in Hst. congruence. }
  destruct Hfields as [He Hmax]. split; [exact He|]. split; [exact Hmax|].
  intros fbs. rewrite <- Hmax. apply adjusted_bitrates_range; [exact He|].
  by rewrite Hmax.
Qed.

Lemma adaptive_bitrate_in_range_witness :
  exists st,
    statistics_of (SetBitrateParameters 30 true 100 sample_streaming) = Some st /\
    Forall (fun b => m_adaptiveBitrateMinimum st <= b <= 100)
      (adjusted_bitrates sample_tuning st
         [ {| encodeTimeNs := 2000000; transmitTimeNs := 3000000;
              ackRoundTripNs := 1000000; wasLost := false |};
           {| encodeTimeNs := 2000000; transmitTimeNs := 3000000;
              ackRoundTripNs := 90000000; wasLost := true |} ]).
Proof.
  eexists. split; [reflexivity|].
  refine (proj2 (proj2 (adaptive_bitrate_in_range sample_tuning sample_streaming
                          30 100 _ eq_refl _)) _).
  simpl. lia.
Defined.

Lemma SetBitrateParameters_rest bitrate_mbs adaptive bitrate_max d :
  let d' := SetBitrateParameters bitrate_mbs adaptive bitrate_max d in
  left_controller d' = left_controller d /\
  right_controller d' = right_controller d /\
  tracked_devices d' = tracked_devices d /\
  settings d' = settings d /\
  host_calls d' = host_calls d /\
  (m_encoder <$> hmd d') = (m_encoder <$> hmd d) /\
  (m_poseHistory <$> hmd d') = (m_poseHistory <$> hmd d) /\
  (m_streamComponentsInitialized <$> hmd d') = (m_streamComponentsInitialized <$> hmd d).
Proof.
  unfold SetBitrateParameters.
  destruct (hmd d) as [h|] eqn:Hh; [|by rewrite Hh].
  destruct (m_Listener h) as [l|]; [|by rewrite Hh].
  destruct adaptive; simpl; rewrite app_nil_r; by rewrite ?Hh.
Qed.

(** C10.  [SetBitrateParameters] writes the fields of the mode it selects
    and no other.  With adaptive bitrate enabled the flag becomes true and
    the adaptive maximum becomes [bitrate_max], the fixed bitrate keeps its
    value; with adaptive bitrate disabled the flag becomes false and the
    bitrate becomes [bitrate_mbs], the adaptive maximum keeps its value.
    The remaining statistics, the encoder, the pose history, the
    controllers, the device table, the settings and the outgoing calls are
    untouched, and without an HMD or without a listener the provider is
    returned as it is. *)
Theorem SetBitrateParameters_frame (d : DriverProvider) (bitrate_mbs bitrate_max : Z) :
  (forall h l,
      hmd d = Some h -> m_Listener h = Some l ->
      (exists st',
          statistics_of (SetBitrateParameters bitrate_mbs true bitrate_max d) = Some st' /\
          m_enableAdaptiveBitrate st' = true /\
          m_adaptiveBitrateMaximum st' = bitrate_max /\
          m_bitrate st' = m_bitrate (m_Statistics l) /\
          m_adaptiveBitrateMinimum st' = m_adaptiveBitrateMinimum (m_Statistics l) /\
          m_latencyEma st' = m_latencyEma (m_Statistics l) /\
          m_framesSinceLoss st' = m_framesSinceLoss (m_Statistics l) /\
          m_fecFailures st' = m_fecFailures (m_Statistics l)) /\
      (exists st',
          statistics_of (SetBitrateParameters bitrate_mbs false bitrate_max d) = Some st' /\
          m_enableAdaptiveBitrate st' = false /\
          m_bitrate st' = bitrate_mbs /\
          m_adaptiveBitrateMaximum st' = m_adaptiveBitrateMaximum (m_Statistics l) /\
          m_adaptiveBitrateMinimum st' = m_adaptiveBitrateMinimum (m_Statistics l) /\
          m_latencyEma st' = m_latencyEma (m_Statistics l) /\
          m_framesSinceLoss st' = m_framesSinceLoss (m_Statistics l) /\
          m_fecFailures st' = m_fecFailures (m_Statistics l))) /\
  (forall adaptive,
      hmd d = None ->
      SetBitrateParameters bitrate_mbs adaptive bitrate_max d = d) /\
  (forall adaptive h,
      hmd d = Some h -> m_Listener h = None ->
      SetBitrateParameters bitrate_mbs adaptive bitrate_max d = d) /\
  (forall adaptive,
      let d' := SetBitrateParameters bitrate_mbs adaptive bitrate_max d in
      left_controller d' = left_controller d /\
      right_controller d' = right_controller d /\
      tracked_devices d' = tracked_devices d /\
      settings d' = settings d /\
      host_calls d' = host_calls d /\
      (m_encoder <$> hmd d') = (m_encoder <$> hmd d) /\
      (m_poseHistory <$> hmd d') = (m_poseHistory <$> hmd d) /\
      (m_streamComponentsInitialized <$> hmd d')
      = (m_streamComponentsInitialized <$> hmd d)).
Proof.
  split; [|split; [|split]].
  - intros h l Hh Hl. split; eexists;
      (split; [apply (SetBitrateParameters_statistics _ _ _ d h l Hh Hl)|]);
      simpl; repeat split.
  - intros adaptive Hh. apply SetBitrateParameters_absent.
    unfold statistics_of. by rewrite Hh.
  - intros adaptive h Hh Hl. apply SetBitrateParameters_absent.
    unfold statistics_of. by rewrite Hh, Hl.
  - intros adaptive. apply SetBitrateParameters_rest.
Qed.

Lemma SetBitrateParameters_frame_witness :
  (exists st',
      statistics_of (SetBitrateParameters 50 true 100 sample_streaming) = Some st' /\
      m_adaptiveBitrateMaximum st' = 100 /\ m_bitrate st' = 30) /\
  SetBitrateParameters 50 true 100 sample_provider = sample_provider.
Proof.
  split.
  - destruct (proj1 (proj1 (SetBitrateParameters_frame sample_streaming 50 100)
                       sample_streaming_hmd ClientConnection_new eq_refl eq_refl))
      as (st' & Hs & _ & Hmax & Hb & _).
    exists st'. repeat split; assumption.
  - apply (proj1 (proj2 (proj2 (SetBitrateParameters_frame sample_provider 50 100)))
             true sample_hmd); reflexivity.
Defined.

(** *** Tracking *)

Section Tracking.

Variable P : Paths.
Variable platform : Platform.
Variables (targetTimestampNs : Z) (controllerPoseTimeOffsetS : Q).
Variables leftHand rightHand : OculusHand.

Hypothesis head_left : HEAD_ID P <> LEFT_HAND_ID P.
Hypothesis head_right : HEAD_ID P <> RIGHT_HAND_ID P.
Hypothesis left_right : LEFT_HAND_ID P <> RIGHT_HAND_ID P.

Let step := SetTracking_motion P platform targetTimestampNs controllerPoseTimeOffsetS
              leftHand rightHand.

Lemma OnPoseUpdated_active s h motion :
  object_id h <> k_unTrackedDeviceIndexInvalid ->
  let h' := fst (OvrHmd_OnPoseUpdated platform s h targetTimestampNs motion) in
  object_id h' = object_id h /\
  m_poseHistory h'
  = PoseHistory_OnPoseUpdated (m_poseHistory h) targetTimestampNs motion.
Proof.
  intros Ha. unfold OvrHmd_OnPoseUpdated.
  apply Z.eqb_neq in Ha. rewrite Ha.
  destruct platform; try done.
  destruct (negb (m_refreshRateSet h) && _); done.
Qed.

Lemma step_head d motion h :
  deviceID motion = HEAD_ID P -> hmd d = Some h ->
  hmd (step d motion)
  = Some (fst (OvrHmd_OnPoseUpdated platform (settings d) h targetTimestampNs motion)) /\
  left_controller (step d motion) = left_controller d /\
  right_controller (step d motion) = right_controller d.
Proof.
  intros Hid Hh. unfold step, SetTracking_motion.
  rewrite Hid, Z.eqb_refl, Hh.
  by destruct (OvrHmd_OnPoseUpdated _ _ _ _ _).
Qed.

Lemma step_left d motion c :
  deviceID motion = LEFT_HAND_ID P -> left_controller d = Some c ->
  step d motion
  = with_left d (OvrController_onPoseUpdate c controllerPoseTimeOffsetS motion leftHand).
Proof.
  intros Hid Hc. unfold step, SetTracking_motion.
  rewrite Hid, Z.eqb_refl, Hc.
  by rewrite (proj2 (Z.eqb_neq _ _) (not_eq_sym head_left)).
Qed.

Lemma step_right d motion c :
  deviceID motion = RIGHT_HAND_ID P -> right_controller d = Some c ->
  step d motion
  = with_right d (OvrController_onPoseUpdate c controllerPoseTimeOffsetS motion rightHand).
Proof.
  intros Hid Hc. unfold step, SetTracking_motion.
  rewrite Hid, Z.eqb_refl, Hc.
  rewrite (proj2 (Z.eqb_neq _ _) (not_eq_sym head_right)).
  by rewrite (proj2 (Z.eqb_neq _ _) (not_eq_sym left_right)).
Qed.

Lemma step_absent d motion :
  (deviceID motion = HEAD_ID P -> hmd d = None) ->
  (deviceID motion = LEFT_HAND_ID P -> left_controller d = None) ->
  (deviceID motion = RIGHT_HAND_ID P -> right_controller d = None) ->
  step d motion = d.
Proof.
  intros Hh Hl Hr. unfold step, SetTracking_motion.
  destruct (Z.eqb_spec (deviceID motion) (HEAD_ID P)) as [e|_]; [rewrite (Hh e)|];
  destruct (Z.eqb_spec (deviceID motion) (LEFT_HAND_ID P)) as [e'|_];
    try rewrite (Hl e');
  destruct (Z.eqb_spec (deviceID motion) (RIGHT_HAND_ID P)) as [e''|_];
    try rewrite (Hr e''); reflexivity.
Qed.

Ltac step_cases :=
  unfold step, SetTracking_motion;
  repeat match goal with
         | |- context [Z.eqb ?a ?b] => destruct (Z.eqb_spec a b)
         | |- context [match hmd ?d with _ => _ end] => destruct (hmd d)
         | |- context [match left_controller ?d with _ => _ end] =>
             destruct (left_controller d)
         | |- context [match right_controller ?d with _ => _ end] =>
             destruct (right_controller d)
         | |- context [OvrHmd_OnPoseUpdated ?a ?b ?c ?d ?e] =>
             destruct (OvrHmd_OnPoseUpdated a b c d e)
         end;
  simpl; try congruence.

Lemma step_hmd_other d motion :
  deviceID motion <> HEAD_ID P -> hmd (step d motion) = hmd d.
Proof. intros Hne. step_cases. Qed.

Lemma step_left_other d motion :
  deviceID motion <> LEFT_HAND_ID P -> left_controller (step d motion) = left_controller d.
Proof. intros Hne. step_cases. Qed.

Lemma step_right_other d motion :
  deviceID motion <> RIGHT_HAND_ID P ->
  right_controller (step d motion) = right_controller d.
Proof. intros Hne. step_cases. Qed.

Lemma step_settings d motion : settings (step d motion) = settings d.
Proof. step_cases. Qed.

Lemma step_table d motion : tracked_devices (step d motion) = tracked_devices d.
Proof. step_cases. Qed.

Let run motions d :=
  SetTracking P platform targetTimestampNs controllerPoseTimeOffsetS motions
    leftHand rightHand d.

Lemma run_cons motion motions d : run (motion :: motions) d = run motions (step d motion).
Proof. reflexivity. Qed.

Lemma run_history motions : forall d h,
  hmd d = Some h ->
  object_id h <> k_unTrackedDeviceIndexInvalid ->
  exists h',
    hmd (run motions d) = Some h' /\
    m_poseHistory h'
    = PoseHistory_record_all (m_poseHistory h)
        ((fun m => (targetTimestampNs, m)) <$> motions_of (HEAD_ID P) motions).
Proof.
  induction motions as [|m ms IH]; intros d h Hh Ha.
  - exists h. by split.
  - rewrite run_cons. unfold motions_of. simpl.
    destruct (Z.eqb_spec (deviceID m) (HEAD_ID P)) as [Hid|Hne].
    + destruct (step_head d m h Hid Hh) as (Hh' & _ & _).
      destruct (OnPoseUpdated_active (settings d) h m Ha) as (Ho & Hp).
      destruct (IH _ _ Hh') as (h' & Hr & Hhist); [by rewrite Ho|].
      exists h'. split; [exact Hr|]. rewrite Hhist, Hp. reflexivity.
    + apply IH; [|exact Ha]. by rewrite step_hmd_other.
Qed.

Lemma run_inactive motions : forall d h,
  hmd d = Some h ->
  object_id h = k_unTrackedDeviceIndexInvalid ->
  hmd (run motions d) = Some h.
Proof.
  induction motions as [|m ms IH]; intros d h Hh Ha; [exact Hh|].
  rewrite run_cons. apply IH; [|exact Ha].
  destruct (Z.eqb_spec (deviceID m) (HEAD_ID P)) as [Hid|Hne].
  - destruct (step_head d m h Hid Hh) as (-> & _ & _).
    unfold OvrHmd_OnPoseUpdated. by rewrite Ha.
  - by rewrite step_hmd_other.
Qed.

Lemma run_left motions : forall d c,
  left_controller d = Some c ->
  exists c',
    left_controller (run motions d) = Some c' /\
    ctl_prop_container c' = ctl_prop_container c /\
    ctl_buttons c' = ctl_buttons c /\
    ctl_poses c'
    = ctl_poses c ++
      ((fun m => (controllerPoseTimeOffsetS, m, leftHand))
         <$> motions_of (LEFT_HAND_ID P) motions).
Proof.
  induction motions as [|m ms IH]; intros d c Hc.
  - exists c. simpl. by rewrite app_nil_r.
  - rewrite run_cons. unfold motions_of. simpl.
    destruct (Z.eqb_spec (deviceID m) (LEFT_HAND_ID P)) as [Hid|Hne].
    + rewrite (step_left d m c Hid Hc).
      destruct (IH (with_left d (OvrController_onPoseUpdate c controllerPoseTimeOffsetS
                                   m leftHand)) _ eq_refl)
        as (c' & Hr & Hpc & Hb & Hposes).
      exists c'. split; [exact Hr|]. split; [exact Hpc|]. split; [exact Hb|].
      rewrite Hposes. simpl. by rewrite <- app_assoc.
    + apply IH. by rewrite step_left_other.
Qed.

Lemma run_right motions : forall d c,
  right_controller d = Some c ->
  exists c',
    right_controller (run motions d) = Some c' /\
    ctl_prop_container c' = ctl_prop_container c /\
    ctl_buttons c' = ctl_buttons c /\
    ctl_poses c'
    = ctl_poses c ++
      ((fun m => (controllerPoseTimeOffsetS, m, rightHand))
         <$> motions_of (RIGHT_HAND_ID P) motions).
Proof.
  induction motions as [|m ms IH]; intros d c Hc.
  - exists c. simpl. by rewrite app_nil_r.
  - rewrite run_cons. unfold motions_of. simpl.
    destruct (Z.eqb_spec (deviceID m) (RIGHT_HAND_ID P)) as [Hid|Hne].
    + rewrite (step_right d m c Hid Hc).
      destruct (IH (with_right d (OvrController_onPoseUpdate c controllerPoseTimeOffsetS
                                    m rightHand)) _ eq_refl)
        as (c' & Hr & Hpc & Hb & Hposes).
      exists c'. split; [exact Hr|]. split; [exact Hpc|]. split; [exact Hb|].
      rewrite Hposes. simpl. by rewrite <- app_assoc.
    + apply IH. by rewrite step_right_other.
Qed.

Lemma run_known motions : forall d,
  run motions d = run (List.filter (is_known_device P) motions) d.
Proof.
  induction motions as [|m ms IH]; intros d; [reflexivity|].
  rewrite run_cons. cbn [List.filter].
  destruct (is_known_device P m) eqn:Hk.
  - rewrite run_cons. apply IH.
  - unfold is_known_device in Hk.
    apply orb_false_elim in Hk as [Hk Hr]. apply orb_false_elim in Hk as [Hh Hl].
    apply Z.eqb_neq in Hh, Hl, Hr.
    rewrite step_absent by done. apply IH.
Qed.

(** C6.  [SetTracking] routes each motion of a batch by its device
    identifier, the identifiers of the head and of the two hands being
    pairwise distinct.  The head motions, and only they, reach the
    [PoseHistory] of an activated HMD, in order, through
    [OvrHmd::OnPoseUpdated]; an HMD that is not activated (its object id is
    [k_unTrackedDeviceIndexInvalid]) is left as it is, its [PoseHistory]
    included, whatever the batch holds.  The left- and right-hand motions
    are handed, in order, to the pose sink of their controller with the
    controller time offset and the hand of that side, and motions of any
    other device are ignored: the batch acts as the batch of its head,
    left-hand and right-hand motions. *)
Theorem tracking_routing (deviceMotions : list AlvrDeviceMotion) (d : DriverProvider) :
  let d' := SetTracking P platform targetTimestampNs controllerPoseTimeOffsetS
              deviceMotions leftHand rightHand d in
  (forall h,
      hmd d = Some h -> object_id h <> k_unTrackedDeviceIndexInvalid ->
      exists h',
        hmd d' = Some h' /\
        m_poseHistory h'
        = PoseHistory_record_all (m_poseHistory h)
            ((fun m => (targetTimestampNs, m))
               <$> motions_of (HEAD_ID P) deviceMotions)) /\
  (forall h,
      hmd d = Some h -> object_id h = k_unTrackedDeviceIndexInvalid ->
      hmd d' = Some h) /\
  (forall c,
      left_controller d = Some c ->
      exists c',
        left_controller d' = Some c' /\
        ctl_poses c'
        = ctl_poses c ++
          ((fun m => (controllerPoseTimeOffsetS, m, leftHand))
             <$> motions_of (LEFT_HAND_ID P) deviceMotions)) /\
  (forall c,
      right_controller d = Some c ->
      exists c',
        right_controller d' = Some c' /\
        ctl_poses c'
        = ctl_poses c ++
          ((fun m => (controllerPoseTimeOffsetS, m, rightHand))
             <$> motions_of (RIGHT_HAND_ID P) deviceMotions)) /\
  d' = SetTracking P platform targetTimestampNs controllerPoseTimeOffsetS
         (List.filter (is_known_device P) deviceMotions) leftHand rightHand d.
Proof.
  intros d'. split; [|split; [|split; [|split]]].
  - intros h Hh Ha. apply (run_history deviceMotions d h Hh Ha).
  - intros h Hh Hi. apply (run_inactive deviceMotions d h Hh Hi).
  - intros c Hc.
    destruct (run_left deviceMotions d c Hc) as (c' & Hr & _ & _ & Hp). by exists c'.
  - intros c Hc.
    destruct (run_right deviceMotions d c Hc) as (c' & Hr & _ & _ & Hp). by exists c'.
  - apply run_known.
Qed.

End Tracking.

Lemma tracking_routing_witness :
  let d' := SetTracking sample_paths Linux 1000 0.02
              [motion_of_device 1; motion_of_device 2; motion_of_device 7;
               motion_of_device 3; motion_of_device 1]
              sample_hand sample_hand sample_provider in
  (exists h',
      hmd d' = Some h' /\
      sample_timestamps (m_poseHistory h') = [1000]) /\
  (exists c',
      left_controller d' = Some c' /\
      ctl_poses c' = [(0.02%Q, motion_of_device 2, sample_hand)]) /\
  hmd (SetTracking sample_paths Linux 1000 0.02 [motion_of_device 1]
         sample_hand sample_hand sample_initialized)
  = hmd sample_initialized.
Proof.
  intros d'.
  assert (H12 : HEAD_ID sample_paths <> LEFT_HAND_ID sample_paths) by (simpl; lia).
  assert (H13 : HEAD_ID sample_paths <> RIGHT_HAND_ID sample_paths) by (simpl; lia).
  assert (H23 : LEFT_HAND_ID sample_paths <> RIGHT_HAND_ID sample_paths) by (simpl; lia).
  pose proof (tracking_routing sample_paths Linux 1000 0.02%Q sample_hand sample_hand
                H12 H13 H23
                [motion_of_device 1; motion_of_device 2; motion_of_device 7;
                 motion_of_device 3; motion_of_device 1]
                sample_provider) as (Hhead & _ & Hleft & _ & _).
  pose proof (tracking_routing sample_paths Linux 1000 0.02%Q sample_hand sample_hand
                H12 H13 H23 [motion_of_device 1] sample_initialized)
    as (_ & Hinactive & _).
  split; [|split].
  - destruct (Hhead sample_hmd eq_refl) as (h' & Hh & Hp); [simpl; unfold k_unTrackedDeviceIndexInvalid; lia|].
    exists h'. split; [exact Hh|]. rewrite Hp. reflexivity.
  - destruct (Hleft (sample_controller 2 101) eq_refl) as (c' & Hc & Hp).
    exists c'. split; [exact Hc|]. rewrite Hp. reflexivity.
  - exact (Hinactive _ eq_refl eq_refl).
Defined.

(** Right after [Init] the HMD is not activated, and a batch with one head
    motion leaves its [PoseHistory] empty: the guard of
    [OvrHmd::OnPoseUpdated] returns before the history is touched. *)
Lemma head_motion_dropped_before_activation :
  exists h,
    hmd sample_initialized = Some h /\
    object_id h = k_unTrackedDeviceIndexInvalid /\
    motions_of (HEAD_ID sample_paths) [motion_of_device 1] = [motion_of_device 1] /\
    hmd (SetTracking sample_paths Linux 1000 0.02 [motion_of_device 1]
           sample_hand sample_hand sample_initialized) = Some h /\
    sample_timestamps (m_poseHistory h) = [] /\
    sample_timestamps
      (PoseHistory_record_all (m_poseHistory h) [(1000, motion_of_device 1)])
    = [1000].
Proof. eexists. repeat split; reflexivity. Qed.

(** *** Boundaries of the model *)

(** With a minimum duration of zero a zero-length pulse divides by zero. *)
Lemma shaped_duration_zero_minimum (s : Settings) :
  (m_hapticsMinDuration s == 0)%Q -> shaped_duration s 0 = None.
Proof.
  intros Hz. unfold shaped_duration, clamp_duration, remap_duration, fdiv.
  destruct (Qlt_le_dec 0 (m_hapticsMinDuration s * 0.5)) as [Hlt|_]; [lra|].
  reflexivity.
Qed.

(** A concrete frame: two haptic events, one for the right controller and
    one for an unknown container, produce one command. *)
Example RunFrame_sample :
  map is_HapticsSend
    (host_calls
       (RunFrame sample_paths sample_pow sample_provider
          [VREvent_Input_HapticVibration
             {| containerHandle := 102; fDurationSeconds := 0;
                fFrequency := 160; fAmplitude := 1 |};
           VREvent_Other 200;
           VREvent_Input_HapticVibration
             {| containerHandle := 55; fDurationSeconds := 0.2;
                fFrequency := 160; fAmplitude := 1 |}]))
  = [true].
Proof. reflexivity. Qed.

(** ** Further properties *)

(** *** Haptic shaping *)

Lemma clamp_duration_mono (s : Settings) (d1 d2 : Q) :
  (d1 <= d2)%Q -> (clamp_duration s d1 <= clamp_duration s d2)%Q.
Proof.
  intros Hle. unfold clamp_duration.
  destruct (Qlt_le_dec d1 _), (Qlt_le_dec d2 _); lra.
Qed.

Lemma remap_duration_value (s : Settings) (d : Q) :
  (0 < d)%Q ->
  remap_duration s d = Some (m_hapticsMinDuration s ^ 2 * 0.25 / d + d)%Q.
Proof.
  intros Hd. unfold remap_duration, fdiv, fadd.
  destruct (Qeq_bool d 0) eqn:Hz; [|reflexivity].
  apply Qeq_bool_iff in Hz. lra.
Qed.

(** X1.  With a positive minimum duration the shaped duration never
    decreases when the requested duration grows, it is never shorter than
    the requested duration, and it exceeds the clamped request by at most
    half the minimum duration. *)
Theorem shaped_duration_monotone (s : Settings) (d1 d2 : Q) :
  (0 < m_hapticsMinDuration s)%Q ->
  (d1 <= d2)%Q ->
  exists r1 r2,
    shaped_duration s d1 = Some r1 /\
    shaped_duration s d2 = Some r2 /\
    (r1 <= r2)%Q /\
    (d2 <= r2)%Q /\
    (clamp_duration s d2 <= r2 <= clamp_duration s d2 + m_hapticsMinDuration s * 0.5)%Q.
Proof.
  intros Hm Hle.
  pose proof (clamp_duration_lower s d1) as Hc1.
  pose proof (clamp_duration_lower s d2) as Hc2.
  pose proof (clamp_duration_mono s d1 d2 Hle) as Hmono.
  assert (Hd2 : (d2 <= clamp_duration s d2)%Q).
  { unfold clamp_duration. destruct (Qlt_le_dec d2 _); lra. }
  unfold shaped_duration.
  set (c1 := clamp_duration s d1) in *. set (c2 := clamp_duration s d2) in *.
  set (m := m_hapticsMinDuration s) in *.
  rewrite !remap_duration_value by lra. fold m.
  eexists _, _. split; [reflexivity|]. split; [reflexivity|].
  set (q1 := (m ^ 2 * 0.25 / c1)%Q). set (q2 := (m ^ 2 * 0.25 / c2)%Q).
  assert (Hq1 : (q1 * c1 == m ^ 2 * 0.25)%Q) by (unfold q1; field; lra).
  assert (Hq2 : (q2 * c2 == m ^ 2 * 0.25)%Q) by (unfold q2; field; lra).
  simpl in Hq1, Hq2.
  assert (P1 : (0 <= (c1 - m * 0.5) * (c2 - m * 0.5))%Q)
    by (apply Qmult_le_0_compat; lra).
  assert (P2 : (0 <= m * (c1 - m * 0.5))%Q) by (apply Qmult_le_0_compat; lra).
  assert (P3 : (0 <= m * (c2 - m * 0.5))%Q) by (apply Qmult_le_0_compat; lra).
  assert (Hcc : (m * m * 0.25 <= c1 * c2)%Q) by lra.
  assert (Hmm : (0 < m * m)%Q) by (apply Qmult_lt_0_compat; exact Hm).
  assert (Hprod : (0 < c1 * c2)%Q) by lra.
  assert (Hc2pos : (0 < c2)%Q) by lra.
  assert (Hq2pos : (0 <= q2)%Q).
  { apply (proj1 (Qmult_le_r 0 q2 c2 Hc2pos)). lra. }
  assert (Hq2up : (q2 <= m * 0.5)%Q).
  { apply (proj1 (Qmult_le_r q2 (m * 0.5) c2 Hc2pos)). lra. }
  assert (E1 : (q1 * (c1 * c2) == m * m * 0.25 * c2)%Q).
  { transitivity ((q1 * c1) * c2)%Q; [ring|]. rewrite Hq1. ring. }
  assert (E2 : (q2 * (c1 * c2) == m * m * 0.25 * c1)%Q).
  { transitivity ((q2 * c2) * c1)%Q; [ring|]. rewrite Hq2. ring. }
  assert (Hrhs : (0 <= (c2 - c1) * (c1 * c2 - m * m * 0.25))%Q)
    by (apply Qmult_le_0_compat; lra).
  assert (Hnn : (0 * (c1 * c2) <= (q2 + c2 - q1 - c1) * (c1 * c2))%Q) by lra.
  apply (proj1 (Qmult_le_r _ _ _ Hprod)) in Hnn.
  repeat split; lra.
Qed.

Lemma shaped_duration_monotone_witness :
  exists r1 r2,
    shaped_duration sample_settings 0.002 = Some r1 /\
    shaped_duration sample_settings 0.2 = Some r2 /\ (r1 <= r2)%Q.
Proof.
  assert (Hm : (0 < m_hapticsMinDuration sample_settings)%Q) by reflexivity.
  assert (Hle : (0.002 <= 0.2)%Q) by (unfold Qle; simpl; lia).
  destruct (shaped_duration_monotone sample_settings 0.002 0.2 Hm Hle)
    as (r1 & r2 & H1 & H2 & H12 & _).
  exists r1, r2. repeat split; assumption.
Defined.

Lemma fdiv_Some (a b : Q) :
  ~ (b == 0)%Q -> fdiv (Some a) (Some b) = Some (a / b)%Q.
Proof.
  intros Hb. unfold fdiv. destruct (Qeq_bool b 0) eqn:Hz; [|reflexivity].
  apply Qeq_bool_iff in Hz. contradiction.
Qed.

Lemma shaped_amplitude_gain pow (s : Settings) (duration amplitude g : Q) :
  amplitude_gain s duration = Some g ->
  shaped_amplitude pow s duration amplitude
  = pow (amplitude * g)%Q (1 - m_hapticsAmplitudeCurve s)%Q.
Proof.
  intros Hg. unfold shaped_amplitude.
  change (fadd (fdiv _ _) (Some 1%Q)) with (amplitude_gain s duration).
  rewrite Hg. reflexivity.
Qed.

(** X2.  In exact arithmetic (the rationals of this embedding, without
    the rounding of [float] and [double]): with a positive minimum
    duration, a positive low-duration range and a low-duration multiplier
    of at least 1, the amplitude computation of [RunFrame] divides by
    nothing that is zero, and the factor applied to the amplitude before
    the curve lies between 1 and the multiplier; a pulse no longer than
    half the minimum duration gets the multiplier itself.  (With rounding,
    a range so small that [1 - range] rounds to 1 behaves as the range
    zero.) *)
Theorem amplitude_gain_bounds (pow : Q -> Q -> float) (s : Settings)
    (fDuration amplitude : Q) :
  (0 < m_hapticsMinDuration s)%Q ->
  (0 < m_hapticsLowDurationRange s)%Q ->
  (1 <= m_hapticsLowDurationAmplitudeMultiplier s)%Q ->
  exists g,
    amplitude_gain s (clamp_duration s fDuration) = Some g /\
    (1 <= g <= m_hapticsLowDurationAmplitudeMultiplier s)%Q /\
    shaped_amplitude pow s (clamp_duration s fDuration) amplitude
    = pow (amplitude * g)%Q (1 - m_hapticsAmplitudeCurve s)%Q /\
    ((fDuration <= m_hapticsMinDuration s * 0.5)%Q ->
     (g == m_hapticsLowDurationAmplitudeMultiplier s)%Q).
Proof.
  intros Hm Hr Hk.
  pose proof (clamp_duration_lower s fDuration) as Hc.
  assert (Hshort : (fDuration <= m_hapticsMinDuration s * 0.5)%Q ->
                   (clamp_duration s fDuration == m_hapticsMinDuration s * 0.5)%Q).
  { intros Hs. unfold clamp_duration. destruct (Qlt_le_dec fDuration _); lra. }
  set (c := clamp_duration s fDuration) in *.
  set (m := m_hapticsMinDuration s) in *.
  set (r := m_hapticsLowDurationRange s) in *.
  set (k := m_hapticsLowDurationAmplitudeMultiplier s) in *.
  assert (Hmr : (0 < m * r)%Q) by (apply Qmult_lt_0_compat; assumption).
  set (inner := (c - 0.5 * m * (1 - r))%Q).
  assert (Hinner : (m * r * 0.5 <= inner)%Q) by (unfold inner; lra).
  set (q := ((m * r) ^ 2 * 0.25 / inner)%Q).
  assert (Hq : (q * inner == (m * r) * (m * r) * 0.25)%Q).
  { unfold q. simpl. field. lra. }
  assert (Hqpos : (0 < q)%Q).
  { assert (Hi : (0 < inner)%Q) by lra.
    apply (proj1 (Qmult_lt_r 0 q inner Hi)).
    assert ((0 < (m * r) * (m * r))%Q) by (apply Qmult_lt_0_compat; assumption). lra. }
  assert (Hsq : (0 <= (inner - m * r * 0.5) * (inner - m * r * 0.5))%Q).
  { apply Qmult_le_0_compat; lra. }
  assert (Hden : (m * r <= q + inner)%Q).
  { assert (Hi : (0 < inner)%Q) by lra.
    apply (proj1 (Qmult_le_r (m * r) (q + inner) inner Hi)). lra. }
  set (den := (q + inner)%Q) in *.
  set (x := ((k - 1) * m * r / den)%Q).
  assert (Hx : (x * den == (k - 1) * (m * r))%Q).
  { unfold x. field. lra. }
  assert (Hdpos : (0 < den)%Q) by lra.
  assert (Hk1 : (0 <= (k - 1) * (m * r))%Q) by (apply Qmult_le_0_compat; lra).
  assert (Hk2 : (0 <= (k - 1) * (den - m * r))%Q) by (apply Qmult_le_0_compat; lra).
  assert (Hx0 : (0 <= x)%Q).
  { apply (proj1 (Qmult_le_r 0 x den Hdpos)). lra. }
  assert (Hx1 : (x <= k - 1)%Q).
  { apply (proj1 (Qmult_le_r x (k - 1) den Hdpos)). lra. }
  assert (Hgain : amplitude_gain s c = Some (x + 1)%Q).
  { unfold amplitude_gain. fold m r k. fold inner.
    rewrite (fdiv_Some _ inner) by lra. simpl fadd at 2. fold q. fold den.
    rewrite (fdiv_Some _ den) by lra. reflexivity. }
  exists (x + 1)%Q. split; [exact Hgain|]. split; [lra|].
  split; [by apply shaped_amplitude_gain|].
  intros Hs. specialize (Hshort Hs).
  assert (Hi : (inner == m * r * 0.5)%Q) by (unfold inner; lra).
  assert (Hi0 : (0 < inner)%Q) by lra.
  assert (Hq' : (q == m * r * 0.5)%Q).
  { apply (proj1 (Qmult_inj_r q (m * r * 0.5) inner ltac:(lra))).
    rewrite Hq. rewrite Hi. ring. }
  assert (Hd' : (den == m * r)%Q) by (unfold den; lra).
  assert (Hx' : (x == k - 1)%Q).
  { apply (proj1 (Qmult_inj_r x (k - 1) den ltac:(lra))).
    rewrite Hx. rewrite Hd'. ring. }
  lra.
Qed.

Lemma amplitude_gain_bounds_witness :
  exists g,
    amplitude_gain sample_settings (clamp_duration sample_settings 0) = Some g /\
    (g == 2.5)%Q.
Proof.
  assert (H1 : (0 < m_hapticsMinDuration sample_settings)%Q) by reflexivity.
  assert (H2 : (0 < m_hapticsLowDurationRange sample_settings)%Q) by reflexivity.
  assert (H3 : (1 <= m_hapticsLowDurationAmplitudeMultiplier sample_settings)%Q)
    by (unfold Qle; simpl; lia).
  destruct (amplitude_gain_bounds sample_pow sample_settings 0 1 H1 H2 H3)
    as (g & Hg & _ & _ & Hshort).
  exists g. split; [exact Hg|]. apply Hshort. unfold Qle. simpl. lia.
Defined.

(** X3.  With a low-duration range of zero, a pulse no longer than half
    the minimum duration makes the amplitude computation of [RunFrame]
    divide by zero. *)
Theorem amplitude_zero_range_divides_by_zero (pow : Q -> Q -> float) (s : Settings)
    (fDuration amplitude : Q) :
  (m_hapticsLowDurationRange s == 0)%Q ->
  (fDuration <= m_hapticsMinDuration s * 0.5)%Q ->
  amplitude_gain s (clamp_duration s fDuration) = None /\
  shaped_amplitude pow s (clamp_duration s fDuration) amplitude = None.
Proof.
  intros Hr Hs.
  assert (Hc : (clamp_duration s fDuration == m_hapticsMinDuration s * 0.5)%Q).
  { unfold clamp_duration. destruct (Qlt_le_dec fDuration _); lra. }
  assert (Hgain : amplitude_gain s (clamp_duration s fDuration) = None).
  { unfold amplitude_gain.
    set (inner := (clamp_duration s fDuration
                   - 0.5 * m_hapticsMinDuration s * (1 - m_hapticsLowDurationRange s))%Q).
    assert (Hmr : (m_hapticsMinDuration s * m_hapticsLowDurationRange s == 0)%Q)
      by (rewrite Hr; ring).
    assert (Hz : Qeq_bool inner 0 = true) by (apply Qeq_bool_iff; unfold inner; lra).
    unfold fdiv at 2. rewrite Hz. reflexivity. }
  split; [exact Hgain|].
  unfold shaped_amplitude.
  change (fadd (fdiv _ _) (Some 1%Q)) with (amplitude_gain s (clamp_duration s fDuration)).
  rewrite Hgain. reflexivity.
Qed.

Lemma amplitude_zero_range_divides_by_zero_witness :
  shaped_amplitude sample_pow sample_settings_zero_range
    (clamp_duration sample_settings_zero_range 0) 1 = None.
Proof.
  assert (H1 : (m_hapticsLowDurationRange sample_settings_zero_range == 0)%Q)
    by reflexivity.
  assert (H2 : (0 <= m_hapticsMinDuration sample_settings_zero_range * 0.5)%Q)
    by (unfold Qle; simpl; lia).
  exact (proj2 (amplitude_zero_range_divides_by_zero sample_pow
                  sample_settings_zero_range 0 1 H1 H2)).
Defined.

(** X4.  [fixInvalidHaptics] changes nothing but a zero duration: the
    other two fields are kept, a duration that is not zero is kept, the
    duration is never zero afterwards, and fixing twice is fixing once. *)
Theorem fixInvalidHaptics_only_zero (hapticFeedback : Q * Q * Q) :
  fst (fst (fixInvalidHaptics hapticFeedback)) = fst (fst hapticFeedback) /\
  snd (fixInvalidHaptics hapticFeedback) = snd hapticFeedback /\
  (~ (haptic_duration hapticFeedback == 0)%Q ->
   fixInvalidHaptics hapticFeedback = hapticFeedback) /\
  ~ (haptic_duration (fixInvalidHaptics hapticFeedback) == 0)%Q /\
  fixInvalidHaptics (fixInvalidHaptics hapticFeedback) = fixInvalidHaptics hapticFeedback.
Proof.
  destruct hapticFeedback as [[h0 h1] h2]. unfold haptic_duration, fixInvalidHaptics.
  simpl. destruct (Qeq_bool h1 0) eqn:Hz; simpl.
  - repeat split; try reflexivity.
    + intros Hn. apply Qeq_bool_iff in Hz. contradiction.
    + intros H. discriminate H.
  - rewrite Hz. repeat split; try reflexivity.
    intros H. apply Qeq_bool_iff in H. congruence.
Qed.

Lemma fixInvalidHaptics_only_zero_witness :
  fixInvalidHaptics (1, -0.3, 0.5)%Q = (1, -0.3, 0.5)%Q.
Proof.
  apply (proj1 (proj2 (proj2 (fixInvalidHaptics_only_zero (1, -0.3, 0.5)%Q)))).
  intros H. discriminate H.
Defined.

(** *** The event loop *)

Lemma RunFrame_event_frame P pow d ev :
  let d' := RunFrame_event P pow d ev in
  hmd d' = hmd d /\ left_controller d' = left_controller d /\
  right_controller d' = right_controller d /\
  tracked_devices d' = tracked_devices d /\ settings d' = settings d /\
  exists sent,
    host_calls d' = host_calls d ++ sent /\
    Forall (fun c => is_HapticsSend c = true) sent /\
    (length sent <= 1)%nat.
Proof.
  destruct ev as [info|ty]; simpl.
  - destruct (is_container _ _); simpl.
    + repeat split; try reflexivity. eexists. split; [reflexivity|].
      split; [by repeat constructor | simpl; lia].
    + destruct (is_container _ _); simpl; repeat split; try reflexivity.
      * eexists. split; [reflexivity|]. split; [by repeat constructor | simpl; lia].
      * exists []. rewrite app_nil_r. split; [reflexivity|]. split; [constructor | simpl; lia].
  - repeat split; try reflexivity.
    exists []. rewrite app_nil_r. split; [reflexivity|]. split; [constructor | simpl; lia].
Qed.

Lemma RunFrame_event_no_controller P pow d ev :
  left_controller d = None -> right_controller d = None ->
  RunFrame_event P pow d ev = d.
Proof.
  intros Hl Hr. destruct ev as [info|ty]; simpl; [|reflexivity].
  by rewrite Hl, Hr.
Qed.

Lemma RunFrame_preserved (P : Paths) (pow : Q -> Q -> float) (events : list VREvent) :
  forall d : DriverProvider,
    let d' := RunFrame P pow d events in
    hmd d' = hmd d /\ left_controller d' = left_controller d /\
    right_controller d' = right_controller d /\
    tracked_devices d' = tracked_devices d /\ settings d' = settings d /\
    (exists sent,
        host_calls d' = host_calls d ++ sent /\
        Forall (fun c => is_HapticsSend c = true) sent /\
        (length sent <= length events)%nat) /\
    (left_controller d = None -> right_controller d = None -> d' = d).
Proof.
  induction events as [|ev events IH]; intros d.
  - simpl. repeat split; try reflexivity.
    exists []. rewrite app_nil_r. split; [reflexivity|]. split; [constructor | simpl; lia].
  - change (RunFrame P pow d (ev :: events))
      with (RunFrame P pow (RunFrame_event P pow d ev) events).
    destruct (RunFrame_event_frame P pow d ev)
      as (Hh & Hl & Hr & Ht & Hs & s1 & Hc1 & F1 & L1).
    destruct (IH (RunFrame_event P pow d ev))
      as (Hh' & Hl' & Hr' & Ht' & Hs' & (s2 & Hc2 & F2 & L2) & Hnone).
    cbv zeta. rewrite Hh', Hl', Hr', Ht', Hs'.
    repeat split; try assumption.
    + exists (s1 ++ s2). rewrite Hc2, Hc1, app_assoc. split; [reflexivity|].
      split; [by apply Forall_app|]. rewrite length_app. simpl. lia.
    + intros Hln Hrn. rewrite (RunFrame_event_no_controller P pow d ev Hln Hrn) in *.
      by apply Hnone.
Qed.

(** X5.  [RunFrame] touches nothing but the outgoing calls: the HMD, the
    controllers, the device table and the settings are as before, the
    earlier calls are kept, and what is added are haptic commands only, at
    most one per polled event.  Without controllers the frame changes
    nothing at all. *)
Theorem RunFrame_frame (P : Paths) (pow : Q -> Q -> float) (events : list VREvent) :
  forall d : DriverProvider,
    let d' := RunFrame P pow d events in
    hmd d' = hmd d /\ left_controller d' = left_controller d /\
    right_controller d' = right_controller d /\
    tracked_devices d' = tracked_devices d /\ settings d' = settings d /\
    (exists sent,
        host_calls d' = host_calls d ++ sent /\
        Forall (fun c => is_HapticsSend c = true) sent /\
        (length sent <= length events)%nat) /\
    (left_controller d = None -> right_controller d = None -> d' = d).
Proof. apply RunFrame_preserved. Qed.

Lemma RunFrame_frame_witness :
  RunFrame sample_paths sample_pow (sample_fresh sample_settings)
    [VREvent_Input_HapticVibration
       {| containerHandle := 0; fDurationSeconds := 0;
          fFrequency := 160; fAmplitude := 1 |}]
  = sample_fresh sample_settings.
Proof.
  apply (RunFrame_frame sample_paths sample_pow _ (sample_fresh sample_settings));
    reflexivity.
Defined.

(** *** Initialisation *)

Lemma lookup_map_insert (k k' : Z) (r : DeviceRef) (m : gmap Z DeviceRef) :
  map_insert k r m !! k'
  = match m !! k' with
    | Some x => Some x
    | None => if decide (k = k') then Some r else None
    end.
Proof.
  unfold map_insert. destruct (m !! k) as [x|] eqn:Hk.
  - destruct (m !! k') as [x'|] eqn:Hk'; [reflexivity|].
    destruct (decide (k = k')) as [->|]; [congruence | reflexivity].
  - destruct (decide (k = k')) as [->|Hne].
    + by rewrite lookup_insert_eq, Hk.
    + rewrite lookup_insert_ne by done. by destruct (m !! k').
Qed.

Lemma Init_initial P s capacity accepted :
  let d := Init P (g_driver_provider_initial s) capacity accepted in
  (exists h, hmd d = Some h /\
             object_id h = k_unTrackedDeviceIndexInvalid /\
             m_Listener h = None /\ m_encoder h = None /\
             m_directModeComponent h = None /\
             m_streamComponentsInitialized h = false /\
             IsHMD h = negb (m_TrackingRefOnly s) /\
             m_baseComponentsInitialized h = false) /\
  (if m_disableController s
   then left_controller d = None /\ right_controller d = None /\
        tracked_devices d = map_insert (HEAD_ID P) RefHmd ∅
   else is_Some (left_controller d) /\ is_Some (right_controller d) /\
        tracked_devices d
        = map_insert (RIGHT_HAND_ID P) RefRight
            (map_insert (LEFT_HAND_ID P) RefLeft (map_insert (HEAD_ID P) RefHmd ∅))) /\
  settings d = s.
Proof.
  unfold Init, OvrHmd_new, g_driver_provider_initial. simpl.
  split; [|split; [|reflexivity]].
  - eexists. split; [reflexivity|]. simpl. repeat split; try reflexivity.
    unfold IsHMD. simpl. by destruct (m_TrackingRefOnly s).
  - destruct (m_disableController s); simpl; repeat split; eauto.
Qed.

(** X6.  After [Init] on the initial provider the device table holds the
    head path, and the two hand paths exactly when the controllers are
    enabled; every entry points to a device that exists, so a battery or
    property update never dereferences a missing device; and the HMD is not
    activated yet. *)
Theorem Init_table_live (P : Paths) (s : Settings) (capacity : nat)
    (accepted : RegisteredDevice -> bool) :
  let d := Init P (g_driver_provider_initial s) capacity accepted in
  (forall k,
      is_Some (tracked_devices d !! k) <->
      k = HEAD_ID P \/
      (m_disableController s = false /\ (k = LEFT_HAND_ID P \/ k = RIGHT_HAND_ID P))) /\
  (forall k r, tracked_devices d !! k = Some r -> is_Some (deref d r)) /\
  (forall k gauge_value is_plugged, is_Some (SetBattery k gauge_value is_plugged d)) /\
  (forall k prop, is_Some (SetOpenvrProperty k prop d)) /\
  (is_Some (left_controller d) <-> m_disableController s = false) /\
  (is_Some (right_controller d) <-> m_disableController s = false) /\
  (object_id <$> hmd d) = Some k_unTrackedDeviceIndexInvalid.
Proof.
  intros d.
  destruct (Init_initial P s capacity accepted) as ((h & Hh & Ho & _) & Hc & _).
  fold d in Hh, Hc. clearbody d.
  assert (Hderef : forall k r, tracked_devices d !! k = Some r -> is_Some (deref d r)).
  { intros k r. destruct (m_disableController s).
    - destruct Hc as (Hl & Hr & ->). rewrite lookup_map_insert, lookup_empty.
      case_decide; [|discriminate]. intros [= <-]. simpl. by rewrite Hh.
    - destruct Hc as ([l Hl] & [rc Hr] & ->).
      rewrite !lookup_map_insert, lookup_empty.
      repeat case_decide; intros [= <-]; simpl; rewrite ?Hh, ?Hl, ?Hr; eauto. }
  split; [|split; [exact Hderef|split; [|split; [|split; [|split]]]]].
  - intros k. destruct (m_disableController s).
    + destruct Hc as (_ & _ & ->). rewrite lookup_map_insert, lookup_empty.
      destruct (decide (HEAD_ID P = k)) as [<-|Hne].
      * split; eauto.
      * split; [intros [? ?]; discriminate|].
        intros [->|[? _]]; [done | discriminate].
    + destruct Hc as (_ & _ & ->). rewrite !lookup_map_insert, lookup_empty.
      destruct (decide (HEAD_ID P = k)) as [<-|Hh'];
        [split; eauto|].
      destruct (decide (LEFT_HAND_ID P = k)) as [<-|Hl'];
        [split; eauto|].
      destruct (decide (RIGHT_HAND_ID P = k)) as [<-|Hr'];
        [split; eauto|].
      split; [intros [? ?]; discriminate|].
      intros [-> | [_ [-> | ->]]]; done.
  - intros k g p. unfold SetBattery.
    destruct (tracked_devices d !! k) as [r|] eqn:Hk; [|eauto].
    destruct (Hderef k r Hk) as [c ->]. eauto.
  - intros k prop. unfold SetOpenvrProperty.
    destruct (tracked_devices d !! k) as [r|] eqn:Hk; [|eauto].
    destruct (Hderef k r Hk) as [c ->]. eauto.
  - destruct (m_disableController s).
    + destruct Hc as (-> & _). split; [intros [? ?]; discriminate | discriminate].
    + destruct Hc as (Hl & _). split; eauto.
  - destruct (m_disableController s).
    + destruct Hc as (_ & -> & _). split; [intros [? ?]; discriminate | discriminate].
    + destruct Hc as (_ & Hr & _). split; eauto.
  - by rewrite Hh, <- Ho.
Qed.

Lemma Init_table_live_witness :
  let d := Init sample_paths (g_driver_provider_initial sample_settings) 10
             (fun _ => true) in
  is_Some (tracked_devices d !! 3) /\ is_Some (SetBattery 3 0.5 true d).
Proof.
  intros d.
  pose proof (Init_table_live sample_paths sample_settings 10 (fun _ => true))
    as (Hk & _ & Hb & _).
  split; [|apply Hb].
  apply Hk. right. split; [reflexivity|]. right. reflexivity.
Defined.

(** X7.  After [Init] on the initial provider, [SetButton] dereferences a
    missing controller exactly when the controllers are disabled and the
    path is one of the button paths of a hand; in every other case it
    returns normally. *)
Theorem SetButton_after_Init (P : Paths) (s : Settings) (capacity : nat)
    (accepted : RegisteredDevice -> bool) (path : Z) (value : AlvrButtonValue) :
  let d := Init P (g_driver_provider_initial s) capacity accepted in
  SetButton P path value d = None <->
  m_disableController s = true /\
  (path ∈ LEFT_CONTROLLER_BUTTON_IDS P \/ path ∈ RIGHT_CONTROLLER_BUTTON_IDS P).
Proof.
  intros d.
  destruct (Init_initial P s capacity accepted) as (_ & Hc & _). fold d in Hc.
  clearbody d. unfold SetButton.
  destruct (m_disableController s).
  - destruct Hc as (-> & -> & _).
    destruct (bool_decide (path ∈ LEFT_CONTROLLER_BUTTON_IDS P)) eqn:Hl.
    + apply bool_decide_eq_true in Hl. split; [intros _; by split; [|left] | done].
    + apply bool_decide_eq_false in Hl.
      destruct (bool_decide (path ∈ RIGHT_CONTROLLER_BUTTON_IDS P)) eqn:Hr.
      * apply bool_decide_eq_true in Hr. split; [intros _; by split; [|right] | done].
      * apply bool_decide_eq_false in Hr.
        split; [discriminate|]. intros [_ [Hx|Hx]]; contradiction.
  - destruct Hc as ([l ->] & [r ->] & _).
    split; [|intros [Hx _]; discriminate].
    destruct (bool_decide _); [discriminate|].
    destruct (bool_decide _); discriminate.
Qed.

Lemma SetButton_after_Init_witness :
  SetButton sample_paths 10 (mkAlvrButtonValue 1)
    (Init sample_paths (g_driver_provider_initial sample_settings_headless) 10
       (fun _ => true))
  = None.
Proof.
  apply (SetButton_after_Init sample_paths sample_settings_headless 10 (fun _ => true)
           10 (mkAlvrButtonValue 1)).
  split; [reflexivity|]. left. simpl. rewrite elem_of_cons. by left.
Defined.

(** *** Entry points and missing devices *)

(** X8.  For a tracking-reference-only device, starting the stream creates
    the listener and no encoder.  From then on a video error report
    dereferences the missing encoder, while [RequestIDR] and [CaptureFrame],
    which test the encoder, leave the provider as it is. *)
Theorem tracking_reference_stream (P : Paths) (platform : Platform) (s loaded : Settings)
    (capacity : nat) (accepted : RegisteredDevice -> bool) (init : option string)
    (capture : CEncoder -> CEncoder) :
  m_TrackingRefOnly s = true ->
  exists d1 h1,
    InitializeStreaming platform init loaded
      (Init P (g_driver_provider_initial s) capacity accepted) = Some d1 /\
    hmd d1 = Some h1 /\
    m_Listener h1 = Some ClientConnection_new /\
    m_encoder h1 = None /\
    m_streamComponentsInitialized h1 = true /\
    VideoErrorReportReceive d1 = None /\
    RequestIDR d1 = d1 /\
    CaptureFrame platform capture d1 = d1.
Proof.
  intros Href.
  destruct (Init_initial P s capacity accepted)
    as ((h & Hh & _ & _ & He & _ & Hs & Hhmd & _) & _ & _).
  set (d0 := Init P (g_driver_provider_initial s) capacity accepted) in *.
  clearbody d0. rewrite Href in Hhmd. simpl in Hhmd.
  unfold InitializeStreaming.
  change (hmd (with_settings d0 loaded)) with (hmd d0). rewrite Hh.
  unfold OvrHmd_StartStreaming. rewrite Hs, Hhmd.
  eexists _, _. split; [reflexivity|]. simpl.
  split; [reflexivity|]. split; [reflexivity|]. split; [exact He|].
  split; [reflexivity|].
  unfold VideoErrorReportReceive, RequestIDR, CaptureFrame. simpl. rewrite He.
  repeat split. by destruct platform.
Qed.

Lemma tracking_reference_stream_witness :
  exists d1,
    InitializeStreaming Linux None sample_settings_tracking_reference
      (Init sample_paths (g_driver_provider_initial sample_settings_tracking_reference)
         10 (fun _ => true)) = Some d1 /\
    VideoErrorReportReceive d1 = None.
Proof.
  destruct (tracking_reference_stream sample_paths Linux sample_settings_tracking_reference
              sample_settings_tracking_reference 10 (fun _ => true) None (fun e => e)
              eq_refl)
    as (d1 & h1 & Hi & _ & _ & _ & _ & Hv & _).
  exists d1. split; assumption.
Defined.

Lemma SetTracking_absent P platform ts offset motions lh rh : forall d,
  hmd d = None -> left_controller d = None -> right_controller d = None ->
  SetTracking P platform ts offset motions lh rh d = d.
Proof.
  induction motions as [|m ms IH]; intros d Hh Hl Hr; [reflexivity|].
  unfold SetTracking. simpl.
  assert (Hstep : SetTracking_motion P platform ts offset lh rh d m = d).
  { unfold SetTracking_motion. rewrite Hh, Hl, Hr.
    by destruct (_ =? _), (_ =? _), (_ =? _). }
  rewrite Hstep. by apply IH.
Qed.

(** X9.  While the provider holds no HMD and no controller (before [Init]
    and after [Cleanup]) every entry point that tests its pointers does
    nothing: tracking, haptic events, IDR requests, latency and video-error
    reports, bitrate parameters, frame capture, the views configuration and
    the shutdown request change nothing and call nothing, and
    [InitializeStreaming] only reloads the settings. *)
Theorem entry_points_without_devices (P : Paths) (platform : Platform)
    (pow : Q -> Q -> float) (tanf : Q -> Q)
    (report : ClientConnection -> Z -> ClientConnection) (capture : CEncoder -> CEncoder)
    (d : DriverProvider) :
  hmd d = None -> left_controller d = None -> right_controller d = None ->
  (forall ts offset motions lh rh,
      SetTracking P platform ts offset motions lh rh d = d) /\
  (forall events, RunFrame P pow d events = d) /\
  RequestIDR d = d /\
  VideoErrorReportReceive d = Some d /\
  (forall latencyUs, ReportNetworkLatency report latencyUs d = d) /\
  (forall bitrate_mbs adaptive bitrate_max,
      SetBitrateParameters bitrate_mbs adaptive bitrate_max d = d) /\
  CaptureFrame platform capture d = d /\
  ShutdownSteamvr d = [] /\
  (forall config views_config,
      SetViewsConfig tanf config d views_config = (views_config, [])) /\
  (forall init loaded,
      InitializeStreaming platform init loaded d = Some (with_settings d loaded)).
Proof.
  intros Hh Hl Hr.
  split; [intros; by apply SetTracking_absent|].
  split; [intros events; by apply RunFrame_preserved|].
  unfold RequestIDR, VideoErrorReportReceive, ReportNetworkLatency, SetBitrateParameters,
    CaptureFrame, ShutdownSteamvr, SetViewsConfig, InitializeStreaming.
  change (hmd (with_settings d _)) with (hmd d). rewrite Hh.
  repeat split. by destruct platform.
Qed.

Lemma entry_points_without_devices_witness :
  SetTracking sample_paths Linux 1000 0.02 [motion_of_device 1; motion_of_device 2]
    sample_hand sample_hand (g_driver_provider_initial sample_settings)
  = g_driver_provider_initial sample_settings.
Proof.
  apply (entry_points_without_devices sample_paths Linux sample_pow sample_tanf
           (fun l _ => l) (fun e => e) (g_driver_provider_initial sample_settings)
           eq_refl eq_refl eq_refl).
Defined.

(** *** What tracking tells the runtime *)

Section TrackingTrace.

Variable P : Paths.
Variable platform : Platform.
Variables (targetTimestampNs : Z) (controllerPoseTimeOffsetS : Q).
Variables leftHand rightHand : OculusHand.

Lemma OnPoseUpdated_inactive s h motion :
  object_id h = k_unTrackedDeviceIndexInvalid ->
  OvrHmd_OnPoseUpdated platform s h targetTimestampNs motion = (h, []).
Proof. intros Hi. unfold OvrHmd_OnPoseUpdated. by rewrite Hi. Qed.

Lemma OnPoseUpdated_trace s h motion :
  object_id h <> k_unTrackedDeviceIndexInvalid ->
  let r := OvrHmd_OnPoseUpdated platform s h targetTimestampNs motion in
  m_pose (fst r) = pose_of_motion motion /\
  object_id (fst r) = object_id h /\
  List.filter is_pose_report (snd r)
  = [TrackedDevicePoseUpdated (object_id h) (pose_of_motion motion)] /\
  (length (List.filter is_refresh_rate_write (snd r))
   + (if m_refreshRateSet (fst r) then 0 else 1)
   <= (if m_refreshRateSet h then 0 else 1))%nat /\
  (platform <> Linux -> List.filter is_refresh_rate_write (snd r) = []).
Proof.
  intros Ha. unfold OvrHmd_OnPoseUpdated.
  apply Z.eqb_neq in Ha. rewrite Ha.
  destruct platform; simpl;
    try (destruct (m_viveTrackerProxy h), (m_refreshRateSet h); simpl;
         repeat split; try reflexivity; try lia; fail).
  destruct (m_refreshRateSet h) eqn:Hset;
    destruct (match m_encoder h with Some e => enc_connected e | None => false end);
    destruct (m_viveTrackerProxy h); simpl; rewrite ?Hset;
    repeat split; try done; try lia.
Qed.

Lemma OnPoseUpdated_refresh_inactive s h motion :
  let r := OvrHmd_OnPoseUpdated platform s h targetTimestampNs motion in
  (length (List.filter is_refresh_rate_write (snd r))
   + (if m_refreshRateSet (fst r) then 0 else 1)
   <= (if m_refreshRateSet h then 0 else 1))%nat /\
  (platform <> Linux -> List.filter is_refresh_rate_write (snd r) = []).
Proof.
  destruct (Z.eq_dec (object_id h) k_unTrackedDeviceIndexInvalid) as [Hi|Ha].
  - rewrite (OnPoseUpdated_inactive s h motion Hi). simpl. split; [lia | done].
  - destruct (OnPoseUpdated_trace s h motion Ha) as (_ & _ & _ & H1 & H2). by split.
Qed.

Lemma step_trace d motion :
  let d' := SetTracking_motion P platform targetTimestampNs controllerPoseTimeOffsetS
              leftHand rightHand d motion in
  match hmd d with
  | Some h =>
      if deviceID motion =? HEAD_ID P then
        let r := OvrHmd_OnPoseUpdated platform (settings d) h targetTimestampNs motion in
        hmd d' = Some (fst r) /\ host_calls d' = host_calls d ++ snd r
      else hmd d' = Some h /\ host_calls d' = host_calls d
  | None => hmd d' = None /\ host_calls d' = host_calls d
  end /\
  settings d' = settings d.
Proof.
  unfold SetTracking_motion.
  destruct (hmd d) as [h|] eqn:Hh.
  - destruct (deviceID motion =? HEAD_ID P).
    + destruct (OvrHmd_OnPoseUpdated _ _ _ _ _). simpl. done.
    + destruct (deviceID motion =? LEFT_HAND_ID P), (left_controller d),
        (deviceID motion =? RIGHT_HAND_ID P), (right_controller d); simpl; done.
  - destruct (deviceID motion =? HEAD_ID P);
      destruct (deviceID motion =? LEFT_HAND_ID P), (left_controller d),
        (deviceID motion =? RIGHT_HAND_ID P), (right_controller d); simpl; done.
Qed.

Lemma SetTracking_cons motion motions d :
  SetTracking P platform targetTimestampNs controllerPoseTimeOffsetS (motion :: motions)
    leftHand rightHand d
  = SetTracking P platform targetTimestampNs controllerPoseTimeOffsetS motions
      leftHand rightHand
      (SetTracking_motion P platform targetTimestampNs controllerPoseTimeOffsetS
         leftHand rightHand d motion).
Proof. reflexivity. Qed.

Lemma SetTracking_refresh motions : forall d,
  exists new,
    host_calls (SetTracking P platform targetTimestampNs controllerPoseTimeOffsetS motions
                  leftHand rightHand d) = host_calls d ++ new /\
    (length (List.filter is_refresh_rate_write new)
     + refresh_budget (SetTracking P platform targetTimestampNs controllerPoseTimeOffsetS
                         motions leftHand rightHand d)
     <= refresh_budget d)%nat /\
    (platform <> Linux -> List.filter is_refresh_rate_write new = []).
Proof.
  induction motions as [|m ms IH]; intros d.
  - exists []. simpl. rewrite app_nil_r. split; [reflexivity|]. split; [lia|done].
  - rewrite SetTracking_cons.
    destruct (step_trace d m) as [Hstep _].
    set (d1 := SetTracking_motion P platform targetTimestampNs controllerPoseTimeOffsetS
                 leftHand rightHand d m) in *.
    destruct (IH d1) as (new & Hc & Hb & Hl).
    assert (Hfirst : exists c,
               host_calls d1 = host_calls d ++ c /\
               (length (List.filter is_refresh_rate_write c) + refresh_budget d1
                <= refresh_budget d)%nat /\
               (platform <> Linux -> List.filter is_refresh_rate_write c = [])).
    { unfold refresh_budget. destruct (hmd d) as [h|].
      - destruct (deviceID m =? HEAD_ID P).
        + destruct Hstep as [-> ->]. eexists. split; [reflexivity|].
          apply OnPoseUpdated_refresh_inactive.
        + destruct Hstep as [-> ->]. exists []. rewrite app_nil_r. simpl.
          split; [reflexivity|]. split; [lia|done].
      - destruct Hstep as [-> ->]. exists []. rewrite app_nil_r. simpl.
        split; [reflexivity|]. split; [lia|done]. }
    destruct Hfirst as (c & Hc1 & Hb1 & Hl1).
    exists (c ++ new). rewrite Hc, Hc1, app_assoc. split; [reflexivity|].
    rewrite List.filter_app, length_app. split; [lia|].
    intros Hp. by rewrite (Hl1 Hp), (Hl Hp).
Qed.

(** X10.  Over any batch of motions [SetTracking] writes the display
    frequency at most once, only on Linux, and not at all once
    [m_refreshRateSet] is latched or when there is no HMD; the calls made
    before the batch are kept. *)
Theorem refresh_rate_written_once (deviceMotions : list AlvrDeviceMotion)
    (d : DriverProvider) :
  exists new,
    host_calls (SetTracking P platform targetTimestampNs controllerPoseTimeOffsetS
                  deviceMotions leftHand rightHand d) = host_calls d ++ new /\
    (length (List.filter is_refresh_rate_write new) <= 1)%nat /\
    (platform <> Linux -> List.filter is_refresh_rate_write new = []) /\
    (hmd d = None -> List.filter is_refresh_rate_write new = []) /\
    (forall h, hmd d = Some h -> m_refreshRateSet h = true ->
               List.filter is_refresh_rate_write new = []).
Proof.
  destruct (SetTracking_refresh deviceMotions d) as (new & Hc & Hb & Hl).
  exists new. split; [exact Hc|].
  assert (Hzero : refresh_budget d = 0%nat -> List.filter is_refresh_rate_write new = []).
  { intros Hz. rewrite Hz in Hb. apply length_zero_iff_nil. lia. }
  split; [|split; [exact Hl|split]].
  - unfold refresh_budget in Hb. destruct (hmd d) as [h|];
      [destruct (m_refreshRateSet h)|]; lia.
  - intros Hn. apply Hzero. unfold refresh_budget. by rewrite Hn.
  - intros h Hh Hset. apply Hzero. unfold refresh_budget. by rewrite Hh, Hset.
Qed.

Lemma filter_sublist {A} (f : A -> bool) (l : list A) :
  List.filter f l `sublist_of` l.
Proof.
  induction l as [|a l IH]; simpl; [constructor|].
  destruct (f a); by constructor.
Qed.

Lemma SetTracking_poses motions : forall d h,
  hmd d = Some h ->
  object_id h <> k_unTrackedDeviceIndexInvalid ->
  exists h' new,
    hmd (SetTracking P platform targetTimestampNs controllerPoseTimeOffsetS motions
           leftHand rightHand d) = Some h' /\
    host_calls (SetTracking P platform targetTimestampNs controllerPoseTimeOffsetS motions
                  leftHand rightHand d) = host_calls d ++ new /\
    List.filter is_pose_report new
    = (fun m => TrackedDevicePoseUpdated (object_id h) (pose_of_motion m))
        <$> motions_of (HEAD_ID P) motions /\
    OvrHmd_GetPose h'
    = default (m_pose h) (pose_of_motion <$> last (motions_of (HEAD_ID P) motions)).
Proof.
  induction motions as [|m ms IH]; intros d h Hh Ha.
  - exists h, []. simpl. rewrite app_nil_r. done.
  - rewrite SetTracking_cons.
    destruct (step_trace d m) as [Hstep _]. rewrite Hh in Hstep.
    unfold motions_of. simpl.
    destruct (deviceID m =? HEAD_ID P).
    + destruct Hstep as [Hh1 Hc1].
      destruct (OnPoseUpdated_trace (settings d) h m Ha) as (Hpose & Ho & Hrep & _).
      destruct (IH _ _ Hh1) as (h' & new & Hh' & Hc & Hf & Hg); [by rewrite Ho|].
      exists h', (snd (OvrHmd_OnPoseUpdated platform (settings d) h targetTimestampNs m)
                  ++ new).
      split; [exact Hh'|]. rewrite Hc, Hc1, app_assoc. split; [reflexivity|].
      rewrite List.filter_app, Hrep, Hf, Ho. split; [reflexivity|].
      rewrite Hg, Hpose. fold (motions_of (HEAD_ID P) ms).
      rewrite last_cons. by destruct (last (motions_of (HEAD_ID P) ms)).
    + destruct Hstep as [Hh1 Hc1].
      destruct (IH _ _ Hh1 Ha) as (h' & new & Hh' & Hc & Hf & Hg).
      exists h', new. rewrite Hc, Hc1. done.
Qed.

(** X11.  For an activated HMD, [SetTracking] reports every head motion of
    the batch to the runtime under the object id of the HMD, as the pose
    built from the motion: these reports occur, in the order of the batch,
    among the calls the batch adds.  Afterwards [GetPose] returns the pose
    of the last head motion of the batch, or the earlier pose when the
    batch has none. *)
Theorem head_poses_reported (deviceMotions : list AlvrDeviceMotion)
    (d : DriverProvider) (h : OvrHmd) :
  hmd d = Some h ->
  object_id h <> k_unTrackedDeviceIndexInvalid ->
  exists h' new,
    hmd (SetTracking P platform targetTimestampNs controllerPoseTimeOffsetS deviceMotions
           leftHand rightHand d) = Some h' /\
    host_calls (SetTracking P platform targetTimestampNs controllerPoseTimeOffsetS
                  deviceMotions leftHand rightHand d) = host_calls d ++ new /\
    ((fun m => TrackedDevicePoseUpdated (object_id h) (pose_of_motion m))
       <$> motions_of (HEAD_ID P) deviceMotions) `sublist_of` new /\
    OvrHmd_GetPose h'
    = default (m_pose h)
        (pose_of_motion <$> last (motions_of (HEAD_ID P) deviceMotions)).
Proof.
  intros Hh Ha.
  destruct (SetTracking_poses deviceMotions d h Hh Ha) as (h' & new & Hh' & Hc & Hf & Hg).
  exists h', new. split; [exact Hh'|]. split; [exact Hc|]. split; [|exact Hg].
  rewrite <- Hf. apply filter_sublist.
Qed.

End TrackingTrace.

Lemma refresh_rate_written_once_witness :
  exists new,
    host_calls (SetTracking sample_paths Linux 1000 0.02
                  [motion_of_device 1; motion_of_device 1; motion_of_device 1]
                  sample_hand sample_hand sample_connected)
    = host_calls sample_connected ++ new /\
    (length (List.filter is_refresh_rate_write new) <= 1)%nat.
Proof.
  destruct (refresh_rate_written_once sample_paths Linux 1000 0.02 sample_hand sample_hand
              [motion_of_device 1; motion_of_device 1; motion_of_device 1]
              sample_connected) as (new & Hc & Hle & _).
  exists new. split; [exact Hc | exact Hle].
Defined.

Lemma head_poses_reported_witness :
  exists h' new,
    hmd (SetTracking sample_paths Linux 1000 0.02
           [motion_of_device 1; motion_of_device 2] sample_hand sample_hand
           sample_provider) = Some h' /\
    host_calls (SetTracking sample_paths Linux 1000 0.02
                  [motion_of_device 1; motion_of_device 2] sample_hand sample_hand
                  sample_provider) = host_calls sample_provider ++ new /\
    [TrackedDevicePoseUpdated 0 (pose_of_motion (motion_of_device 1))] `sublist_of` new /\
    OvrHmd_GetPose h' = pose_of_motion (motion_of_device 1).
Proof.
  assert (Ha : object_id sample_hmd <> k_unTrackedDeviceIndexInvalid)
    by (unfold k_unTrackedDeviceIndexInvalid; simpl; lia).
  destruct (head_poses_reported sample_paths Linux 1000 0.02 sample_hand sample_hand
              [motion_of_device 1; motion_of_device 2] sample_provider sample_hmd
              eq_refl Ha) as (h' & new & Hh & Hc & Hs & Hg).
  exists h', new. split; [exact Hh|]. split; [exact Hc|]. split; [exact Hs | exact Hg].
Defined.

(** *** Activation *)

Section Activation.

Variable platform : Platform.
Variable container_of : Z -> Z.
Variables (s : Settings) (ds : DisplaySettings).

Let Activate := OvrHmd_Activate platform container_of s ds.

Lemma Activate_state d3d h unObjectId :
  let h' := snd (fst (Activate d3d h unObjectId)) in
  object_id h' = unObjectId /\
  prop_container h' = container_of unObjectId /\
  m_baseComponentsInitialized h' = true /\
  m_deviceClass h' = m_deviceClass h /\
  m_pose h' = m_pose h /\ m_poseHistory h' = m_poseHistory h /\
  m_Listener h' = m_Listener h /\ m_encoder h' = m_encoder h /\
  m_streamComponentsInitialized h' = m_streamComponentsInitialized h /\
  m_refreshRateSet h' = m_refreshRateSet h /\
  m_viveTrackerProxy h' = m_viveTrackerProxy h.
Proof.
  unfold Activate, OvrHmd_Activate.
  destruct (m_baseComponentsInitialized h); [simpl; done|].
  destruct (IsHMD h); [|simpl; done].
  destruct platform; try (simpl; done).
  destruct (d3d_Initialize d3d); [|simpl; done].
  destruct (d3d_GetAdapterInfo d3d); simpl; done.
Qed.

(** X12.  [Activate] and [Deactivate] gate the head poses.  Activation
    installs the runtime's object id and its property container, whatever
    error code it returns, and keeps the streaming state, the pose and the
    pose history; with a valid id the next head pose is reported under that
    id.  After [Deactivate] both handles are the invalid ones and a head
    pose changes nothing and reports nothing, while the base components
    stay initialized. *)
Theorem activation_gates_poses (d3d : D3DOutcome) (h : OvrHmd) (unObjectId : Z)
    (timestampNs : Z) (motion : AlvrDeviceMotion) :
  let h1 := snd (fst (Activate d3d h unObjectId)) in
  object_id h1 = unObjectId /\
  prop_container h1 = container_of unObjectId /\
  m_poseHistory h1 = m_poseHistory h /\
  m_Listener h1 = m_Listener h /\ m_encoder h1 = m_encoder h /\
  m_streamComponentsInitialized h1 = m_streamComponentsInitialized h /\
  (unObjectId <> k_unTrackedDeviceIndexInvalid ->
   List.filter is_pose_report
     (snd (OvrHmd_OnPoseUpdated platform s h1 timestampNs motion))
   = [TrackedDevicePoseUpdated unObjectId (pose_of_motion motion)]) /\
  object_id (OvrHmd_Deactivate h1) = k_unTrackedDeviceIndexInvalid /\
  prop_container (OvrHmd_Deactivate h1) = k_ulInvalidPropertyContainer /\
  m_baseComponentsInitialized (OvrHmd_Deactivate h1) = true /\
  OvrHmd_OnPoseUpdated platform s (OvrHmd_Deactivate h1) timestampNs motion
  = (OvrHmd_Deactivate h1, []).
Proof.
  intros h1.
  destruct (Activate_state d3d h unObjectId)
    as (Ho & Hc & Hb & _ & _ & Hp & Hl & He & Hs & _). fold h1 in Ho, Hc, Hb, Hp, Hl, He, Hs.
  split; [exact Ho|]. split; [exact Hc|]. split; [exact Hp|]. split; [exact Hl|].
  split; [exact He|]. split; [exact Hs|]. split.
  - intros Hv.
    assert (Ha : object_id h1 <> k_unTrackedDeviceIndexInvalid) by (by rewrite Ho).
    destruct (OnPoseUpdated_trace platform timestampNs s h1 motion Ha) as (_ & _ & Hr & _).
    by rewrite Hr, Ho.
  - split; [reflexivity|]. split; [reflexivity|]. split; [exact Hb|].
    by apply OnPoseUpdated_inactive.
Qed.

(** X13.  The base components are initialized once.  An activation that
    finds [m_baseComponentsInitialized] set returns [VRInitError_None],
    logs no error, does not announce the driver as ready and leaves the
    direct-mode component as it is.  So on Windows, after an activation
    that failed on the graphics device, every later activation succeeds
    without a direct-mode component and without the driver ever being
    announced ready, and starting the stream of that HMD dereferences the
    missing component. *)
Theorem base_components_once (d3d : D3DOutcome) (h : OvrHmd) (unObjectId : Z) :
  (m_baseComponentsInitialized h = true ->
   fst (fst (Activate d3d h unObjectId)) = vr.VRInitError_None /\
   m_directModeComponent (snd (fst (Activate d3d h unObjectId)))
   = m_directModeComponent h /\
   List.filter is_DriverReadyIdle (snd (Activate d3d h unObjectId)) = [] /\
   List.filter is_Log_Error (snd (Activate d3d h unObjectId)) = []) /\
  (platform = Win32 ->
   m_baseComponentsInitialized h = false ->
   IsHMD h = true ->
   m_directModeComponent h = None ->
   m_streamComponentsInitialized h = false ->
   d3d_Initialize d3d && d3d_GetAdapterInfo d3d = false ->
   let h1 := snd (fst (Activate d3d h unObjectId)) in
   fst (fst (Activate d3d h unObjectId)) = vr.VRInitError_Driver_Failed /\
   length (List.filter is_Log_Error (snd (Activate d3d h unObjectId))) = 1%nat /\
   List.filter is_DriverReadyIdle (snd (Activate d3d h unObjectId)) = [] /\
   forall d3d' unObjectId',
     let h2 := snd (fst (Activate d3d' h1 unObjectId')) in
     fst (fst (Activate d3d' h1 unObjectId')) = vr.VRInitError_None /\
     List.filter is_DriverReadyIdle (snd (Activate d3d' h1 unObjectId')) = [] /\
     m_directModeComponent h2 = None /\
     forall init, OvrHmd_StartStreaming platform init h2 = None).
Proof.
  assert (Hprops : forall c, List.filter is_DriverReadyIdle (Activate_properties platform s ds c)
                             = [] /\
                             List.filter is_Log_Error (Activate_properties platform s ds c)
                             = []).
  { intros c. unfold Activate_properties. by destruct platform. }
  assert (Hevent : forall h0 o, List.filter is_DriverReadyIdle (Activate_ipd_event ds h0 o)
                                = [] /\
                                List.filter is_Log_Error (Activate_ipd_event ds h0 o) = []).
  { intros h0 o. unfold Activate_ipd_event. by destruct (IsHMD h0). }
  assert (Hlatched : forall d3d0 h0 o,
             m_baseComponentsInitialized h0 = true ->
             fst (fst (Activate d3d0 h0 o)) = vr.VRInitError_None /\
             m_directModeComponent (snd (fst (Activate d3d0 h0 o)))
             = m_directModeComponent h0 /\
             List.filter is_DriverReadyIdle (snd (Activate d3d0 h0 o)) = [] /\
             List.filter is_Log_Error (snd (Activate d3d0 h0 o)) = []).
  { intros d3d0 h0 o Hb. unfold Activate, OvrHmd_Activate. rewrite Hb. cbn [fst snd].
    rewrite !List.filter_app.
    destruct (Hprops (container_of o)) as [-> ->].
    destruct (Hevent h0 o) as [-> ->]. done. }
  split; [apply Hlatched|].
  intros Hw Hb Hhmd Hdm Hstream Hd3d h1.
  assert (Hfirst : fst (fst (Activate d3d h unObjectId)) = vr.VRInitError_Driver_Failed /\
                   length (List.filter is_Log_Error (snd (Activate d3d h unObjectId)))
                   = 1%nat /\
                   List.filter is_DriverReadyIdle (snd (Activate d3d h unObjectId)) = [] /\
                   m_directModeComponent h1 = None).
  { subst h1. unfold Activate, OvrHmd_Activate. rewrite Hb, Hhmd, Hw.
    destruct (Hprops (container_of unObjectId)) as [Hp1 Hp2]. rewrite Hw in Hp1, Hp2.
    destruct (d3d_Initialize d3d); cbn [negb andb] in *.
    - rewrite Hd3d. cbn [negb fst snd]. rewrite !List.filter_app, Hp1, Hp2. done.
    - cbn [fst snd]. rewrite !List.filter_app, Hp1, Hp2. done. }
  destruct Hfirst as (Hr & He & Hi & Hdm1).
  split; [exact Hr|]. split; [exact He|]. split; [exact Hi|].
  intros d3d' o' h2.
  destruct (Activate_state d3d h unObjectId) as (_ & _ & Hb1 & Hcls & _ & _ & _ & _ & Hs1 & _).
  fold h1 in Hb1, Hcls, Hs1.
  destruct (Hlatched d3d' h1 o' Hb1) as (Hr2 & Hdm2 & Hi2 & _). fold h2 in Hdm2.
  split; [exact Hr2|]. split; [exact Hi2|]. split; [by rewrite Hdm2|].
  intros init.
  destruct (Activate_state d3d' h1 o') as (_ & _ & _ & Hcls2 & _ & _ & _ & _ & Hs2 & _).
  fold h2 in Hcls2, Hs2.
  unfold OvrHmd_StartStreaming. rewrite Hs2, Hs1, Hstream.
  assert (Hhmd2 : IsHMD h2 = true) by (unfold IsHMD in *; by rewrite Hcls2, Hcls).
  rewrite Hhmd2, Hw, Hdm2, Hdm1. by destruct init.
Qed.

End Activation.

Lemma activation_gates_poses_witness :
  let h1 := snd (fst (OvrHmd_Activate Linux (fun o => o + 100) sample_settings
                        sample_display_settings
                        {| d3d_Initialize := true; d3d_GetAdapterInfo := true |}
                        sample_new_hmd 0)) in
  List.filter is_pose_report
    (snd (OvrHmd_OnPoseUpdated Linux sample_settings h1 1000 (motion_of_device 1)))
  = [TrackedDevicePoseUpdated 0 (pose_of_motion (motion_of_device 1))].
Proof.
  intros h1.
  apply (activation_gates_poses Linux (fun o => o + 100) sample_settings
           sample_display_settings
           {| d3d_Initialize := true; d3d_GetAdapterInfo := true |}
           sample_new_hmd 0 1000 (motion_of_device 1)).
  unfold k_unTrackedDeviceIndexInvalid. lia.
Defined.

Lemma base_components_once_witness :
  let failing := {| d3d_Initialize := false; d3d_GetAdapterInfo := true |} in
  let working := {| d3d_Initialize := true; d3d_GetAdapterInfo := true |} in
  let h1 := snd (fst (OvrHmd_Activate Win32 (fun o => o + 100) sample_settings
                        sample_display_settings failing sample_new_hmd 0)) in
  let h2 := snd (fst (OvrHmd_Activate Win32 (fun o => o + 100) sample_settings
                        sample_display_settings working h1 0)) in
  OvrHmd_StartStreaming Win32 None h2 = None.
Proof.
  intros failing working h1 h2.
  pose proof (proj2 (base_components_once Win32 (fun o => o + 100) sample_settings
                       sample_display_settings failing sample_new_hmd 0)
                eq_refl eq_refl eq_refl eq_refl eq_refl eq_refl) as Hx.
  cbv zeta in Hx. destruct Hx as (_ & _ & _ & Hx).
  apply (Hx working 0).
Defined.

(** X14.  On Windows the stream of an HMD can only be started after a
    successful activation.  Right after [Init], [InitializeStreaming]
    dereferences the missing direct-mode component; once [Activate] has
    created it, [StartStreaming] returns normally and hands the encoder to
    it.  On the other platforms the start after [Init] returns normally. *)
Theorem windows_start_needs_activation (P : Paths) (s loaded : Settings)
    (ds : DisplaySettings) (container_of : Z -> Z) (capacity : nat)
    (accepted : RegisteredDevice -> bool) (init : option string) (unObjectId : Z) :
  m_TrackingRefOnly s = false ->
  let d0 := Init P (g_driver_provider_initial s) capacity accepted in
  InitializeStreaming Win32 init loaded d0 = None /\
  is_Some (InitializeStreaming Linux init loaded d0) /\
  is_Some (InitializeStreaming MacOS init loaded d0) /\
  forall h, hmd d0 = Some h ->
    let working := {| d3d_Initialize := true; d3d_GetAdapterInfo := true |} in
    let activated := OvrHmd_Activate Win32 container_of s ds working h unObjectId in
    fst (fst activated) = vr.VRInitError_None /\
    exists h2 calls,
      OvrHmd_StartStreaming Win32 init (snd (fst activated)) = Some (h2, calls) /\
      m_directModeComponent h2 = Some {| dm_hasEncoder := true |} /\
      is_Some (m_encoder h2) /\ is_Some (m_Listener h2) /\
      m_streamComponentsInitialized h2 = true.
Proof.
  intros Href d0.
  destruct (Init_initial P s capacity accepted)
    as ((h & Hh & _ & _ & _ & Hdm & Hs & Hhmd & Hb) & _ & _).
  fold d0 in Hh. clearbody d0. rewrite Href in Hhmd. simpl in Hhmd.
  unfold InitializeStreaming.
  change (hmd (with_settings d0 loaded)) with (hmd d0). rewrite Hh.
  unfold OvrHmd_StartStreaming. rewrite Hs, Hhmd, Hdm.
  split; [by destruct init|]. split; [eauto|]. split; [eauto|].
  intros h0 [= <-]. cbv zeta. unfold OvrHmd_Activate. rewrite Hb, Hhmd. simpl.
  split; [reflexivity|].
  assert (Hkeep : forall a b c e, IsHMD (hmd_with_activation h a b c e) = IsHMD h)
    by reflexivity.
  rewrite Hs, Hkeep, Hhmd.
  destruct init; simpl; eexists _, _; (split; [reflexivity|]); simpl;
    repeat split; eauto.
Qed.

Lemma windows_start_needs_activation_witness :
  InitializeStreaming Win32 None sample_settings
    (Init sample_paths (g_driver_provider_initial sample_settings) 10 (fun _ => true))
  = None.
Proof.
  apply (windows_start_needs_activation sample_paths sample_settings sample_settings
           sample_display_settings (fun o => o + 100) 10 (fun _ => true) None 0 eq_refl).
Defined.

(** *** The display component *)

(** X15.  For a render size within [int32_t] the two eye viewports tile
    the window: both have the window's height and half its width, the left
    one starts at column 0 and the right one where the left one ends, they
    stay inside the window bounds, and a column is left over exactly when
    the width is odd. *)
Theorem eye_viewports_tile (ds : DisplaySettings) :
  0 <= m_renderWidth ds < 2 ^ 31 ->
  0 <= m_renderHeight ds < 2 ^ 31 ->
  let w := m_renderWidth ds in
  let h := m_renderHeight ds in
  OvrHmd_GetWindowBounds ds = (0, 0, w, h) /\
  OvrHmd_GetEyeOutputViewport ds vr.Eye_Left = (0, 0, w / 2, h) /\
  OvrHmd_GetEyeOutputViewport ds vr.Eye_Right = (w / 2, 0, w / 2, h) /\
  w / 2 + w / 2 <= w /\
  w - (w / 2 + w / 2) = w mod 2.
Proof.
  intros Hw Hh w h.
  assert (Hq : m_renderWidth ds ÷ 2 = m_renderWidth ds / 2)
    by (apply Z.quot_div_nonneg; lia).
  assert (Hhalf : 0 <= m_renderWidth ds / 2 < 2 ^ 31)
    by (split; [apply Z.div_pos; lia | apply Z.div_lt_upper_bound; lia]).
  unfold OvrHmd_GetWindowBounds, OvrHmd_GetEyeOutputViewport, to_uint32.
  rewrite Hq, !Z.mod_small by lia.
  repeat split.
  - pose proof (Z.div_mod w 2). pose proof (Z.mod_pos_bound w 2). lia.
  - pose proof (Z.div_mod w 2). lia.
Qed.

Lemma eye_viewports_tile_witness :
  OvrHmd_GetEyeOutputViewport sample_display_settings vr.Eye_Right
  = (1440, 0, 1440, 1600) /\
  2881 - (1440 + 1440) = 1.
Proof.
  assert (Hw : 0 <= m_renderWidth sample_display_settings < 2 ^ 31) by (simpl; lia).
  assert (Hh : 0 <= m_renderHeight sample_display_settings < 2 ^ 31) by (simpl; lia).
  destruct (eye_viewports_tile sample_display_settings Hw Hh) as (_ & _ & Hr & _ & Hodd).
  split; [exact Hr | exact Hodd].
Defined.

(** X16.  [SetViewsConfig] and [GetProjectionRaw] agree.  The stored
    configuration is the one given; the raw projection later returned for
    an eye is the one sent to the runtime for that eye, made of the tangents
    of the left and right angles and the negated tangents of the top and
    bottom angles; the two eye-to-head matrices are the identity moved by
    half the interpupillary distance to the left and to the right. *)
Theorem views_config_round_trip (tanf : Q -> Q) (h : OvrHmd) (config : ViewsConfigData) :
  let r := OvrHmd_SetViewsConfig tanf h config in
  fst r = config /\
  (forall eye,
      OvrHmd_GetProjectionRaw tanf (fst r) eye
      = (tanf (fov_left (fov_of config eye)), tanf (fov_right (fov_of config eye)),
         - tanf (fov_top (fov_of config eye)),
         - tanf (fov_bottom (fov_of config eye)))%Q) /\
  exists left_transform right_transform left_proj right_proj,
    snd r = [ Host_SetDisplayEyeToHead (object_id h) left_transform right_transform;
              Host_SetDisplayProjectionRaw (object_id h) left_proj right_proj;
              Host_VendorSpecificEvent (object_id h) vr.VREvent_LensDistortionChanged
                None ] /\
    left_transform = [[1; 0; 0; - ipd_m config / 2.0]; [0; 1; 0; 0]; [0; 0; 1; 0]]%Q /\
    right_transform = [[1; 0; 0; ipd_m config / 2.0]; [0; 1; 0; 0]; [0; 0; 1; 0]]%Q /\
    (fst (vTopLeft left_proj), fst (vBottomRight left_proj),
     snd (vTopLeft left_proj), snd (vBottomRight left_proj))
    = OvrHmd_GetProjectionRaw tanf (fst r) vr.Eye_Left /\
    (fst (vTopLeft right_proj), fst (vBottomRight right_proj),
     snd (vTopLeft right_proj), snd (vBottomRight right_proj))
    = OvrHmd_GetProjectionRaw tanf (fst r) vr.Eye_Right.
Proof.
  intros r. split; [reflexivity|]. split; [by intros []|].
  eexists _, _, _, _. split; [reflexivity|]. repeat split.
Qed.

(** The distance between the two eye origins is the interpupillary
    distance. *)
Lemma eye_transforms_ipd (config : ViewsConfigData) :
  (matrix_get 0 3 (matrix_set 0 3 (ipd_m config / 2.0)%Q MATRIX_IDENTITY)
   = Some (ipd_m config / 2.0)%Q) /\
  (ipd_m config / 2.0 - (- ipd_m config / 2.0) == ipd_m config)%Q.
Proof. split; [reflexivity | field]. Qed.

(** *** Cleanup *)

(** X17.  [Cleanup] releases once and leaves the device table behind.  A
    second [Cleanup] finds the pointers empty: it shuts down no runtime and
    stops no encoder, and returns the same provider.  The entries of the
    device table survive the first [Cleanup], so a battery or property
    update for a registered path then dereferences a destroyed device,
    while an unregistered path is still ignored. *)
Theorem Cleanup_releases_once (platform : Platform) (d3dRender d3dRender' : bool)
    (d : DriverProvider) :
  let d1 := fst (Cleanup platform d3dRender d) in
  hmd d1 = None /\ left_controller d1 = None /\ right_controller d1 = None /\
  tracked_devices d1 = tracked_devices d /\
  host_calls d1 = host_calls d /\
  Cleanup platform d3dRender' d1
  = (d1, [CleanupDriverLog; VR_CLEANUP_SERVER_DRIVER_CONTEXT]) /\
  (forall h, hmd d = Some h ->
     exists rest,
       snd (Cleanup platform d3dRender d)
       = Rust_ShutdownRuntime :: rest ++ [CleanupDriverLog; VR_CLEANUP_SERVER_DRIVER_CONTEXT] /\
       (CEncoder_Stop ∈ rest <-> is_Some (m_encoder h)) /\
       Rust_ShutdownRuntime ∉ rest) /\
  (forall k r gauge_value is_plugged prop,
      tracked_devices d !! k = Some r ->
      SetBattery k gauge_value is_plugged d1 = None /\
      SetOpenvrProperty k prop d1 = None) /\
  (forall k gauge_value is_plugged prop,
      tracked_devices d !! k = None ->
      SetBattery k gauge_value is_plugged d1 = Some d1 /\
      SetOpenvrProperty k prop d1 = Some d1).
Proof.
  intros d1. subst d1. simpl.
  split; [reflexivity|]. split; [reflexivity|]. split; [reflexivity|].
  split; [reflexivity|]. split; [reflexivity|]. split; [reflexivity|].
  split; [|split].
  - intros h ->. unfold OvrHmd_destroy.
    exists ((match m_encoder h with Some _ => [CEncoder_Stop] | None => [] end)
            ++ match platform with
               | Win32 => if d3dRender then [D3DRender_Shutdown] else []
               | _ => []
               end).
    split; [by rewrite <- !app_assoc|].
    destruct (m_encoder h), platform, d3dRender; simpl; split;
      rewrite ?elem_of_cons, ?elem_of_nil; try split;
      intros; eauto; intuition (try discriminate; try done);
      match goal with H : is_Some None |- _ => destruct H as [? H]; discriminate end.
  - intros k r g p prop Hk. unfold SetBattery, SetOpenvrProperty. simpl.
    rewrite Hk. by destruct r.
  - intros k g p prop Hk. unfold SetBattery, SetOpenvrProperty. simpl.
    by rewrite Hk.
Qed.

Lemma Cleanup_releases_once_witness :
  SetBattery 1 0.5 true (fst (Cleanup Linux false sample_streaming)) = None /\
  SetBattery 9 0.5 true (fst (Cleanup Linux false sample_streaming))
  = Some (fst (Cleanup Linux false sample_streaming)).
Proof.
  pose proof (Cleanup_releases_once Linux false false sample_streaming) as Hx.
  cbv zeta in Hx. destruct Hx as (_ & _ & _ & _ & _ & _ & _ & Hreg & Hun).
  split.
  - apply (Hreg 1 RefHmd 0.5%Q true (mkOpenvrProperty 0 0)). reflexivity.
  - apply (Hun 9 0.5%Q true (mkOpenvrProperty 0 0)). reflexivity.
Defined.

(** *** The ffmpeg helpers *)

Lemma find_first {A} (f : A -> bool) (l : list A) (x : A) :
  List.find f l = Some x ->
  exists i : nat, l !! i = Some x /\ f x = true /\
                  forall (j : nat) y, (j < i)%nat -> l !! j = Some y -> f y = false.
Proof.
  induction l as [|a l IH]; simpl; [discriminate|].
  destruct (f a) eqn:Hfa.
  - intros [= <-]. exists 0%nat. repeat split; [exact Hfa|]. intros j y Hj. lia.
  - intros Hfind. destruct (IH Hfind) as (i & Hi & Hfx & Hmin).
    exists (S i). repeat split; [exact Hi | exact Hfx |].
    intros [|j] y Hj Hy; simpl in Hy.
    + by injection Hy as <-.
    + apply (Hmin j y); [lia | exact Hy].
Qed.

(** X18.  [vk_format_to_av_format] is a first-match search.  A result is a
    pixel format of the range [[AV_PIX_FMT_NONE, AV_PIX_FMT_NB)] whose
    Vulkan format is the one asked for, and no smaller pixel format of the
    range has it; the function throws exactly when no pixel format of the
    range has that Vulkan format. *)
Theorem vk_format_first_match (av_vkfmt_from_pixfmt : Z -> option Z)
    (AV_PIX_FMT_NB vk_fmt : Z) :
  (forall f,
      vk_format_to_av_format av_vkfmt_from_pixfmt AV_PIX_FMT_NB vk_fmt = inr f ->
      AV_PIX_FMT_NONE <= f < AV_PIX_FMT_NB /\
      av_vkfmt_from_pixfmt f = Some vk_fmt /\
      forall g, AV_PIX_FMT_NONE <= g < f -> av_vkfmt_from_pixfmt g <> Some vk_fmt) /\
  ((exists e, vk_format_to_av_format av_vkfmt_from_pixfmt AV_PIX_FMT_NB vk_fmt = inl e) <->
   forall f, AV_PIX_FMT_NONE <= f < AV_PIX_FMT_NB ->
             av_vkfmt_from_pixfmt f <> Some vk_fmt).
Proof.
  set (test := fun f => match av_vkfmt_from_pixfmt f with
                        | Some current_fmt => current_fmt =? vk_fmt
                        | None => false
                        end).
  assert (Htest : forall f, test f = true <-> av_vkfmt_from_pixfmt f = Some vk_fmt).
  { intros f. unfold test. destruct (av_vkfmt_from_pixfmt f) as [c|].
    - rewrite Z.eqb_eq. split; [by intros -> | by intros [= ->]].
    - split; discriminate. }
  unfold vk_format_to_av_format. fold test.
  destruct (List.find test _) as [x|] eqn:Hfind.
  - apply find_first in Hfind as (i & Hi & Hx & Hmin).
    apply lookup_seqZ in Hi as [-> Hi].
    split.
    + intros f [= <-]. split; [unfold AV_PIX_FMT_NONE in *; lia|].
      split; [by apply Htest|].
      intros g Hg Hgv. apply Htest in Hgv.
      assert (Hlook : seqZ AV_PIX_FMT_NONE (AV_PIX_FMT_NB - AV_PIX_FMT_NONE)
                        !! Z.to_nat (g - AV_PIX_FMT_NONE) = Some g).
      { apply lookup_seqZ. lia. }
      rewrite (Hmin (Z.to_nat (g - AV_PIX_FMT_NONE)) g ltac:(lia) Hlook) in Hgv.
      discriminate.
    + split; [intros [e He]; discriminate|].
      intros Hnone. exfalso.
      apply (Hnone (AV_PIX_FMT_NONE + Z.of_nat i));
        [unfold AV_PIX_FMT_NONE in *; lia|].
      by apply Htest.
  - split; [discriminate|]. split; [|eauto].
    intros _ f Hf Hv. apply Htest in Hv.
    pose proof (List.find_none _ _ Hfind f) as Hn.
    rewrite Hn in Hv; [discriminate|].
    apply list_elem_of_In. apply elem_of_seqZ. lia.
Qed.

Lemma vk_format_first_match_witness :
  vk_format_to_av_format sample_vkfmt_table 200 37 = inr 26 /\
  forall g, AV_PIX_FMT_NONE <= g < 26 -> sample_vkfmt_table g <> Some 37.
Proof.
  assert (Hr : vk_format_to_av_format sample_vkfmt_table 200 37 = inr 26)
    by (vm_compute; reflexivity).
  split; [exact Hr|].
  apply (proj1 (vk_format_first_match sample_vkfmt_table 200 37) 26 Hr).
Defined.

Lemma LOAD_LIB_spec (Load : string -> bool) (root : string) (lib : string * string) :
  LOAD_LIB Load root (fst lib) (snd lib)
  = if loadable Load root lib
    then inr (preferred_path Load root lib)
    else inl (runtime_error ("failed to load " ++ soname lib)).
Proof.
  unfold LOAD_LIB, loadable, preferred_path, soname.
  destruct (Load (root ++ "/" ++ _)%string); [reflexivity|].
  by destruct (Load _).
Qed.

Lemma load_all_spec (Load : string -> bool) (root : string) (libs : list (string * string)) :
  match load_all Load root libs with
  | inr paths =>
      Forall (fun lib => loadable Load root lib = true) libs /\
      paths = preferred_path Load root <$> libs
  | inl e =>
      exists before lib after,
        libs = before ++ lib :: after /\
        Forall (fun l => loadable Load root l = true) before /\
        loadable Load root lib = false /\
        e = runtime_error ("failed to load " ++ soname lib)
  end.
Proof.
  induction libs as [|[name version] libs IH]; [by split|].
  cbn [load_all].
  change (LOAD_LIB Load root name version)
    with (LOAD_LIB Load root (fst (name, version)) (snd (name, version))).
  rewrite (LOAD_LIB_spec Load root (name, version)).
  destruct (loadable Load root (name, version)) eqn:Hl.
  - destruct (load_all Load root libs) as [e|paths].
    + destruct IH as (before & lib & after & -> & Hb & Hn & ->).
      exists ((name, version) :: before), lib, after.
      split; [reflexivity|]. split; [by constructor|]. by split.
    + destruct IH as [Hall ->]. split; [by constructor | reflexivity].
  - exists [], (name, version), libs. by repeat split.
Qed.

(** X19.  [alvr::libav::libav] loads avutil, avcodec, swscale and avfilter
    in this order, each as the file [lib<name>.so.<version>] directly under
    the driver root directory when it loads from there, and by its bare
    file name (the loader's search path) otherwise.  It succeeds exactly
    when each of the four can be loaded in one of the two ways, and then
    the loaded paths are the preferred ones; otherwise it throws for the
    first library, in this order, that loads in neither way, naming its
    file. *)
Theorem libav_loading (Load : string -> bool)
    (g_driverRootDir avutil avcodec swscale avfilter : string) :
  let libs := libav_libraries avutil avcodec swscale avfilter in
  let r := libav_new Load g_driverRootDir avutil avcodec swscale avfilter in
  ((exists paths, r = inr paths) <->
   Forall (fun lib => loadable Load g_driverRootDir lib = true) libs) /\
  (forall paths, r = inr paths -> paths = preferred_path Load g_driverRootDir <$> libs) /\
  (forall e, r = inl e ->
     exists before lib after,
       libs = before ++ lib :: after /\
       Forall (fun l => loadable Load g_driverRootDir l = true) before /\
       loadable Load g_driverRootDir lib = false /\
       e = runtime_error ("failed to load " ++ soname lib)).
Proof.
  intros libs r.
  pose proof (load_all_spec Load g_driverRootDir libs) as Hspec.
  change (load_all Load g_driverRootDir libs) with r in Hspec.
  destruct r as [e|paths].
  - destruct Hspec as (before & lib & after & Hlibs & Hb & Hn & He).
    split; [|split].
    + split; [intros [paths Hp]; discriminate|].
      intros Hall. exfalso. rewrite Hlibs in Hall.
      apply Forall_app in Hall as [_ Hall]. apply Forall_cons in Hall as [Hl _].
      congruence.
    + discriminate.
    + intros e' [= <-]. by exists before, lib, after.
  - destruct Hspec as [Hall ->]. split; [|split].
    + split; [by intros _ | eauto].
    + by intros paths' [= <-].
    + discriminate.
Qed.

Lemma libav_loading_witness :
  libav_new sample_loader "/opt/alvr" "58" "60" "6" "8"
  = inl (runtime_error "failed to load libavfilter.so.8") /\
  exists lib, loadable sample_loader "/opt/alvr" lib = false.
Proof.
  assert (Hr : libav_new sample_loader "/opt/alvr" "58" "60" "6" "8"
               = inl (runtime_error "failed to load libavfilter.so.8"))
    by (vm_compute; reflexivity).
  split; [exact Hr|].
  destruct (proj2 (proj2 (libav_loading sample_loader "/opt/alvr" "58" "60" "6" "8"))
              _ Hr) as (before & lib & after & _ & _ & Hn & _).
  by exists lib.
Defined.

Lemma find_first_intro {A} (f : A -> bool) (l : list A) (i : nat) (x : A) :
  l !! i = Some x -> f x = true ->
  (forall (j : nat) y, (j < i)%nat -> l !! j = Some y -> f y = false) ->
  List.find f l = Some x.
Proof.
  revert i. induction l as [|a l IH]; intros [|i] Hi Hx Hmin; simpl in *;
    try discriminate.
  - injection Hi as ->. by rewrite Hx.
  - rewrite (Hmin 0%nat a); [|lia|reflexivity].
    apply (IH i Hi Hx). intros j y Hj Hy. apply (Hmin (S j) y); [lia | exact Hy].
Qed.

(** X20.  The [VkContext] constructor takes the first physical device
    whose name is the requested one (the first device at all when no name
    is given).  It reports "Failed to find vulkan device." when no device
    matches, and the ffmpeg error only after a device was found.  When it
    succeeds the initialisation returned 0, and the context is a DRM one
    exactly when the device is not an NVIDIA one and software encoding is
    not forced.  Whenever some device matches, the outcome is the one of
    the first that does: "Failed to find vulkan device." when its handle is
    the null handle, and otherwise the context of that device when the
    initialisation returns 0 and the ffmpeg error with the returned code
    when it does not. *)
Theorem VkContext_device_choice (deviceName : option string)
    (physicalDevices : list PhysicalDevice) (m_force_sw_encoding : bool) (ret : Z) :
  let r := VkContext_construct deviceName physicalDevices m_force_sw_encoding ret in
  (forall dev drmContext,
      r = inr (dev, drmContext) ->
      ret = 0 /\ pd_handle dev <> VK_NULL_HANDLE /\
      device_matches deviceName dev = true /\
      (exists i : nat,
          physicalDevices !! i = Some dev /\
          forall (j : nat) other, (j < i)%nat -> physicalDevices !! j = Some other ->
                                  device_matches deviceName other = false) /\
      drmContext = negb m_force_sw_encoding && negb (pd_vendorID dev =? 0x10de)) /\
  (forall what averror,
      r = inl (AvException what averror) ->
      averror = ret /\ ret <> 0 /\
      exists dev, dev ∈ physicalDevices /\ device_matches deviceName dev = true) /\
  ((forall dev, dev ∈ physicalDevices -> device_matches deviceName dev = false) ->
   r = inl (runtime_error "Failed to find vulkan device.")) /\
  (forall (i : nat) dev,
      physicalDevices !! i = Some dev ->
      device_matches deviceName dev = true ->
      (forall (j : nat) other, (j < i)%nat -> physicalDevices !! j = Some other ->
                               device_matches deviceName other = false) ->
      r = if pd_handle dev =? VK_NULL_HANDLE
          then inl (runtime_error "Failed to find vulkan device.")
          else if ret =? 0
               then inr (dev, negb m_force_sw_encoding && negb (pd_vendorID dev =? 0x10de))
               else inl (AvException "failed to initialize ffmpeg" ret)).
Proof.
  intros r. subst r. unfold VkContext_construct.
  change (fun dev : PhysicalDevice =>
            match deviceName with
            | Some name => (pd_deviceName dev =? name)%string
            | None => true
            end) with (device_matches deviceName).
  split; [|split; [|split]]; cycle 3.
  { intros i dev Hi Hm Hmin.
    rewrite (find_first_intro _ _ i dev Hi Hm Hmin).
    destruct (pd_handle dev =? VK_NULL_HANDLE); [reflexivity|].
    destruct (ret =? 0); simpl; [|reflexivity].
    by destruct m_force_sw_encoding. }
  all: destruct (List.find (device_matches deviceName) physicalDevices) as [dev|] eqn:Hfind;
    [pose proof (find_first _ _ _ Hfind) as (i & Hi & Hm & Hmin)|].
  - intros dev' drm.
    destruct (Z.eqb_spec (pd_handle dev) VK_NULL_HANDLE) as [|Hnn]; [discriminate|].
    destruct (Z.eqb_spec ret 0) as [->|]; [|discriminate].
    simpl. intros [= <- <-].
    split; [reflexivity|]. split; [exact Hnn|]. split; [exact Hm|].
    split; [by exists i|]. by destruct m_force_sw_encoding.
  - discriminate.
  - intros what code.
    destruct (pd_handle dev =? VK_NULL_HANDLE); [discriminate|].
    destruct (Z.eqb_spec ret 0) as [|Hne]; [discriminate|].
    simpl. intros [= <- <-]. split; [reflexivity|]. split; [exact Hne|].
    exists dev. split; [|exact Hm]. by apply (list_elem_of_lookup_2 _ i).
  - discriminate.
  - intros Hnone. exfalso.
    rewrite (Hnone dev) in Hm; [discriminate|]. by apply (list_elem_of_lookup_2 _ i).
  - reflexivity.
Qed.

Lemma VkContext_device_choice_witness :
  VkContext_construct None sample_devices false 0
  = inr ({| pd_handle := 11; pd_deviceName := "llvmpipe"; pd_vendorID := 0x10005 |}, true) /\
  VkContext_construct (Some "Intel Arc"%string) sample_devices false 0
  = inl (runtime_error "Failed to find vulkan device.").
Proof.
  split.
  - apply (proj2 (proj2 (proj2 (VkContext_device_choice None sample_devices false 0)))
             0%nat
             {| pd_handle := 11; pd_deviceName := "llvmpipe"; pd_vendorID := 0x10005 |}).
    + reflexivity.
    + reflexivity.
    + intros j other Hj. lia.
  - apply (proj1 (proj2 (proj2 (VkContext_device_choice (Some "Intel Arc"%string)
                                  sample_devices false 0)))).
    intros dev Hdev. unfold sample_devices in Hdev.
    rewrite !elem_of_cons, elem_of_nil in Hdev.
    destruct Hdev as [-> | [-> | [-> | []]]]; reflexivity.
Defined.

(** *** The streaming state *)

Lemma stream_consistent_view (h h' : OvrHmd) :
  stream_view h' = stream_view h -> stream_consistent h -> stream_consistent h'.
Proof.
  unfold stream_view, stream_consistent. intros [= -> -> -> ->]. done.
Qed.

Lemma OnPoseUpdated_view platform s h ts motion :
  stream_view (fst (OvrHmd_OnPoseUpdated platform s h ts motion)) = stream_view h.
Proof.
  unfold OvrHmd_OnPoseUpdated.
  destruct (object_id h =? _); [reflexivity|].
  destruct platform; try reflexivity.
  by destruct (negb (m_refreshRateSet h) && _).
Qed.

Lemma StartStreaming_consistent platform init h h' calls :
  stream_consistent h ->
  OvrHmd_StartStreaming platform init h = Some (h', calls) ->
  stream_consistent h'.
Proof.
  intros (Hl & He & Hhmd). unfold OvrHmd_StartStreaming.
  destruct (m_streamComponentsInitialized h) eqn:Hs.
  - intros [= <- <-]. unfold stream_consistent. by rewrite Hs.
  - assert (Hnone : m_encoder h = None).
    { destruct (m_encoder h); [|reflexivity]. by specialize (He eq_refl). }
    destruct (IsHMD h) eqn:Hh.
    + destruct platform.
      * destruct init; simpl; destruct (m_directModeComponent h); try discriminate;
          intros [= <- <-]; unfold stream_consistent; simpl; done.
      * intros [= <- <-]. unfold stream_consistent. simpl. done.
      * intros [= <- <-]. unfold stream_consistent. simpl. done.
    + intros [= <- <-]. unfold stream_consistent, IsHMD in *. simpl.
      rewrite Hnone. simpl. split; [done|]. split; [done|]. intros _ Hx.
      rewrite Hh in Hx. discriminate.
Qed.

Lemma SetTracking_view P platform ts offset lh rh motions : forall d,
  (stream_view <$> hmd (SetTracking P platform ts offset motions lh rh d))
  = (stream_view <$> hmd d).
Proof.
  induction motions as [|m ms IH]; intros d; [reflexivity|].
  rewrite SetTracking_cons, IH.
  destruct (step_trace P platform ts offset lh rh d m) as [Hstep _].
  destruct (hmd d) as [h|].
  - destruct (deviceID m =? HEAD_ID P); destruct Hstep as [-> _]; simpl;
      [by rewrite OnPoseUpdated_view | reflexivity].
  - by destruct Hstep as [-> _].
Qed.

Lemma provider_consistent_view (d d' : DriverProvider) :
  (stream_view <$> hmd d') = (stream_view <$> hmd d) ->
  provider_consistent d -> provider_consistent d'.
Proof.
  intros Hv Hc h' Hh'. rewrite Hh' in Hv.
  destruct (hmd d) as [h|] eqn:Hh; [|discriminate].
  simpl in Hv. apply (stream_consistent_view h h'); [congruence | by apply Hc].
Qed.

(** X21.  The entry points keep the streaming state of the HMD
    consistent: the listener exists exactly when the stream components are
    initialized, an encoder exists only then, and an HMD then has one.
    This holds after [Init] and is kept by streaming start, tracking, haptic
    frames, IDR requests, video-error and latency reports, bitrate
    parameters and frame capture, and by activation and deactivation.  In
    such a state a video-error report for an HMD never dereferences a
    missing encoder. *)
Theorem stream_state_invariant (P : Paths) (platform : Platform)
    (pow : Q -> Q -> float)
    (report : ClientConnection -> Z -> ClientConnection) (capture : CEncoder -> CEncoder) :
  (forall s capacity accepted,
      provider_consistent (Init P (g_driver_provider_initial s) capacity accepted)) /\
  (forall d, provider_consistent d ->
     (forall init loaded d',
         InitializeStreaming platform init loaded d = Some d' -> provider_consistent d') /\
     (forall ts offset motions lh rh,
         provider_consistent (SetTracking P platform ts offset motions lh rh d)) /\
     (forall events, provider_consistent (RunFrame P pow d events)) /\
     provider_consistent (RequestIDR d) /\
     (forall d', VideoErrorReportReceive d = Some d' -> provider_consistent d') /\
     (forall latencyUs, provider_consistent (ReportNetworkLatency report latencyUs d)) /\
     (forall bitrate_mbs adaptive bitrate_max,
         provider_consistent (SetBitrateParameters bitrate_mbs adaptive bitrate_max d)) /\
     provider_consistent (CaptureFrame platform capture d) /\
     (forall h, hmd d = Some h -> IsHMD h = true ->
                is_Some (VideoErrorReportReceive d))) /\
  (forall container_of s ds d3d h unObjectId,
      stream_consistent h ->
      stream_consistent
        (snd (fst (OvrHmd_Activate platform container_of s ds d3d h unObjectId))) /\
      stream_consistent (OvrHmd_Deactivate h)).
Proof.
  split; [|split].
  - intros s capacity accepted h Hh.
    destruct (Init_initial P s capacity accepted)
      as ((h' & Hh' & _ & Hl & He & _ & Hs & _) & _ & _).
    rewrite Hh' in Hh. injection Hh as <-.
    unfold stream_consistent. rewrite Hl, He, Hs. simpl. done.
  - intros d Hc.
    split; [|split; [|split; [|split; [|split; [|split; [|split; [|split]]]]]]].
    + intros init loaded d'. unfold InitializeStreaming.
      change (hmd (with_settings d loaded)) with (hmd d).
      destruct (hmd d) as [h|] eqn:Hh.
      * destruct (OvrHmd_StartStreaming platform init h) as [[h1 calls]|] eqn:Hs;
          [|discriminate].
        intros [= <-] h' [= <-].
        apply (StartStreaming_consistent platform init h h1 calls); [by apply Hc | exact Hs].
      * intros [= <-] h' Hh'. simpl in Hh'. congruence.
    + intros ts offset motions lh rh.
      apply (provider_consistent_view d); [apply SetTracking_view | exact Hc].
    + intros events. apply (provider_consistent_view d); [|exact Hc].
      by rewrite (proj1 (RunFrame_preserved P pow events d)).
    + apply (provider_consistent_view d); [|exact Hc]. unfold RequestIDR.
      destruct (hmd d) as [h|] eqn:Hh; [|by rewrite Hh].
      destruct (m_encoder h) eqn:He; [|by rewrite Hh].
      simpl. unfold stream_view. simpl. by rewrite He.
    + intros d'. unfold VideoErrorReportReceive.
      destruct (hmd d) as [h|] eqn:Hh; [|intros [= <-] h'; congruence].
      destruct (m_Listener h) eqn:Hl; [|intros [= <-] h' Hh'; apply Hc; congruence].
      destruct (m_encoder h) eqn:He; [|discriminate].
      intros [= <-]. apply (provider_consistent_view d); [|exact Hc].
      rewrite Hh. simpl. unfold stream_view. simpl. by rewrite Hl, He.
    + intros latencyUs. apply (provider_consistent_view d); [|exact Hc].
      unfold ReportNetworkLatency.
      destruct (hmd d) as [h|] eqn:Hh; [|by rewrite Hh].
      destruct (m_Listener h) eqn:Hl; [|by rewrite Hh].
      simpl. unfold stream_view. simpl. by rewrite Hl.
    + intros bitrate_mbs adaptive bitrate_max.
      apply (provider_consistent_view d); [|exact Hc].
      unfold SetBitrateParameters.
      destruct (hmd d) as [h|] eqn:Hh; [|by rewrite Hh].
      destruct (m_Listener h) eqn:Hl; [|by rewrite Hh].
      destruct adaptive; simpl; unfold stream_view; simpl; by rewrite Hl.
    + apply (provider_consistent_view d); [|exact Hc]. unfold CaptureFrame.
      destruct platform; try reflexivity;
        (destruct (hmd d) as [h|] eqn:Hh; [|by rewrite Hh]);
        (destruct (m_encoder h) eqn:He; [|by rewrite Hh]);
        simpl; unfold stream_view; simpl; by rewrite He.
    + intros h Hh Hhmd. destruct (Hc h Hh) as (Hl & _ & He).
      unfold VideoErrorReportReceive. rewrite Hh.
      destruct (m_Listener h) eqn:Hlis; [|eauto].
      simpl in Hl. specialize (He Hl Hhmd).
      destruct (m_encoder h); [eauto | discriminate].
  - intros container_of s ds d3d h unObjectId Hc. split.
    + apply (stream_consistent_view h); [|exact Hc].
      destruct (Activate_state platform container_of s ds d3d h unObjectId)
        as (_ & _ & _ & Hcls & _ & _ & Hl & He & Hs & _).
      unfold stream_view, IsHMD. by rewrite Hcls, Hl, He, Hs.
    + by apply (stream_consistent_view h).
Qed.

Lemma stream_state_invariant_witness :
  is_Some (VideoErrorReportReceive sample_streaming).
Proof.
  pose proof (stream_state_invariant sample_paths Linux sample_pow (fun l _ => l)
                (fun e => e)) as (_ & Hkeep & _).
  assert (Hc : provider_consistent sample_streaming).
  { intros h [= <-]. unfold stream_consistent. simpl. done. }
  destruct (Hkeep sample_streaming Hc) as (_ & _ & _ & _ & _ & _ & _ & _ & Hv).
  apply (Hv sample_streaming_hmd); reflexivity.
Defined.

(** *** Registration *)

(** X22.  [Init] registers the head device, then the two controllers
    unless they are disabled, then the Vive tracker proxy when it is
    enabled; the head is a tracking reference or an HMD by the settings and
    the controllers are generic trackers exactly in controller modes 8 and
    9.  A registration the runtime refuses only adds a warning: the
    provider that results is the same whatever the runtime answers. *)
Theorem Init_registration (P : Paths) (d : DriverProvider) (capacity : nat)
    (accepted accepted' : RegisteredDevice -> bool) :
  let s := settings d in
  let d1 := Init P d capacity accepted in
  let d2 := Init P d capacity accepted' in
  hmd d1 = hmd d2 /\ left_controller d1 = left_controller d2 /\
  right_controller d1 = right_controller d2 /\
  tracked_devices d1 = tracked_devices d2 /\ settings d1 = settings d2 /\
  exists new,
    host_calls d1 = host_calls d ++ new /\
    omap added_device new
    = (fun dev =>
         (dev,
          match dev with
          | RegHmd => if m_TrackingRefOnly s
                      then TrackedDeviceClass_TrackingReference
                      else TrackedDeviceClass_HMD
          | RegViveTracker => TrackedDeviceClass_GenericTracker
          | _ => if bool_decide (m_controllerMode s = 8 \/ m_controllerMode s = 9)
                 then TrackedDeviceClass_GenericTracker
                 else TrackedDeviceClass_Controller
          end)) <$> registered_devices s /\
    length (List.filter is_LogWarn new)
    = length (List.filter (fun dev => negb (accepted dev)) (registered_devices s)).
Proof.
  intros s d1 d2. subst d1 d2. unfold Init, OvrHmd_new. fold s.
  assert (Hclass : getControllerDeviceClass s
                   = if bool_decide (m_controllerMode s = 8 \/ m_controllerMode s = 9)
                     then TrackedDeviceClass_GenericTracker
                     else TrackedDeviceClass_Controller).
  { unfold getControllerDeviceClass.
    destruct (Z.eqb_spec (m_controllerMode s) 8), (Z.eqb_spec (m_controllerMode s) 9);
      simpl; case_bool_decide; try reflexivity; try tauto; lia. }
  rewrite Hclass. unfold registered_devices, register.
  destruct (m_disableController s), (m_enableViveTrackerProxy s); simpl;
    (repeat split; try reflexivity);
    eexists; (split; [reflexivity|]);
    destruct (accepted RegHmd), (accepted RegLeft), (accepted RegRight),
      (accepted RegViveTracker); simpl; split; reflexivity.
Qed.
